(** * A shallow embedding of the agent framework's persistent state subsystem

    The development follows [src/agent/state_manager.py] (class
    [StateManager]) and [src/agent/base_agent.py] (class [BaseAgent]).

    - Python values are the inductive [pyval]; the two attributes
      [self.state] and [self.metadata] hold a [pyval] each, because [load]
      assigns them whatever the document contains.
    - A Python [dict] with string keys is an insertion-ordered association
      list, as [json.dump] walks it in that order.
    - Methods are computations in a state-and-exception monad whose state is
      the receiver object paired with the [world] (file system, clock, log).
      A raised exception keeps the mutations made before it.  The abstract
      [process] of an agent is such a computation too.
    - The file system is a finite map from path to [content]; the text of a
      file is represented by what [json.load] makes of it. *)

From stdpp Require Import gmap strings list pretty.

Open Scope string_scope.
Open Scope nat_scope.
Set Warnings "-register-all".

(** ** Exceptions *)

(** An exception is observed through [type(e).__name__] and [str(e)], the two
    things the error hook records, and through [isinstance(e, Exception)],
    which is what the [except Exception] clause of [run] asks: it is false
    of [KeyboardInterrupt], [SystemExit], [GeneratorExit] and of every other
    class that derives from [BaseException] alone. *)
Record exn : Type := MkExn { exn_type : string; exn_str : string; is_Exception : bool }.

(** An instance of a class that derives from [Exception], as all the
    exceptions that the code and the interpreter raise here do. *)
Abbreviation Exn type str := (MkExn type str true).

Inductive result (A : Type) : Type :=
| Ok (a : A)
| Raise (e : exn).
Arguments Ok {A} a.
Arguments Raise {A} e.

Definition is_ok {A} (r : result A) : bool :=
  match r with Ok _ => true | Raise _ => false end.

(** ** Python values *)

(** [PyObject cls] is an instance of a user class named [cls] that has the
    default behaviour of [object]: no container protocol, and no JSON
    encoding.  Numbers are integers; floats are outside the model. *)
Inductive pyval : Type :=
| PyNone
| PyBool (b : bool)
| PyInt (n : Z)
| PyStr (s : string)
| PyList (xs : list pyval)
| PyTuple (xs : list pyval)
| PyDict (kvs : list (string * pyval))
| PyObject (cls : string).

Definition py_type_name (v : pyval) : string :=
  match v with
  | PyNone => "NoneType"
  | PyBool _ => "bool"
  | PyInt _ => "int"
  | PyStr _ => "str"
  | PyList _ => "list"
  | PyTuple _ => "tuple"
  | PyDict _ => "dict"
  | PyObject cls => cls
  end.

(** ** Strings *)

(** [str.endswith]: some suffix of [s] is [suffix]. *)
Fixpoint endswith (s suffix : string) : bool :=
  String.eqb s suffix ||
  match s with
  | EmptyString => false
  | String _ rest => endswith rest suffix
  end.

(** [needle in hay] on two strings. *)
Fixpoint str_contains (needle hay : string) : bool :=
  String.prefix needle hay ||
  match hay with
  | EmptyString => false
  | String _ rest => str_contains needle rest
  end.

(** ** Dictionaries with string keys, in insertion order *)

Section Dict.
Context {V : Type}.
Implicit Types (d : list (string * V)) (k : string) (v : V).

Fixpoint dict_get k d : option V :=
  match d with
  | [] => None
  | (k', v) :: rest => if String.eqb k' k then Some v else dict_get k rest
  end.

Definition dict_mem k d : bool :=
  match dict_get k d with Some _ => true | None => false end.

(** [d[k] = v]: overwrite in place, or append a new entry. *)
Fixpoint dict_set k v d : list (string * V) :=
  match d with
  | [] => [(k, v)]
  | (k', v') :: rest =>
      if String.eqb k' k then (k', v) :: rest else (k', v') :: dict_set k v rest
  end.

(** [del d[k]]. *)
Fixpoint dict_del k d : list (string * V) :=
  match d with
  | [] => []
  | (k', v') :: rest =>
      if String.eqb k' k then dict_del k rest else (k', v') :: dict_del k rest
  end.
End Dict.

(** ** The interpreter's object protocol on [pyval]

    The messages are CPython's (3.12 wording). *)

Definition TypeError (msg : string) : exn := Exn "TypeError" msg.
Definition AttributeError (msg : string) : exn := Exn "AttributeError" msg.
(** [str] of a [KeyError] is the [repr] of the key, written here for a key
    without quotes or escapes. *)
Definition KeyError (key : string) : exn := Exn "KeyError" ("'" +:+ key +:+ "'").

Definition no_attribute (v : pyval) (attr : string) : exn :=
  AttributeError ("'" +:+ py_type_name v +:+ "' object has no attribute '" +:+ attr +:+ "'").

Definition is_str (key : string) (v : pyval) : bool :=
  match v with PyStr s => String.eqb s key | _ => false end.

(** [obj[key] = value] with a string key. *)
Definition py_setitem (obj : pyval) (key : string) (value : pyval) : result pyval :=
  match obj with
  | PyDict kvs => Ok (PyDict (dict_set key value kvs))
  | PyList _ => Raise (TypeError "list indices must be integers or slices, not str")
  | _ => Raise (TypeError ("'" +:+ py_type_name obj +:+ "' object does not support item assignment"))
  end.

(** [key in obj] with a string key. *)
Definition py_contains (key : string) (obj : pyval) : result bool :=
  match obj with
  | PyDict kvs => Ok (dict_mem key kvs)
  | PyList xs | PyTuple xs => Ok (existsb (is_str key) xs)
  | PyStr s => Ok (str_contains key s)
  | _ => Raise (TypeError ("argument of type '" +:+ py_type_name obj +:+ "' is not iterable"))
  end.

(** [del obj[key]] with a string key. *)
Definition py_delitem (obj : pyval) (key : string) : result pyval :=
  match obj with
  | PyDict kvs => if dict_mem key kvs then Ok (PyDict (dict_del key kvs)) else Raise (KeyError key)
  | PyList _ => Raise (TypeError "list indices must be integers or slices, not str")
  | _ => Raise (TypeError ("'" +:+ py_type_name obj +:+ "' object doesn't support item deletion"))
  end.

(** [obj[key]] with a string key. *)
Definition py_getitem (obj : pyval) (key : string) : result pyval :=
  match obj with
  | PyDict kvs => match dict_get key kvs with Some v => Ok v | None => Raise (KeyError key) end
  | PyList _ => Raise (TypeError "list indices must be integers or slices, not str")
  | PyTuple _ => Raise (TypeError "tuple indices must be integers or slices, not str")
  | PyStr _ => Raise (TypeError "string indices must be integers, not 'str'")
  | _ => Raise (TypeError ("'" +:+ py_type_name obj +:+ "' object is not subscriptable"))
  end.

(** [obj.get(key, default)]. *)
Definition py_get (obj : pyval) (key : string) (default : pyval) : result pyval :=
  match obj with
  | PyDict kvs => Ok (match dict_get key kvs with Some v => v | None => default end)
  | _ => Raise (no_attribute obj "get")
  end.

(** [obj.clear()], returning the emptied object. *)
Definition py_clear (obj : pyval) : result pyval :=
  match obj with
  | PyDict _ => Ok (PyDict [])
  | PyList _ => Ok (PyList [])
  | _ => Raise (no_attribute obj "clear")
  end.

(** [obj.copy()]. *)
Definition py_copy (obj : pyval) : result pyval :=
  match obj with
  | PyDict _ | PyList _ => Ok obj
  | _ => Raise (no_attribute obj "copy")
  end.

(** The classes a validation schema can name, and [isinstance].  [bool] is a
    subclass of [int]; every value is an instance of [object]. *)
Inductive pytype : Type :=
| TObject | TNoneType | TBool | TInt | TStr | TList | TTuple | TDict
| TClass (name : string).

Definition isinstance (v : pyval) (t : pytype) : bool :=
  match t, v with
  | TObject, _ => true
  | TNoneType, PyNone => true
  | TBool, PyBool _ => true
  | TInt, PyInt _ => true
  | TInt, PyBool _ => true
  | TStr, PyStr _ => true
  | TList, PyList _ => true
  | TTuple, PyTuple _ => true
  | TDict, PyDict _ => true
  | TClass name, PyObject cls => String.eqb name cls
  | _, _ => false
  end.

(** ** JSON *)

(** The value a JSON text denotes.  An object is given by its members after
    the decoder has resolved repeated names. *)
Inductive json : Type :=
| JNull
| JBool (b : bool)
| JNumber (n : Z)
| JString (s : string)
| JArray (xs : list json)
| JObject (members : list (string * json)).

Definition not_serializable (cls : string) : exn :=
  TypeError ("Object of type " +:+ cls +:+ " is not JSON serializable").

(** [json.dump]: the JSON value written for [v], or the [TypeError] of the
    first object met, in document order, that has no encoding.  Tuples are
    written as arrays. *)
Fixpoint json_dump (v : pyval) : result json :=
  let dump_items :=
    fix go (xs : list pyval) : result (list json) :=
      match xs with
      | [] => Ok []
      | x :: rest =>
          match json_dump x with
          | Raise e => Raise e
          | Ok j => match go rest with Raise e => Raise e | Ok js => Ok (j :: js) end
          end
      end in
  match v with
  | PyNone => Ok JNull
  | PyBool b => Ok (JBool b)
  | PyInt n => Ok (JNumber n)
  | PyStr s => Ok (JString s)
  | PyList xs | PyTuple xs =>
      match dump_items xs with Raise e => Raise e | Ok js => Ok (JArray js) end
  | PyDict kvs =>
      let members :=
        (fix go (kvs : list (string * pyval)) : result (list (string * json)) :=
           match kvs with
           | [] => Ok []
           | (k, x) :: rest =>
               match json_dump x with
               | Raise e => Raise e
               | Ok j => match go rest with Raise e => Raise e | Ok js => Ok ((k, j) :: js) end
               end
           end) kvs in
      match members with Raise e => Raise e | Ok ms => Ok (JObject ms) end
  | PyObject cls => Raise (not_serializable cls)
  end.

(** [json.load] on a well-formed text. *)
Fixpoint json_load (j : json) : pyval :=
  match j with
  | JNull => PyNone
  | JBool b => PyBool b
  | JNumber n => PyInt n
  | JString s => PyStr s
  | JArray xs => PyList (map json_load xs)
  | JObject members => PyDict (map (fun kv => (kv.1, json_load kv.2)) members)
  end.

(** The values JSON represents exactly: no tuple and no foreign object at any
    depth. *)
Fixpoint is_json (v : pyval) : bool :=
  match v with
  | PyNone | PyBool _ | PyInt _ | PyStr _ => true
  | PyList xs => forallb is_json xs
  | PyDict kvs => forallb (fun kv => is_json kv.2) kvs
  | PyTuple _ | PyObject _ => false
  end.

(** ** The world outside the objects *)

(** What the host supplies: the readings of the wall clock, one per call of
    [datetime.now()], the two renderings of an instant the code uses, and
    the decoder's complaint about the partial text that [json.dump] leaves
    behind when it fails on given data. *)
Class Host : Type := {
  clock : nat -> nat;
  isoformat : nat -> string;
  strftime_Ymd_HMS : nat -> string;
  truncated_complaint : pyval -> string
}.

(** A file holds either a JSON text or text the decoder rejects with the
    given complaint. *)
Inductive content : Type :=
| Document (j : json)
| Garbled (complaint : string).

Record log_record : Type := LogRecord {
  log_name : string;
  log_level : string;
  log_message : string
}.

Record world : Type := World {
  fs : gmap string content;
  ticks : nat;
  log : list log_record
}.

Definition with_fs (f : gmap string content) (w : world) : world :=
  {| fs := f; ticks := ticks w; log := log w |}.
Definition tick (w : world) : world :=
  {| fs := fs w; ticks := S (ticks w); log := log w |}.
Definition with_log (l : list log_record) (w : world) : world :=
  {| fs := fs w; ticks := ticks w; log := l |}.

(** [Path(d) / name] for a plain file name, one without a directory part:
    for an absolute [name] pathlib drops [d].  The names the code generates
    are plain; the statements about a name the caller gives say so where it
    matters. *)
Definition path_join (d name : string) : string := d +:+ "/" +:+ name.

(** ** Computations: state and exceptions *)

Definition M (S A : Type) : Type := S -> result A * S.

Definition ret {S A} (a : A) : M S A := fun s => (Ok a, s).
Definition raise {S A} (e : exn) : M S A := fun s => (Raise e, s).
Definition bind {S A B} (m : M S A) (k : A -> M S B) : M S B :=
  fun s => match m s with
           | (Ok a, s') => k a s'
           | (Raise e, s') => (Raise e, s')
           end.
Definition lift {S A} (r : result A) : M S A := fun s => (r, s).

Notation "'let*' x ':=' m 'in' k" := (bind m (fun x => k))
  (at level 10, x name, m at level 100, k at level 200).
Notation "m ';;' k" := (bind m (fun _ => k))
  (at level 100, k at level 200, right associativity).

Section Objects.
Context {O : Type}.

Definition self : M (O * world) O := fun s => (Ok s.1, s).
Definition update (f : O -> O) : M (O * world) unit := fun s => (Ok tt, (f s.1, s.2)).
Definition the_world : M (O * world) world := fun s => (Ok s.2, s).
Definition change_world (f : world -> world) : M (O * world) unit :=
  fun s => (Ok tt, (s.1, f s.2)).

(** [datetime.now()]: the next reading of the clock. *)
Definition now `{Host} : M (O * world) nat :=
  fun s => (Ok (clock (ticks s.2)), (s.1, tick s.2)).

(** [with open(path, 'w') as f: json.dump(data, f, indent=2)].  Opening
    truncates the file; the encoder streams its output, so a failure
    leaves a text the decoder rejects.  The directory of [path] exists:
    the code creates [state_dir] and the backup directory before it writes
    there, and a plain file name adds no directory of its own (directories
    are implicit in [fs], so that [open] on a path whose directory is
    missing is outside the model). *)
Definition write_json `{Host} (path : string) (data : pyval) : M (O * world) unit :=
  match json_dump data with
  | Ok j => change_world (fun w => with_fs (<[path := Document j]> (fs w)) w)
  | Raise e =>
      change_world (fun w => with_fs (<[path := Garbled (truncated_complaint data)]> (fs w)) w);;
      raise e
  end.
End Objects.

(** ** [StateManager] (state_manager.py) *)

Record StateManager : Type := {
  state_dir : string;
  autosave : bool;
  state : pyval;
  metadata : pyval
}.

Definition with_state (v : pyval) (sm : StateManager) : StateManager :=
  {| state_dir := state_dir sm; autosave := autosave sm; state := v; metadata := metadata sm |}.
Definition with_metadata (v : pyval) (sm : StateManager) : StateManager :=
  {| state_dir := state_dir sm; autosave := autosave sm; state := state sm; metadata := v |}.

Module StateManager.
Section Methods.
Context `{Host}.

Definition method (A : Type) : Type := M (StateManager * world) A.

(** [__init__] (lines 25-40): the directory is created (directories are
    implicit in [fs]), the entries are empty, and the clock is read twice.
    It cannot raise, so it is a plain function of the world. *)
Definition __init__ (state_dir : string) (autosave : bool) (w : world) : StateManager * world :=
  let created := clock (ticks w) in
  let updated := clock (ticks (tick w)) in
  ({| state_dir := state_dir;
      autosave := autosave;
      state := PyDict [];
      metadata := PyDict [("created_at", PyStr (isoformat created));
                          ("updated_at", PyStr (isoformat updated));
                          ("version", PyStr "1.0")] |},
   tick (tick w)).

(** The file [save] writes for a given name, and the file [load] reads. *)
Definition save_path (sm : StateManager) (filename : string) : string :=
  path_join (state_dir sm) (filename +:+ ".json").

Definition load_path (sm : StateManager) (filename : string) : string :=
  path_join (state_dir sm)
    (if endswith filename ".json" then filename else filename +:+ ".json").

(** [self.metadata["updated_at"] = datetime.now().isoformat()]: the right
    side is evaluated first. *)
Definition touch : method unit :=
  let* t := now in
  let* sm := self in
  let* m := lift (py_setitem (metadata sm) "updated_at" (PyStr (isoformat t))) in
  update (with_metadata m).

(** [save] (lines 93-115). *)
Definition save (filename : option string) : method string :=
  let* filename :=
    match filename with
    | Some name => ret name
    | None => let* t := now in ret ("state_" +:+ strftime_Ymd_HMS t)
    end in
  let* sm := self in
  let filepath := save_path sm filename in
  let data := PyDict [("metadata", metadata sm); ("state", state sm)] in
  write_json filepath data;;
  ret filepath.

(** [set] (lines 42-53): the in-memory update, the stamp, the autosave. *)
Definition set (key : string) (value : pyval) : method unit :=
  let* sm := self in
  let* st := lift (py_setitem (state sm) key value) in
  update (with_state st);;
  touch;;
  let* sm := self in
  if autosave sm then (save None;; ret tt) else ret tt.

(** [get] (lines 55-65). *)
Definition get (key : string) (default : pyval) : method pyval :=
  let* sm := self in
  lift (py_get (state sm) key default).

(** [delete] (lines 67-83). *)
Definition delete (key : string) : method bool :=
  let* sm := self in
  let* present := lift (py_contains key (state sm)) in
  if present then
    let* st := lift (py_delitem (state sm) key) in
    update (with_state st);;
    touch;;
    let* sm := self in
    (if autosave sm then (save None;; ret tt) else ret tt);;
    ret true
  else ret false.

(** [clear] (lines 85-91). *)
Definition clear : method unit :=
  let* sm := self in
  let* st := lift (py_clear (state sm)) in
  update (with_state st);;
  touch;;
  let* sm := self in
  if autosave sm then (save None;; ret tt) else ret tt.

(** [load] (lines 117-136): the two attributes are assigned one after the
    other, then the stamp is set on the new metadata. *)
Definition load (filename : string) : method unit :=
  let* sm := self in
  let filepath := load_path sm filename in
  let* w := the_world in
  match fs w !! filepath with
  | None => raise (Exn "FileNotFoundError" ("State file not found: " +:+ filepath))
  | Some (Garbled complaint) => raise (Exn "JSONDecodeError" complaint)
  | Some (Document j) =>
      let data := json_load j in
      let* st := lift (py_get data "state" (PyDict [])) in
      update (with_state st);;
      let* md := lift (py_get data "metadata" (PyDict [])) in
      update (with_metadata md);;
      touch
  end.

(** [list_states] (lines 138-144): the names in the directory that match
    [*.json], in the order the file system gives them. *)
Definition list_states : method (list string) :=
  let* sm := self in
  let* w := the_world in
  let prefix := state_dir sm +:+ "/" in
  let name_of (p : string) : option string :=
    if String.prefix prefix p then
      let name := String.substring (String.length prefix) (String.length p - String.length prefix) p in
      if negb (str_contains "/" name) && endswith name ".json" then Some name else None
    else None in
  ret (omap name_of (map fst (map_to_list (fs w)))).

(** [backup] (lines 146-173); an empty [backup_dir] is falsy. *)
Definition backup (backup_dir : option string) : method string :=
  let* sm := self in
  let backup_path :=
    match backup_dir with
    | Some d => if String.eqb d "" then path_join (state_dir sm) "backups" else d
    | None => path_join (state_dir sm) "backups"
    end in
  let* t := now in
  let backup_filename := "backup_" +:+ strftime_Ymd_HMS t in
  let backup_filepath := path_join backup_path (backup_filename +:+ ".json") in
  let data := PyDict [("metadata", metadata sm); ("state", state sm)] in
  write_json backup_filepath data;;
  ret backup_filepath.

(** [validate_state] (lines 175-188): the loop over [schema.items()],
    leaving at the first mismatch. *)
Fixpoint validate_state (schema : list (string * pytype)) : method bool :=
  match schema with
  | [] => ret true
  | (key, expected_type) :: rest =>
      let* sm := self in
      let* present := lift (py_contains key (state sm)) in
      if present then
        let* v := lift (py_getitem (state sm) key) in
        if negb (isinstance v expected_type) then ret false
        else validate_state rest
      else validate_state rest
  end.

(** [get_metadata] (lines 190-196). *)
Definition get_metadata : method pyval :=
  let* sm := self in
  lift (py_copy (metadata sm)).
End Methods.
End StateManager.

(** ** [BaseAgent] (base_agent.py) *)

Record BaseAgent : Type := {
  agent_id : string;
  state_manager : StateManager;
  is_running : bool
}.

Definition with_state_manager (sm : StateManager) (a : BaseAgent) : BaseAgent :=
  {| agent_id := agent_id a; state_manager := sm; is_running := is_running a |}.
Definition with_is_running (b : bool) (a : BaseAgent) : BaseAgent :=
  {| agent_id := agent_id a; state_manager := state_manager a; is_running := b |}.

(** [try: body / except Exception as e: handler(e)]: an exception that is
    not an instance of [Exception] passes through. *)
Definition try_except {S A} (body : M S A) (handler : exn -> M S A) : M S A :=
  fun s => match body s with
           | (Ok a, s') => (Ok a, s')
           | (Raise e, s') => if is_Exception e then handler e s' else (Raise e, s')
           end.

(** [try: body / finally: final]: [final] always runs; when it raises, its
    exception replaces the outcome of [body]. *)
Definition try_finally {S A} (body : M S A) (final : M S unit) : M S A :=
  fun s => let (r, s') := body s in
           match final s' with
           | (Ok _, s'') => (r, s'')
           | (Raise e, s'') => (Raise e, s'')
           end.

Module BaseAgent.
Section Methods.
Context `{Host}.

Definition method (A : Type) : Type := M (BaseAgent * world) A.

(** The abstract [process] of a concrete agent (lines 81-93): a method like
    the others, which may return or raise, and may change the agent and the
    world on the way. *)
Variable process : pyval -> method pyval.

(** A call on [self.state_manager]. *)
Definition on_state_manager {A} (m : StateManager.method A) : method A :=
  fun s => let '(r, (sm, w)) := m (state_manager s.1, s.2) in
           (r, (with_state_manager sm s.1, w)).

Definition logger (level message : string) : method unit :=
  let* a := self in
  change_world (fun w => with_log (log w ++ [LogRecord (agent_id a) level message]) w).

(** [__init__] (lines 25-43).  The log directory and the handlers of
    [_setup_logging] have no counterpart: the log of the model is the list of
    records in the world. *)
Definition __init__ (agent_id state_dir log_dir : string) (autosave : bool) (w : world) :
    BaseAgent * world :=
  let (sm, w) := StateManager.__init__ state_dir autosave w in
  ({| agent_id := agent_id; state_manager := sm; is_running := false |},
   with_log (log w ++ [LogRecord agent_id "INFO" ("Agent " +:+ agent_id +:+ " initialized")]) w).

(** The four hooks (lines 121-147); the argument of [set] is evaluated
    first. *)
Definition on_start : method unit :=
  let* t := now in
  on_state_manager (StateManager.set "last_start" (PyStr (isoformat t))).

Definition on_stop : method unit :=
  let* t := now in
  on_state_manager (StateManager.set "last_stop" (PyStr (isoformat t))).

Definition on_success (result : pyval) : method unit :=
  let* t := now in
  on_state_manager (StateManager.set "last_success" (PyStr (isoformat t))).

Definition on_error (error : exn) : method unit :=
  let* t := now in
  on_state_manager
    (StateManager.set "last_error"
       (PyDict [("timestamp", PyStr (isoformat t));
                ("error", PyStr (exn_str error));
                ("type", PyStr (exn_type error))])).

(** [run] (lines 95-119). *)
Definition run (input_data : pyval) : method pyval :=
  update (with_is_running true);;
  logger "INFO" "Starting agent execution";;
  try_finally
    (try_except
       (on_start;;
        let* result := process input_data in
        on_success result;;
        ret result)
       (fun e =>
          logger "ERROR" ("Error during execution: " +:+ exn_str e);;
          on_error e;;
          raise e))
    (on_stop;;
     update (with_is_running false);;
     logger "INFO" "Agent execution completed").

Definition get_state : method pyval :=
  let* a := self in
  lift (py_copy (state (state_manager a))).

Definition set_state (key : string) (value : pyval) : method unit :=
  on_state_manager (StateManager.set key value).

Definition save_state (filename : option string) : method string :=
  let* a := self in
  let filename := match filename with Some n => n | None => agent_id a +:+ "_state" end in
  on_state_manager (StateManager.save (Some filename)).

Definition load_state (filename : string) : method unit :=
  on_state_manager (StateManager.load filename);;
  logger "INFO" ("State loaded from " +:+ filename).
End Methods.
End BaseAgent.

(** ** A simulated host, for running the model

    Reading number [i] of the clock is the instant [100 + i]; an instant is
    rendered by its decimal digits. *)
Module Sim.
#[export] Instance host : Host := {|
  clock := fun i => 100 + i;
  isoformat := fun t => "T" +:+ pretty t;
  strftime_Ymd_HMS := fun t => pretty (t `div` 10);
  truncated_complaint := fun _ => "Expecting value"
|}.

Definition boot : world := {| fs := ∅; ticks := 0; log := [] |}.
End Sim.

(** ** Sequences of calls

    A caller uses a store through its public methods, one call after the
    other, and may catch what a call raises and go on: the store and the
    world after a call are what the call left, whether it returned or
    raised. *)
Inductive op : Type :=
| OpSet (key : string) (value : pyval)
| OpGet (key : string) (default : pyval)
| OpDelete (key : string)
| OpClear
| OpSave (filename : option string)
| OpLoad (filename : string)
| OpListStates
| OpBackup (backup_dir : option string)
| OpValidateState (schema : list (string * pytype))
| OpGetMetadata.

Definition call `{Host} (o : op) (s : StateManager * world) : StateManager * world :=
  match o with
  | OpSet key value => (StateManager.set key value s).2
  | OpGet key default => (StateManager.get key default s).2
  | OpDelete key => (StateManager.delete key s).2
  | OpClear => (StateManager.clear s).2
  | OpSave filename => (StateManager.save filename s).2
  | OpLoad filename => (StateManager.load filename s).2
  | OpListStates => (StateManager.list_states s).2
  | OpBackup backup_dir => (StateManager.backup backup_dir s).2
  | OpValidateState schema => (StateManager.validate_state schema s).2
  | OpGetMetadata => (StateManager.get_metadata s).2
  end.

Definition calls `{Host} (os : list op) (s : StateManager * world) : StateManager * world :=
  fold_left (λ s o, call o s) os s.

(** Several stores over one file system: a step constructs a new store or
    calls a method of the [i]-th one. *)
Inductive action : Type :=
| New (state_dir : string) (autosave : bool)
| Call (i : nat) (o : op).

Definition act `{Host} (x : action) (sys : list StateManager * world) : list StateManager * world :=
  match x with
  | New d b =>
      let (sm, w) := StateManager.__init__ d b sys.2 in
      ((sys.1 ++ [sm])%list, w)
  | Call i o =>
      match sys.1 !! i with
      | Some sm => let (sm', w) := call o (sm, sys.2) in (<[i := sm']> sys.1, w)
      | None => sys
      end
  end.

Definition acts `{Host} (xs : list action) (sys : list StateManager * world) : list StateManager * world :=
  fold_left (λ sys x, act x sys) xs sys.

(** * The vocabulary of the statements *)

(** Induction over [pyval] that reaches inside lists and dictionaries. *)
Section PyvalInduction.
Variable P : pyval → Prop.
Hypothesis HNone : P PyNone.
Hypothesis HBool : ∀ b, P (PyBool b).
Hypothesis HInt : ∀ n, P (PyInt n).
Hypothesis HStr : ∀ s, P (PyStr s).
Hypothesis HList : ∀ xs, Forall P xs → P (PyList xs).
Hypothesis HTuple : ∀ xs, Forall P xs → P (PyTuple xs).
Hypothesis HDict : ∀ kvs, Forall (λ kv, P kv.2) kvs → P (PyDict kvs).
Hypothesis HObject : ∀ cls, P (PyObject cls).

Fixpoint pyval_deep_ind (v : pyval) : P v :=
  let items :=
    fix go (xs : list pyval) : Forall P xs :=
      match xs with
      | [] => @List.Forall_nil _ P
      | x :: rest => @List.Forall_cons _ P x rest (pyval_deep_ind x) (go rest)
      end in
  match v with
  | PyNone => HNone
  | PyBool b => HBool b
  | PyInt n => HInt n
  | PyStr s => HStr s
  | PyList xs => HList xs (items xs)
  | PyTuple xs => HTuple xs (items xs)
  | PyDict kvs =>
      HDict kvs
        ((fix go (kvs : list (string * pyval)) : Forall (λ kv, P kv.2) kvs :=
            match kvs with
            | [] => @List.Forall_nil _ _
            | (k, x) :: rest => @List.Forall_cons _ (λ kv, P kv.2) (k, x) rest (pyval_deep_ind x) (go rest)
            end) kvs)
  | PyObject cls => HObject cls
  end.
End PyvalInduction.

(** The two loops of [json_dump], named. *)
Fixpoint dump_items (xs : list pyval) : result (list json) :=
  match xs with
  | [] => Ok []
  | x :: rest =>
      match json_dump x with
      | Raise e => Raise e
      | Ok j => match dump_items rest with Raise e => Raise e | Ok js => Ok (j :: js) end
      end
  end.

Fixpoint dump_members (kvs : list (string * pyval)) : result (list (string * json)) :=
  match kvs with
  | [] => Ok []
  | (k, x) :: rest =>
      match json_dump x with
      | Raise e => Raise e
      | Ok j => match dump_members rest with Raise e => Raise e | Ok js => Ok ((k, j) :: js) end
      end
  end.

Section Vocabulary.
Context `{Host}.
Implicit Types (sm : StateManager) (w : world) (a : BaseAgent).

(** The document [save] writes for a store. *)
Definition snapshot sm : pyval := PyDict [("metadata", metadata sm); ("state", state sm)].

Definition serialisable sm : Prop := is_ok (json_dump (snapshot sm)) = true.

(** Entries and metadata are mappings, and a triggered autosave succeeds. *)
Definition healthy sm : Prop :=
  ∃ E Mt, state sm = PyDict E ∧ metadata sm = PyDict Mt ∧
          (autosave sm = false ∨ serialisable sm).

(** The store right after the in-memory part of a mutation. *)
Definition stamped sm w (st : pyval) (Mt : list (string * pyval)) : StateManager :=
  with_metadata (PyDict (dict_set "updated_at" (PyStr (isoformat (clock (ticks w)))) Mt))
    (with_state st sm).

(** The optional autosave that ends [set], [delete] and [clear]. *)
Definition autosaved {A} (a : A) (s : StateManager * world) : result A * (StateManager * world) :=
  if autosave s.1 then
    match StateManager.save None s with
    | (Ok _, s') => (Ok a, s')
    | (Raise e, s') => (Raise e, s')
    end
  else (Ok a, s).

(** What [validate_state] computes on a mapping. *)
Definition conforms (E : list (string * pyval)) (schema : list (string * pytype)) : bool :=
  forallb (λ kt, match dict_get kt.1 E with
                 | Some v => isinstance v kt.2
                 | None => true
                 end) schema.

(** The round trip as C1 states it: [s1] holds entries [E] and version [V];
    it saves under [name]; a fresh store over the same directory loads
    [name]. *)
Definition roundtrip_holds (s1 : StateManager) (name : string) (autosave2 : bool) w : Prop :=
  ∀ E Mt V,
    state s1 = PyDict E → metadata s1 = PyDict Mt → dict_get "version" Mt = Some V →
    let '(_, (_, w1)) := StateManager.save (Some name) (s1, w) in
    let '(s2, w2) := StateManager.__init__ (state_dir s1) autosave2 w1 in
    ∃ s2' w3 Mt',
      StateManager.load name (s2, w2) = (Ok tt, (s2', w3)) ∧
      state s2' = PyDict E ∧
      metadata s2' = PyDict Mt' ∧
      dict_get "version" Mt' = Some V ∧
      dict_get "updated_at" Mt' = Some (PyStr (isoformat (clock (ticks w2)))).

(** [metadata["created_at"]]. *)
Definition created_at sm : result pyval := py_getitem (metadata sm) "created_at".

Definition is_load (o : op) : bool :=
  match o with OpLoad _ => true | _ => false end.

(** Every document of the file system records the creation stamp [c]. *)
Definition documents_record (c : string) (f : gmap string content) : Prop :=
  ∀ p j top, f !! p = Some (Document j) → json_load j = PyDict top →
    ∃ d, dict_get "metadata" top = Some (PyDict d) ∧
         dict_get "created_at" d = Some (PyStr c).

(** [updated_at >= created_at], on the instants the two strings render. *)
Definition stamps_ordered sm : Prop :=
  ∃ c u,
    py_getitem (metadata sm) "created_at" = Ok (PyStr (isoformat c)) ∧
    py_getitem (metadata sm) "updated_at" = Ok (PyStr (isoformat u)) ∧
    c ≤ u.

(** The documents already in the file system carry a creation stamp that is
    not in the future. *)
Definition documents_stamped w : Prop :=
  ∀ p j top, fs w !! p = Some (Document j) → json_load j = PyDict top →
    ∃ d c, dict_get "metadata" top = Some (PyDict d) ∧
           dict_get "created_at" d = Some (PyStr (isoformat c)) ∧
           c ≤ clock (ticks w).

(** The agent and the world when [run] enters its [try] block. *)
Definition started a w : BaseAgent * world :=
  (with_is_running true a,
   with_log (log w ++ [LogRecord (agent_id a) "INFO" "Starting agent execution"]) w).

(** What [run] does once the stop hook has completed. *)
Definition stopped (s : BaseAgent * world) : BaseAgent * world :=
  (with_is_running false s.1,
   with_log (log s.2 ++ [LogRecord (agent_id s.1) "INFO" "Agent execution completed"]) s.2).

(** The record the error hook stores. *)
Definition error_record (t : nat) (e : exn) : pyval :=
  PyDict [("timestamp", PyStr (isoformat t)); ("error", PyStr (exn_str e));
          ("type", PyStr (exn_type e))].

(** Every hook is one [set] on the agent's store, after reading the clock. *)
Definition hook (key : string) (value : nat → pyval) : BaseAgent.method unit :=
  let* t := now in
  BaseAgent.on_state_manager (StateManager.set key (value t)).

(** The [except] clause of [run]. *)
Definition recover (e : exn) : BaseAgent.method pyval :=
  BaseAgent.logger "ERROR" ("Error during execution: " +:+ exn_str e);;
  BaseAgent.on_error e;;
  raise e.

Section Process.
Variable process : pyval → BaseAgent.method pyval.

(** The [try]/[except] part of [run]. *)
Definition attempt (input_data : pyval) : BaseAgent.method pyval :=
  try_except
    (BaseAgent.on_start;;
     let* result := process input_data in
     BaseAgent.on_success result;;
     ret result)
    recover.
End Process.

(** The invariant behind C3 and C6, over two predicates on the stamps. *)
Section Stamping.
Variable G : nat → pyval → Prop.
Variable R : pyval → option pyval → Prop.

Definition meta_inv (n : nat) (md : pyval) : Prop :=
  ∃ d c, md = PyDict d ∧ dict_get "created_at" d = Some c ∧ G n c ∧
         R c (dict_get "updated_at" d).

(** A document is fine when [load] would take an acceptable creation stamp
    from it (or would fail before assigning anything). *)
Definition doc_inv (n : nat) (j : json) : Prop :=
  ∀ top, json_load j = PyDict top →
    ∃ d c, dict_get "metadata" top = Some (PyDict d) ∧
           dict_get "created_at" d = Some c ∧ G n c.

Definition fs_inv (n : nat) (f : gmap string content) : Prop :=
  ∀ p j, f !! p = Some (Document j) → doc_inv n j.

Definition inv (s : StateManager * world) : Prop :=
  meta_inv (ticks s.2) (metadata s.1) ∧ fs_inv (ticks s.2) (fs s.2).

(** A step keeps the invariant and does not turn the clock back. *)
Definition step_ok (s s' : StateManager * world) : Prop :=
  inv s' ∧ ticks s.2 ≤ ticks s'.2.

Definition sys_inv (sys : list StateManager * world) : Prop :=
  Forall (λ sm, meta_inv (ticks sys.2) (metadata sm)) sys.1 ∧ fs_inv (ticks sys.2) (fs sys.2).
End Stamping.
(** ** The vocabulary of the further properties *)

(** A file name without a directory part: [open] creates no directory, so
    a name with one is written only where that directory exists. *)
Definition plain (name : string) : Prop := str_contains "/" name = false.

(** The file at [path] holds the snapshot of [sm]. *)
Definition on_disk sm w (path : string) : Prop :=
  ∃ j, fs w !! path = Some (Document j) ∧ json_dump (snapshot sm) = Ok j.

(** The calls that can write a file: [save] and [backup], and the three
    mutations when autosave is on. *)
Definition may_write (o : op) sm : bool :=
  match o with
  | OpSave _ | OpBackup _ => true
  | OpSet _ _ | OpDelete _ | OpClear => autosave sm
  | _ => false
  end.

(** The name under which [list_states] reports the file at path [p], when
    it does: the part of [p] after the directory, for a file directly in
    it whose name matches [*.json]. *)
Definition listed_name (dir p : string) : option string :=
  let prefix := dir +:+ "/" in
  if String.prefix prefix p then
    let name := String.substring (String.length prefix) (String.length p - String.length prefix) p in
    if negb (str_contains "/" name) && endswith name ".json" then Some name else None
  else None.

(** Entries and metadata are mappings, as the annotations of the two
    attributes say. *)
Definition well_typed sm : Prop :=
  ∃ E Mt, state sm = PyDict E ∧ metadata sm = PyDict Mt.

(** Every document that is a JSON object has objects for its [state] and
    [metadata] members, where it has them. *)
Definition documents_shaped (f : gmap string content) : Prop :=
  ∀ p j top, f !! p = Some (Document j) → json_load j = PyDict top →
    (∀ v, dict_get "state" top = Some v → ∃ E, v = PyDict E) ∧
    (∀ v, dict_get "metadata" top = Some v → ∃ Mt, v = PyDict Mt).

Definition typed (s : StateManager * world) : Prop :=
  well_typed s.1 ∧ documents_shaped (fs s.2).

(** [updated_at] renders an instant that is neither before [u] nor after
    the current reading of the clock. *)
Definition updated_since (u : nat) (s : StateManager * world) : Prop :=
  ∃ u', py_getitem (metadata s.1) "updated_at" = Ok (PyStr (isoformat u')) ∧
        u ≤ u' ∧ u' ≤ clock (ticks s.2).

(** [self.state_manager.state[k]] of an agent. *)
Definition entry (k : string) (s : BaseAgent * world) : result pyval :=
  py_getitem (state (state_manager s.1)) k.

End Vocabulary.

(** ** Fixtures on the simulated host *)

Section Fixtures.
Local Existing Instance Sim.host.

(** A store with autosave off, as the tests' fixture builds it. *)
Definition fixture : StateManager * world := StateManager.__init__ "tmp" false Sim.boot.

(** The agents of [tests/test_base_agent.py]: [TestAgent.process] on a string
    input, and [ErrorAgent.process]. *)
Definition TestAgent_process (input_data : pyval) : BaseAgent.method pyval :=
  match input_data with
  | PyStr s => ret (PyStr ("Processed: " +:+ s))
  | _ => raise (TypeError "the test agent is given strings")
  end.

Definition ErrorAgent_process (input_data : pyval) : BaseAgent.method pyval :=
  raise (Exn "ValueError" "Test error").

(** An agent whose [process] is interrupted from the keyboard. *)
Definition InterruptedAgent_process (input_data : pyval) : BaseAgent.method pyval :=
  raise (MkExn "KeyboardInterrupt" "" false).

(** An agent whose [process] keeps a socket in the state and then fails:
    [self.state_manager.state["handle"] = socket.socket()] followed by
    [raise ValueError("boom")]. *)
Definition LeakyAgent_process (input_data : pyval) : BaseAgent.method pyval :=
  let* a := self in
  let* st := lift (py_setitem (state (state_manager a)) "handle" (PyObject "socket")) in
  update (with_state_manager (with_state st (state_manager a)));;
  raise (Exn "ValueError" "boom").

(** A store holding [count = 42], with autosave off. *)
Definition counting : StateManager * world := call (OpSet "count" (PyInt 42)) fixture.

(** A day in a system of two stores: an autosaved snapshot loaded by the
    other store, failing autosaves, a delete, a save and a load back. *)
Definition busy_day : list action :=
  [New "tmp" true; Call 0 (OpSet "count" (PyInt 42));
   New "tmp" false; Call 1 (OpLoad "state_10");
   Call 1 (OpSet "handle" (PyObject "Socket")); Call 0 (OpSet "handle" (PyObject "Socket"));
   Call 0 (OpDelete "count"); Call 1 (OpSave (Some "late")); Call 0 (OpLoad "late")].
(** A store with autosave on, and the same store after a [set] of a socket
    (the call raised, the entry stayed). *)
Definition autosaving : StateManager * world := StateManager.__init__ "tmp" true Sim.boot.

Definition poisoned : StateManager * world := call (OpSet "handle" (PyObject "Socket")) autosaving.

(** The autosaving store after one successful [set]. *)
Definition snapshotted : StateManager * world := call (OpSet "key1" (PyStr "value1")) autosaving.


(** The world after [counting] has saved under the name [shared], and a
    world with a document that is an empty JSON object. *)
Definition shared : world := (StateManager.save (Some "shared") counting).2.2.

Definition empty_document : world :=
  with_fs {[ "tmp/empty.json" := Document (JObject []) ]} fixture.2.

(** The agent of the tests, the same agent holding [count = 42], and an
    agent with autosave on whose store holds a socket. *)
Definition test_agent : BaseAgent * world :=
  BaseAgent.__init__ "test_agent" "tmp" "logs" false Sim.boot.

Definition counting_agent : BaseAgent * world :=
  (BaseAgent.set_state "count" (PyInt 42) test_agent).2.

Definition poisoned_agent : BaseAgent * world :=
  (BaseAgent.set_state "handle" (PyObject "Socket")
     (BaseAgent.__init__ "agent" "tmp" "logs" true Sim.boot)).2.

End Fixtures.

(** ** Tactics *)

Ltac unfold_monad :=
  unfold bind, ret, raise, lift, self, update, the_world, change_world, now, try_except, try_finally in *.

Ltac unfold_methods :=
  unfold StateManager.set, StateManager.get, StateManager.delete, StateManager.clear,
    StateManager.save, StateManager.load, StateManager.backup, StateManager.get_metadata,
    StateManager.list_states, StateManager.touch, write_json in *.

Ltac step := unfold_methods; unfold_monad; simpl in *.

Ltac crush_call :=
  unfold StateManager.set, StateManager.delete, StateManager.clear, StateManager.touch,
    StateManager.save, StateManager.backup, write_json;
  unfold_monad; simpl;
  repeat (case_match; simpl in *; simplify_eq); try done.


Ltac crush_op :=
  unfold call, StateManager.set, StateManager.delete, StateManager.clear, StateManager.load,
    StateManager.save, StateManager.backup, StateManager.get, StateManager.get_metadata,
    StateManager.list_states, StateManager.touch, write_json;
  unfold_monad; simpl;
  repeat (case_match; simpl in *; simplify_eq); try done.

(** * Properties *)

(** ** Dictionaries *)

Section DictFacts.
Context {V : Type}.
Implicit Types (d : list (string * V)) (k : string) (v : V).

Lemma dict_get_set_eq k v d : dict_get k (dict_set k v d) = Some v.
Proof.
  induction d as [|[k' v'] d IH]; simpl.
  - by rewrite String.eqb_refl.
  - destruct (String.eqb k' k) eqn:E; simpl; rewrite E; [done|apply IH].
Qed.

Lemma dict_get_set_ne k k' v d : k ≠ k' → dict_get k' (dict_set k v d) = dict_get k' d.
Proof.
  intros Hne. induction d as [|[k0 v0] d IH]; simpl.
  - destruct (String.eqb k k') eqn:E; [|done]. by apply String.eqb_eq in E.
  - destruct (String.eqb k0 k) eqn:E; simpl; [|by rewrite IH].
    apply String.eqb_eq in E. subst k0.
    destruct (String.eqb k k') eqn:E'; [|done]. by apply String.eqb_eq in E'.
Qed.

Lemma dict_mem_true k d : dict_mem k d = true ↔ is_Some (dict_get k d).
Proof. unfold dict_mem. destruct (dict_get k d); split; (done || by inversion 1 || eauto). Qed.

Lemma dict_mem_false k d : dict_mem k d = false ↔ dict_get k d = None.
Proof. unfold dict_mem. destruct (dict_get k d); split; done. Qed.

Lemma dict_get_del_eq k d : dict_get k (dict_del k d) = None.
Proof.
  induction d as [|[k' v'] d IH]; simpl; [done|].
  destruct (String.eqb k' k) eqn:E; simpl; [done|]. by rewrite E.
Qed.

Lemma dict_get_del_ne k k' d : k ≠ k' → dict_get k' (dict_del k d) = dict_get k' d.
Proof.
  intros Hne. induction d as [|[k0 v0] d IH]; simpl; [done|].
  destruct (String.eqb k0 k) eqn:E; simpl; [|by rewrite IH].
  apply String.eqb_eq in E. subst k0.
  destruct (String.eqb k k') eqn:E'; [|done]. by apply String.eqb_eq in E'.
Qed.
End DictFacts.

(** ** Strings *)

Lemma endswith_app (s suffix : string) : endswith (s +:+ suffix) suffix = true.
Proof.
  induction s as [|a s IH]; simpl.
  - destruct suffix; simpl; [done|]. by rewrite Ascii.eqb_refl, String.eqb_refl.
  - rewrite IH. by rewrite orb_true_r.
Qed.

Lemma append_length (s t : string) : String.length (s +:+ t) = String.length s + String.length t.
Proof. induction s; simpl; [done|]. by rewrite IHs. Qed.

Lemma append_suffix_neq (s t : string) : t ≠ "" → s +:+ t ≠ s.
Proof.
  intros Ht Heq. apply (f_equal String.length) in Heq.
  rewrite append_length in Heq. destruct t; [done|]. simpl in Heq. lia.
Qed.

Lemma path_join_inj (d n n' : string) : path_join d n = path_join d n' → n = n'.
Proof.
  unfold path_join. induction d as [|a d IH]; simpl; intros Heq.
  - by injection Heq.
  - injection Heq as Heq. auto.
Qed.

Lemma prefix_refl (s : string) : String.prefix s s = true.
Proof.
  induction s as [|a s IH]; simpl; [done|].
  destruct (Ascii.ascii_dec a a); [done|congruence].
Qed.

Lemma str_contains_refl (s : string) : str_contains s s = true.
Proof. destruct s; unfold str_contains; fold str_contains; by rewrite prefix_refl. Qed.

(** ** JSON *)

Lemma json_dump_list xs :
  json_dump (PyList xs) = match dump_items xs with Raise e => Raise e | Ok js => Ok (JArray js) end.
Proof.
  assert (∀ ys, (fix go (xs : list pyval) : result (list json) :=
      match xs with
      | [] => Ok []
      | x :: rest =>
          match json_dump x with
          | Raise e => Raise e
          | Ok j => match go rest with Raise e => Raise e | Ok js => Ok (j :: js) end
          end
      end) ys = dump_items ys) as Hgo.
  { induction ys as [|y ys IH]; simpl; [done|]. by rewrite IH. }
  simpl. by rewrite Hgo.
Qed.

Lemma json_dump_dict kvs :
  json_dump (PyDict kvs) = match dump_members kvs with Raise e => Raise e | Ok ms => Ok (JObject ms) end.
Proof.
  assert (∀ ys, (fix go (kvs : list (string * pyval)) : result (list (string * json)) :=
      match kvs with
      | [] => Ok []
      | (k, x) :: rest =>
          match json_dump x with
          | Raise e => Raise e
          | Ok j => match go rest with Raise e => Raise e | Ok js => Ok ((k, j) :: js) end
          end
      end) ys = dump_members ys) as Hgo.
  { induction ys as [|[k y] ys IH]; simpl; [done|]. by rewrite IH. }
  simpl. by rewrite Hgo.
Qed.

(** A JSON value is written and read back unchanged. *)
Lemma json_roundtrip (v : pyval) :
  is_json v = true → ∃ j, json_dump v = Ok j ∧ json_load j = v.
Proof.
  induction v as [| | | |xs IH|xs IH|kvs IH|] using pyval_deep_ind; intros Hj;
    try (by eexists; split; [reflexivity|]); try discriminate.
  - assert (∃ js, dump_items xs = Ok js ∧ map json_load js = xs) as (js & Hd & Hl).
    { simpl in Hj. induction IH as [|x xs Hx _ IHxs]; [by exists []|].
      simpl in Hj. apply andb_true_iff in Hj as [Hjx Hjxs].
      destruct (Hx Hjx) as (j & Hdj & Hlj). destruct (IHxs Hjxs) as (js & Hdjs & Hljs).
      exists (j :: js). simpl. rewrite Hdj, Hdjs, Hlj, Hljs. done. }
    exists (JArray js). rewrite json_dump_list, Hd. simpl. by rewrite Hl.
  - assert (∃ ms, dump_members kvs = Ok ms ∧ map (λ kv, (kv.1, json_load kv.2)) ms = kvs)
      as (ms & Hd & Hl).
    { simpl in Hj. induction IH as [|[k x] kvs Hx _ IHkvs]; [by exists []|].
      simpl in Hj. apply andb_true_iff in Hj as [Hjx Hjxs].
      destruct (Hx Hjx) as (j & Hdj & Hlj). destruct (IHkvs Hjxs) as (ms & Hdms & Hlms).
      exists ((k, j) :: ms). simpl in *. rewrite Hdj, Hdms, Hlj, Hlms. done. }
    exists (JObject ms). rewrite json_dump_dict, Hd. simpl. by rewrite Hl.
Qed.

(** Writing a dictionary keeps every string it holds under its key. *)
Lemma dump_members_get_str kvs ms k x :
  dump_members kvs = Ok ms →
  dict_get k kvs = Some (PyStr x) →
  dict_get k (map (λ kv, (kv.1, json_load kv.2)) ms) = Some (PyStr x).
Proof.
  revert ms. induction kvs as [|[k' v] kvs IH]; intros ms Hd Hg; [done|].
  simpl in Hd, Hg.
  destruct (json_dump v) as [j|] eqn:Hv; [|done].
  destruct (dump_members kvs) as [ms'|] eqn:Hms; [|done].
  injection Hd as <-. simpl.
  destruct (String.eqb k' k); [|by apply IH].
  injection Hg as ->. simpl in Hv. by injection Hv as <-.
Qed.

(** ** Stepping through a method *)

Arguments json_dump : simpl never.

Section StoreFacts.
Context `{Host}.
Implicit Types (sm : StateManager) (w : world).

(** What [touch] does to a store whose metadata is a dictionary. *)
Lemma touch_dict sm w Mt :
  metadata sm = PyDict Mt →
  StateManager.touch (sm, w) =
    (Ok tt, (with_metadata (PyDict (dict_set "updated_at" (PyStr (isoformat (clock (ticks w)))) Mt)) sm,
             tick w)).
Proof. intros HM. step. by rewrite HM. Qed.

(** [save] leaves the store alone and writes to [save_path]. *)
Lemma save_named sm w name :
  let path := StateManager.save_path sm name in
  let data := PyDict [("metadata", metadata sm); ("state", state sm)] in
  StateManager.save (Some name) (sm, w) =
    match json_dump data with
    | Ok j => (Ok path, (sm, with_fs (<[path := Document j]> (fs w)) w))
    | Raise e => (Raise e, (sm, with_fs (<[path := Garbled (truncated_complaint data)]> (fs w)) w))
    end.
Proof. step. by destruct (json_dump _). Qed.

Lemma save_auto sm w :
  let path := StateManager.save_path sm ("state_" +:+ strftime_Ymd_HMS (clock (ticks w))) in
  let data := PyDict [("metadata", metadata sm); ("state", state sm)] in
  StateManager.save None (sm, w) =
    match json_dump data with
    | Ok j => (Ok path, (sm, with_fs (<[path := Document j]> (fs w)) (tick w)))
    | Raise e => (Raise e, (sm, with_fs (<[path := Garbled (truncated_complaint data)]> (fs w)) (tick w)))
    end.
Proof. step. by destruct (json_dump _). Qed.
End StoreFacts.

Section StoreMethods.
Context `{Host}.
Implicit Types (sm : StateManager) (w : world).

Lemma set_dict sm w key value E Mt :
  state sm = PyDict E → metadata sm = PyDict Mt →
  StateManager.set key value (sm, w) =
    autosaved tt (stamped sm w (PyDict (dict_set key value E)) Mt, tick w).
Proof.
  intros HE HM. unfold autosaved, stamped.
  unfold StateManager.set, StateManager.touch. unfold_monad. simpl. rewrite HE, HM. simpl.
  destruct (autosave sm); [|done].
  by destruct (StateManager.save None _) as [[] ?].
Qed.

Lemma delete_dict_present sm w key E Mt :
  state sm = PyDict E → metadata sm = PyDict Mt → dict_mem key E = true →
  StateManager.delete key (sm, w) =
    autosaved true (stamped sm w (PyDict (dict_del key E)) Mt, tick w).
Proof.
  intros HE HM Hin. unfold autosaved, stamped.
  unfold StateManager.delete, StateManager.touch. unfold_monad. simpl. rewrite HE. simpl.
  rewrite Hin. simpl. rewrite HM. simpl.
  destruct (autosave sm); [|done].
  by destruct (StateManager.save None _) as [[] ?].
Qed.

Lemma delete_dict_absent sm w key E :
  state sm = PyDict E → dict_mem key E = false →
  StateManager.delete key (sm, w) = (Ok false, (sm, w)).
Proof.
  intros HE Hin. unfold StateManager.delete. unfold_monad. simpl. rewrite HE. simpl.
  by rewrite Hin.
Qed.

Lemma clear_dict sm w E Mt :
  state sm = PyDict E → metadata sm = PyDict Mt →
  StateManager.clear (sm, w) = autosaved tt (stamped sm w (PyDict []) Mt, tick w).
Proof.
  intros HE HM. unfold autosaved, stamped.
  unfold StateManager.clear, StateManager.touch. unfold_monad. simpl. rewrite HE, HM. simpl.
  destruct (autosave sm); [|done].
  by destruct (StateManager.save None _) as [[] ?].
Qed.

(** [load] on a document that is a JSON object. *)
Lemma load_document sm w name j top :
  fs w !! StateManager.load_path sm name = Some (Document j) →
  json_load j = PyDict top →
  StateManager.load name (sm, w) =
    StateManager.touch
      (with_metadata (default (PyDict []) (dict_get "metadata" top))
         (with_state (default (PyDict []) (dict_get "state" top)) sm), w).
Proof.
  intros Hf Hj. unfold StateManager.load. unfold_monad. simpl. rewrite Hf, Hj. simpl.
  destruct (dict_get "state" top), (dict_get "metadata" top); simpl;
    by destruct (StateManager.touch _) as [[] ?].
Qed.

(** A failing encoder fails on any dictionary that holds the offending value. *)
Lemma dump_members_raises kvs k v e :
  dict_get k kvs = Some v → json_dump v = Raise e → ∃ e', dump_members kvs = Raise e'.
Proof.
  induction kvs as [|[k' v'] kvs IH]; intros Hg Hv; [done|]. simpl in *.
  destruct (String.eqb k' k).
  - injection Hg as ->. rewrite Hv. eauto.
  - destruct (json_dump v'); [|eauto]. destruct (IH Hg Hv) as [e' ->]. eauto.
Qed.

Lemma json_dump_data_raises md E k v e :
  dict_get k E = Some v → json_dump v = Raise e →
  ∃ e', json_dump (PyDict [("metadata", md); ("state", PyDict E)]) = Raise e'.
Proof.
  intros Hg Hv. destruct (dump_members_raises _ _ _ _ Hg Hv) as [e' He'].
  rewrite json_dump_dict. simpl. destruct (json_dump md); [|eauto].
  rewrite json_dump_dict, He'. eauto.
Qed.
End StoreMethods.

(** * The claims *)

(** ** File names (C7) *)

(** C7, as stated, fails: for the name [snap.json] the file [save] writes is
    [snap.json.json] while [load] reads [snap.json], so the two calls do not
    resolve to the same file; in an empty directory [load] then finds
    nothing. *)
Lemma save_and_load_disagree_on_suffixed_name :
  let sm := {| state_dir := "states"; autosave := false;
               state := PyDict []; metadata := PyDict [] |} in
  StateManager.save_path sm "snap.json" = "states/snap.json.json" ∧
  StateManager.load_path sm "snap.json" = "states/snap.json" ∧
  StateManager.save_path sm "snap.json" ≠ StateManager.load_path sm "snap.json".
Proof. repeat split. discriminate. Qed.

(** C7, amended: [load] appends [.json] exactly when the name lacks it,
    [save] appends it always (its argument is documented as a name without
    extension); so [save n] and [load n] resolve to the same file exactly
    when [n] does not end in [.json], and a snapshot saved as [n] is the one
    [load] reads under both [n] and [n.json]. *)
Theorem save_load_same_file_iff (sm : StateManager) (n : string) :
  StateManager.save_path sm n = path_join (state_dir sm) (n +:+ ".json") ∧
  StateManager.load_path sm n =
    path_join (state_dir sm) (if endswith n ".json" then n else n +:+ ".json") ∧
  (StateManager.save_path sm n = StateManager.load_path sm n ↔ endswith n ".json" = false) ∧
  StateManager.load_path sm (n +:+ ".json") = StateManager.save_path sm n.
Proof.
  unfold StateManager.save_path, StateManager.load_path. repeat split.
  - intros Heq. apply path_join_inj in Heq.
    destruct (endswith n ".json"); [|done].
    by apply append_suffix_neq in Heq.
  - by intros ->.
  - by rewrite endswith_app.
Qed.

(** ** In-memory updates and serialisation failures (C5) *)

Section Mutations.
Context `{Host}.
Implicit Types (sm : StateManager) (w : world).

(** C5: on a store whose entries are a mapping, [set key value] always puts
    the entry into the in-memory mapping, whatever the value and whatever
    the outcome of the call.  With autosave off it returns normally even for
    a value JSON cannot represent; for such a value the failure comes from
    the encoder, at autosave time when autosave is on and at every later
    [save]. *)
Theorem set_places_entry sm w key value E :
  state sm = PyDict E →
  let '(r, (sm', w')) := StateManager.set key value (sm, w) in
  state sm' = PyDict (dict_set key value E) ∧
  dict_get key (dict_set key value E) = Some value ∧
  (∀ Mt, metadata sm = PyDict Mt → autosave sm = false → r = Ok tt) ∧
  (∀ e Mt, json_dump value = Raise e → metadata sm = PyDict Mt →
     (autosave sm = true → ∃ e', r = Raise e') ∧
     (∀ name w'', ∃ e', (StateManager.save name (sm', w'')).1 = Raise e')).
Proof.
  intros HE.
  destruct (StateManager.set key value (sm, w)) as [r [sm' w']] eqn:Hset.
  assert (∀ md e,
    json_dump value = Raise e →
    ∃ e', json_dump (PyDict [("metadata", md); ("state", PyDict (dict_set key value E))]) = Raise e')
    as Hdump.
  { intros md e He. eapply json_dump_data_raises; [apply dict_get_set_eq|done]. }
  destruct (metadata sm) as [| | | | | |Mt|] eqn:HM;
    try (unfold StateManager.set, StateManager.touch in Hset; unfold_monad; simpl in Hset;
         rewrite HE in Hset; simpl in Hset; rewrite HM in Hset; simpl in Hset;
         injection Hset as <- <- <-; simpl;
         split; [done|]; split; [apply dict_get_set_eq|]; split; by intros).
  rewrite (set_dict _ _ _ _ _ _ HE HM) in Hset. unfold autosaved, stamped in Hset. simpl in Hset.
  destruct (autosave sm) eqn:Hauto.
  - rewrite save_auto in Hset. simpl in Hset.
    destruct (json_dump _) as [j|e0] eqn:Hj; injection Hset as <- <- <-; simpl;
      (split; [done|]); (split; [apply dict_get_set_eq|]); (split; [by intros|]);
      intros e Mt' He _; destruct (Hdump (PyDict (dict_set "updated_at"
        (PyStr (isoformat (clock (ticks w)))) Mt)) e He) as [e' He'].
    + rewrite He' in Hj. done.
    + split; [eauto|]. intros [name|] w''; [rewrite save_named|rewrite save_auto]; simpl;
        rewrite He'; eauto.
  - injection Hset as <- <- <-. simpl.
    split; [done|]. split; [apply dict_get_set_eq|]. split; [by intros|].
    intros e Mt' He _. split; [done|].
    destruct (Hdump (PyDict (dict_set "updated_at"
        (PyStr (isoformat (clock (ticks w)))) Mt)) e He) as [e' He'].
    intros [name|] w''; [rewrite save_named|rewrite save_auto]; simpl; rewrite He'; eauto.
Qed.
End Mutations.

(** ** Deleting a key (C8) *)

Section Deletion.
Context `{Host}.
Implicit Types (sm : StateManager) (w : world).

End Deletion.

(** ** Schema validation (C9) *)

Section Validation.
Implicit Types (sm : StateManager) (w : world).

Lemma validate_state_conforms sm w schema E :
  state sm = PyDict E →
  StateManager.validate_state schema (sm, w) = (Ok (conforms E schema), (sm, w)).
Proof.
  intros HE. induction schema as [|[k t] schema IH]; [done|].
  simpl. unfold_monad. simpl. rewrite HE. simpl.
  unfold dict_mem. destruct (dict_get k E) as [v|]; simpl; [|apply IH].
  destruct (isinstance v t); simpl; [apply IH|done].
Qed.

(** C9: on a store whose entries are a mapping, [validate_state schema]
    returns a boolean without raising and without changing anything; it is
    [True] exactly when every schema key that is present holds a value of the
    expected type, so in particular when no schema key is present. *)
Theorem validate_state_checks_present_keys sm w schema E :
  state sm = PyDict E →
  ∃ b, StateManager.validate_state schema (sm, w) = (Ok b, (sm, w)) ∧
       (b = true ↔
          ∀ k t v, (k, t) ∈ schema → dict_get k E = Some v → isinstance v t = true) ∧
       ((∀ k t, (k, t) ∈ schema → dict_get k E = None) → b = true).
Proof.
  intros HE. exists (conforms E schema).
  split; [by apply validate_state_conforms|].
  assert (conforms E schema = true ↔
          ∀ k t v, (k, t) ∈ schema → dict_get k E = Some v → isinstance v t = true) as Hiff.
  { unfold conforms. rewrite forallb_forall. split.
    - intros Hall k t v Hin Hget. apply list_elem_of_In in Hin.
      specialize (Hall _ Hin). simpl in Hall. by rewrite Hget in Hall.
    - intros Hall [k t] Hin. apply list_elem_of_In in Hin. simpl.
      destruct (dict_get k E) eqn:Hget; [|done]. eauto. }
  split; [done|].
  intros Habs. apply Hiff. intros k t v Hin Hget. by rewrite (Habs _ _ Hin) in Hget.
Qed.
End Validation.

(** ** Failing loads (C10) *)

Section FailingLoad.
Context `{Host}.
Implicit Types (sm : StateManager) (w : world).

(** C10, amended: when the named document does not exist, or its text is
    not JSON, [load] raises ([FileNotFoundError], respectively
    [JSONDecodeError]) and leaves the store, entries and metadata alike,
    and the world exactly as they were.  These are not all the failures of
    [load].  A load that raises either leaves the store and the world
    exactly as they were (it failed before the first assignment: the two
    cases above, and a JSON text that is not an object), or it raises
    [TypeError] from the stamp on a [metadata] member that is not an
    object, after the entries and the metadata have both been replaced by
    the document's: [load] is not atomic on that error. *)
Theorem load_failure_leaves_store sm w name :
  (fs w !! StateManager.load_path sm name = None ∨
   (∃ complaint, fs w !! StateManager.load_path sm name = Some (Garbled complaint)) →
   ∃ e, StateManager.load name (sm, w) = (Raise e, (sm, w)) ∧
        (fs w !! StateManager.load_path sm name = None → exn_type e = "FileNotFoundError") ∧
        (is_Some (fs w !! StateManager.load_path sm name) → exn_type e = "JSONDecodeError")) ∧
  (∀ e s', StateManager.load name (sm, w) = (Raise e, s') →
     s' = (sm, w) ∨
     ∃ j top md,
       fs w !! StateManager.load_path sm name = Some (Document j) ∧
       json_load j = PyDict top ∧
       dict_get "metadata" top = Some md ∧ (∀ d, md ≠ PyDict d) ∧
       exn_type e = "TypeError" ∧
       s' = (with_metadata md (with_state (default (PyDict []) (dict_get "state" top)) sm),
             tick w)).
Proof.
  split.
  - intros [Hf|[c Hf]]; unfold StateManager.load; unfold_monad; simpl; rewrite Hf;
      eexists; (split; [reflexivity|]); split; done.
  - intros e s'.
    destruct (fs w !! StateManager.load_path sm name) as [[j|c]|] eqn:Hfile;
      [|unfold StateManager.load; unfold_monad; simpl; rewrite Hfile; intros [= <- <-];
        by left..].
    destruct (json_load j) as [| | | | | |top|] eqn:Htop;
      try (unfold StateManager.load; unfold_monad; simpl; rewrite Hfile, Htop; simpl;
           intros [= <- <-]; by left).
    rewrite (load_document sm w name j top Hfile Htop).
    destruct (dict_get "metadata" top) as [md|] eqn:Hmd; simpl;
      [|by erewrite touch_dict by reflexivity].
    unfold StateManager.touch. unfold_monad. simpl.
    destruct md; simpl; intros [= <- <-]; right;
      eexists j, top, _; (split; [done|]); (split; [done|]);
      (split; [done|]); (split; [done|]); done.
Qed.

(** The same holds when the text is JSON but not an object: [data.get]
    raises before anything is assigned. *)
Lemma load_non_object_leaves_store sm w name j :
  fs w !! StateManager.load_path sm name = Some (Document j) →
  (∀ top, json_load j ≠ PyDict top) →
  ∃ e, StateManager.load name (sm, w) = (Raise e, (sm, w)) ∧ exn_type e = "AttributeError".
Proof.
  intros Hf Hj. unfold StateManager.load. unfold_monad. simpl. rewrite Hf.
  destruct (json_load j) eqn:Hload; simpl; try (by eexists); by destruct (Hj kvs).
Qed.
End FailingLoad.

(** ** Stores whose autosave cannot fail *)

Section Serialisable.
Context `{Host}.
Implicit Types (sm : StateManager) (w : world).

Lemma dump_members_set kvs k v :
  is_ok (dump_members kvs) = true → is_ok (json_dump v) = true →
  is_ok (dump_members (dict_set k v kvs)) = true.
Proof.
  intros Hk Hv. induction kvs as [|[k' v'] kvs IH]; simpl in *.
  - by destruct (json_dump v).
  - destruct (json_dump v') as [j'|] eqn:Hv'; [|done].
    destruct (dump_members kvs) as [ms|] eqn:Hms; [|done].
    destruct (String.eqb k' k); simpl.
    + destruct (json_dump v); [|done]. by rewrite Hms.
    + rewrite Hv'. by destruct (dump_members (dict_set k v kvs)); [|apply IH].
Qed.

Lemma json_dump_dict_set kvs k v :
  is_ok (json_dump (PyDict kvs)) = true → is_ok (json_dump v) = true →
  is_ok (json_dump (PyDict (dict_set k v kvs))) = true.
Proof.
  rewrite !json_dump_dict. intros Hk Hv.
  pose proof (dump_members_set kvs k v) as Hs.
  destruct (dump_members kvs); [|done].
  destruct (dump_members (dict_set k v kvs)); [done|]. by apply Hs.
Qed.

Lemma serialisable_parts sm :
  serialisable sm ↔ is_ok (json_dump (metadata sm)) = true ∧ is_ok (json_dump (state sm)) = true.
Proof.
  unfold serialisable, snapshot. rewrite json_dump_dict. simpl.
  destruct (json_dump (metadata sm)), (json_dump (state sm)); simpl;
    split; (done || by intros [? ?]).
Qed.

Lemma serialisable_stamped sm w E Mt k v :
  state sm = PyDict E → metadata sm = PyDict Mt →
  serialisable sm → is_ok (json_dump v) = true →
  serialisable (stamped sm w (PyDict (dict_set k v E)) Mt).
Proof.
  intros HE HM Hs Hv. apply serialisable_parts in Hs as [Hm Hst].
  rewrite HE in Hst. rewrite HM in Hm.
  apply serialisable_parts. simpl. split; by apply json_dump_dict_set.
Qed.

(** On a healthy store [set] returns normally with a serialisable value, and
    the store stays healthy. *)
Lemma set_healthy sm w key value E Mt :
  state sm = PyDict E → metadata sm = PyDict Mt →
  autosave sm = false ∨ serialisable sm →
  is_ok (json_dump value) = true →
  let sm' := stamped sm w (PyDict (dict_set key value E)) Mt in
  healthy sm' ∧ ∃ w', StateManager.set key value (sm, w) = (Ok tt, (sm', w')).
Proof.
  intros HE HM Hsave Hv sm'. split.
  - exists (dict_set key value E), (dict_set "updated_at" (PyStr (isoformat (clock (ticks w)))) Mt).
    split; [done|]. split; [done|].
    destruct Hsave as [Hoff|Hs]; [by left|right].
    by apply serialisable_stamped.
  - rewrite (set_dict _ _ _ _ _ _ HE HM). unfold autosaved. simpl.
    destruct (autosave sm) eqn:Hauto; [|eauto].
    rewrite save_auto. simpl. destruct Hsave as [Hoff|Hs]; [done|].
    pose proof (serialisable_stamped sm w E Mt key value HE HM Hs Hv) as Hs'.
    unfold serialisable, snapshot in Hs'. simpl in Hs'.
    destruct (json_dump (PyDict _)); [eauto|done].
Qed.

(** A [set] that returned normally ran on mappings and left a healthy store. *)
Lemma set_returned sm w key value s' :
  StateManager.set key value (sm, w) = (Ok tt, s') →
  ∃ E Mt, state sm = PyDict E ∧ metadata sm = PyDict Mt ∧
          s'.1 = stamped sm w (PyDict (dict_set key value E)) Mt ∧
          (autosave sm = false ∨ serialisable s'.1).
Proof.
  intros Hset.
  destruct (state sm) as [| | | | | |E|] eqn:HE;
    try (unfold StateManager.set in Hset; unfold_monad; simpl in Hset;
         rewrite HE in Hset; simpl in Hset; discriminate).
  destruct (metadata sm) as [| | | | | |Mt|] eqn:HM;
    try (unfold StateManager.set, StateManager.touch in Hset; unfold_monad; simpl in Hset;
         rewrite HE in Hset; simpl in Hset; rewrite HM in Hset; simpl in Hset; discriminate).
  exists E, Mt. split; [done|]. split; [done|].
  rewrite (set_dict _ _ _ _ _ _ HE HM) in Hset. unfold autosaved in Hset. simpl in Hset.
  destruct (autosave sm) eqn:Hauto.
  - rewrite save_auto in Hset. simpl in Hset.
    destruct (json_dump _) eqn:Hj; [|done]. injection Hset as <-. simpl.
    split; [done|]. right. unfold serialisable, snapshot. simpl. by rewrite Hj.
  - injection Hset as <-. simpl. split; [done|]. by left.
Qed.
End Serialisable.

(** ** The agent's lifecycle (C2, C4) *)

Section Lifecycle.
Context `{Host}.
Variable process : pyval → BaseAgent.method pyval.
Implicit Types (a : BaseAgent) (w : world).

Lemma hook_unfold key value a w :
  hook key value (a, w) =
    let '(r, (sm, w')) :=
      StateManager.set key (value (clock (ticks w))) (state_manager a, tick w) in
    (r, (with_state_manager sm a, w')).
Proof. reflexivity. Qed.

Lemma on_start_hook : BaseAgent.on_start = hook "last_start" (λ t, PyStr (isoformat t)).
Proof. reflexivity. Qed.

Lemma on_stop_hook : BaseAgent.on_stop = hook "last_stop" (λ t, PyStr (isoformat t)).
Proof. reflexivity. Qed.

Lemma on_success_hook r : BaseAgent.on_success r = hook "last_success" (λ t, PyStr (isoformat t)).
Proof. reflexivity. Qed.

Lemma on_error_hook e : BaseAgent.on_error e = hook "last_error" (λ t, error_record t e).
Proof. reflexivity. Qed.

Lemma error_record_dumps t e : is_ok (json_dump (error_record t e)) = true.
Proof. reflexivity. Qed.

(** A hook on a healthy store returns normally and keeps the store healthy. *)
Lemma hook_healthy key value a w E :
  state (state_manager a) = PyDict E → healthy (state_manager a) →
  is_ok (json_dump (value (clock (ticks w)))) = true →
  ∃ sm' w',
    hook key value (a, w) = (Ok tt, (with_state_manager sm' a, w')) ∧
    healthy sm' ∧
    state sm' = PyDict (dict_set key (value (clock (ticks w))) E).
Proof.
  intros HE (E' & Mt & HE' & HM & Hsave) Hv.
  destruct (set_healthy (state_manager a) (tick w) key _ E Mt HE HM Hsave Hv) as (Hh & w' & Hset).
  eexists _, w'. rewrite hook_unfold, Hset. done.
Qed.

(** A hook that returned normally ran on, and left, a healthy store. *)
Lemma hook_returned key value a w s' :
  hook key value (a, w) = (Ok tt, s') →
  ∃ sm' E,
    s'.1 = with_state_manager sm' a ∧ healthy sm' ∧ state sm' = PyDict E.
Proof.
  rewrite hook_unfold. intros Hhook.
  destruct (StateManager.set _ _ _) as [[[]|] [sm' w']] eqn:Hset; [|done].
  injection Hhook as <-. simpl.
  apply set_returned in Hset as (E & Mt & HE & HM & Hsm' & Hsave). simpl in *. subst sm'.
  eexists _, _. split; [done|]. split; [|done].
  eexists _, _. split; [done|]. split; [done|]. done.
Qed.

Lemma run_unfold x a w :
  BaseAgent.run process x (a, w) =
    let (r, s) := attempt process x (started a w) in
    match BaseAgent.on_stop s with
    | (Ok _, s') => (r, stopped s')
    | (Raise e, s') => (Raise e, s')
    end.
Proof.
  unfold BaseAgent.run, attempt, started, stopped.
  unfold bind at 1 2. simpl. unfold try_finally.
  destruct (try_except _ _ _) as [r s].
  unfold bind at 1. destruct (BaseAgent.on_stop s) as [[[]|] s']; [|done].
  by destruct s'.
Qed.

(** C2, amended: when [run] reaches the process step (the start hook has
    completed), that step raises an exception [e] that is an instance of
    [Exception], and it leaves a store that can still be autosaved (entries
    and metadata are mappings, and autosave is off or everything they hold
    has a JSON encoding), then [run] raises the same [e]; afterwards the
    snapshot of the state holds under [last_error] a record whose message
    is exactly the text of [e] (so that it contains it) and whose type is
    the class name of [e], it holds a stop time under [last_stop], and the
    agent is not running. *)
Theorem run_reraises_and_records a w x e s1 s2 :
  BaseAgent.on_start (started a w) = (Ok tt, s1) →
  process x s1 = (Raise e, s2) →
  is_Exception e = true →
  healthy (state_manager s2.1) →
  ∃ a' w' snap record msg stop,
    BaseAgent.run process x (a, w) = (Raise e, (a', w')) ∧
    BaseAgent.get_state (a', w') = (Ok snap, (a', w')) ∧
    py_getitem snap "last_error" = Ok record ∧
    py_getitem record "error" = Ok (PyStr msg) ∧
    msg = exn_str e ∧
    str_contains (exn_str e) msg = true ∧
    py_getitem record "type" = Ok (PyStr (exn_type e)) ∧
    py_getitem snap "last_stop" = Ok (PyStr stop) ∧
    is_running a' = false.
Proof.
  intros Hstart Hproc Hexc Hh2. destruct s2 as [a2 w2]. simpl in Hh2.
  pose proof Hh2 as (E2 & Mt2 & HE2 & _).
  (* the except branch: log, then the error hook *)
  set (w2' := with_log (log w2 ++ [LogRecord (agent_id a2) "ERROR"
                ("Error during execution: " +:+ exn_str e)]) w2).
  destruct (hook_healthy "last_error" (λ t, error_record t e) a2 w2' E2 HE2 Hh2
              (error_record_dumps _ _)) as (sm3 & w3 & Herr & Hh3 & HE3).
  set (a3 := with_state_manager sm3 a2) in *.
  (* the finally branch: the stop hook *)
  destruct (hook_healthy "last_stop" (λ t, PyStr (isoformat t)) a3 w3 _ HE3 Hh3 eq_refl)
    as (sm4 & w4 & Hstop & Hh4 & HE4).
  assert (attempt process x (started a w) = (Raise e, (a3, w3))) as Hatt.
  { unfold attempt, try_except. unfold bind at 1. rewrite Hstart.
    unfold bind at 1. rewrite Hproc, Hexc.
    unfold recover. unfold bind at 1. unfold BaseAgent.logger at 1. unfold_monad. simpl.
    fold w2'. rewrite on_error_hook, Herr. done. }
  eexists _, _, _, _, _, _.
  split. { rewrite run_unfold, Hatt, on_stop_hook, Hstop. reflexivity. }
  unfold BaseAgent.get_state. unfold_monad. simpl. rewrite HE4. simpl.
  split; [reflexivity|].
  unfold py_getitem at 1 4.
  rewrite dict_get_set_ne by done. rewrite !dict_get_set_eq.
  split; [reflexivity|]. simpl.
  split; [reflexivity|]. split; [reflexivity|]. split; [apply str_contains_refl|]. done.
Qed.

(** An exception that is not an instance of [Exception] is not handled:
    [run] re-raises it too, but without the error record; the stop hook
    runs all the same. *)
Lemma run_passes_what_it_does_not_catch a w x e s1 s2 :
  BaseAgent.on_start (started a w) = (Ok tt, s1) →
  process x s1 = (Raise e, s2) →
  is_Exception e = false →
  healthy (state_manager s2.1) →
  ∃ a' w' stop,
    BaseAgent.run process x (a, w) = (Raise e, (a', w')) ∧
    entry "last_error" (a', w') = entry "last_error" s2 ∧
    entry "last_stop" (a', w') = Ok (PyStr stop) ∧
    is_running a' = false.
Proof.
  intros Hstart Hproc Hexc Hh2. destruct s2 as [a2 w2]. simpl in Hh2.
  pose proof Hh2 as (E2 & Mt2 & HE2 & _).
  destruct (hook_healthy "last_stop" (λ t, PyStr (isoformat t)) a2 w2 _ HE2 Hh2 eq_refl)
    as (sm3 & w3 & Hstop & Hh3 & HE3).
  assert (attempt process x (started a w) = (Raise e, (a2, w2))) as Hatt.
  { unfold attempt, try_except. unfold bind at 1. rewrite Hstart.
    unfold bind at 1. by rewrite Hproc, Hexc. }
  eexists _, _, _.
  split. { rewrite run_unfold, Hatt, on_stop_hook, Hstop. reflexivity. }
  unfold entry. simpl. rewrite HE3, HE2. simpl.
  rewrite dict_get_set_ne by done. rewrite dict_get_set_eq. done.
Qed.

(** A process step that is a function of its input leaves the store as the
    start hook left it, which is healthy. *)
Lemma start_hook_leaves_healthy a w s1 :
  BaseAgent.on_start (started a w) = (Ok tt, s1) → healthy (state_manager s1.1).
Proof.
  rewrite on_start_hook. intros Hstart.
  apply hook_returned in Hstart as (sm1 & E1 & -> & Hh1 & _). done.
Qed.

(** Hooks and log calls never touch the running flag. *)
Lemma hook_keeps_running key value s :
  is_running (hook key value s).2.1 = is_running s.1.
Proof.
  destruct s as [a w]. rewrite hook_unfold.
  by destruct (StateManager.set _ _ _) as [r [sm w']].
Qed.

Lemma attempt_keeps_running x s :
  (∀ s0, is_running (process x s0).2.1 = is_running s0.1) →
  is_running (attempt process x s).2.1 = is_running s.1.
Proof.
  intros Hprocess. unfold attempt, try_except.
  assert (∀ e s0, is_running s0.1 = is_running s.1 →
    is_running (if is_Exception e then recover e s0 else (Raise e, s0)).2.1 = is_running s.1)
    as Hhandler.
  { intros e [a0 w0] H0. destruct (is_Exception e); [|done].
    unfold recover. unfold bind at 1. unfold BaseAgent.logger at 1.
    unfold_monad. simpl. rewrite on_error_hook.
    match goal with |- context [hook ?k ?v ?s0] =>
      pose proof (hook_keeps_running k v s0) as Hk; destruct (hook k v s0) as [[[]|] s1] end;
      simpl in *; congruence. }
  unfold bind at 1. rewrite on_start_hook.
  pose proof (hook_keeps_running "last_start" (λ t, PyStr (isoformat t)) s) as H1.
  destruct (hook "last_start" _ s) as [[[]|e1] s1]; simpl in H1; [|by apply Hhandler].
  unfold bind at 1. specialize (Hprocess s1).
  destruct (process x s1) as [[r|e2] s2]; simpl in Hprocess; [|apply Hhandler; congruence].
  unfold bind at 1. rewrite on_success_hook.
  pose proof (hook_keeps_running "last_success" (λ t, PyStr (isoformat t)) s2) as H2.
  destruct (hook "last_success" _ s2) as [[[]|e3] s3]; simpl in H2; [|apply Hhandler; congruence].
  unfold ret. simpl. congruence.
Qed.

(** The two ways [run] can end.  The stop hook is always invoked; when it
    completes the agent is left not running; when it raises, [run] raises
    that exception and, the process step not touching the flag, leaves the
    agent running. *)
Lemma run_stop_hook x a w :
  let (r0, s) := attempt process x (started a w) in
  match BaseAgent.on_stop s with
  | (Ok _, s') =>
      BaseAgent.run process x (a, w) = (r0, stopped s') ∧ is_running (stopped s').1 = false
  | (Raise e, s') =>
      BaseAgent.run process x (a, w) = (Raise e, s') ∧
      ((∀ s0, is_running (process x s0).2.1 = is_running s0.1) → is_running s'.1 = true)
  end.
Proof.
  pose proof (run_unfold x a w) as Hrun.
  pose proof (attempt_keeps_running x (started a w)) as Hkeep.
  destruct (attempt process x (started a w)) as [r0 s]. simpl in Hkeep.
  pose proof (hook_keeps_running "last_stop" (λ t, PyStr (isoformat t)) s) as Hstop.
  rewrite <- on_stop_hook in Hstop.
  destruct (BaseAgent.on_stop s) as [[[]|e] s']; simpl in Hstop; split; try done.
  intros Hprocess. rewrite Hstop. by apply Hkeep.
Qed.
End Lifecycle.

(** ** Saving and loading back (C1) *)

Section RoundTrip.
Context `{Host}.
Implicit Types (sm : StateManager) (w : world).

(** C1, amended: the round trip holds for every plain name (a file name
    without a directory part: [open] creates no directory) that does not
    end in [.json], and every store whose entries and metadata are JSON
    values (strings, integers, booleans, null, lists and string-keyed
    mappings of such): the fresh store ends with the same entries and
    version, and its [updated_at] is the clock reading taken by [load]. *)
Theorem save_then_load_roundtrip (s1 : StateManager) (name : string) (autosave2 : bool) w :
  plain name →
  endswith name ".json" = false →
  is_json (state s1) = true →
  is_json (metadata s1) = true →
  roundtrip_holds s1 name autosave2 w.
Proof.
  intros _ Hname Hst Hmd E Mt V HE HM HV.
  destruct (json_roundtrip (snapshot s1)) as (j & Hdump & Hload).
  { unfold snapshot. simpl. by rewrite Hmd, Hst. }
  rewrite save_named. fold (snapshot s1). rewrite Hdump.
  unfold StateManager.__init__.
  set (s2 := {| state_dir := state_dir s1 |}).
  set (w2 := tick (tick _)).
  assert (fs w2 !! StateManager.load_path s2 name = Some (Document j)) as Hfile.
  { unfold StateManager.load_path. rewrite Hname. simpl.
    unfold StateManager.save_path. apply lookup_insert_eq. }
  rewrite (load_document s2 w2 name j _ Hfile Hload). simpl.
  erewrite touch_dict by (simpl; exact HM). simpl.
  eexists _, _, _. split; [reflexivity|]. simpl.
  split; [done|]. split; [reflexivity|].
  split; [by rewrite dict_get_set_ne|apply dict_get_set_eq].
Qed.
End RoundTrip.

(** ** What the calls do to the metadata and to the documents *)

Section Invariant.
Context `{Host}.
Implicit Types (sm : StateManager) (w : world).

(** [G n c]: the creation stamp [c] is acceptable when the clock has been
    read [n] times.  [R c u]: the update stamp [u] (if any) is acceptable
    beside [c]. *)
Variable G : nat → pyval → Prop.
Variable R : pyval → option pyval → Prop.
Hypothesis G_mono : ∀ (n n' : nat) c, n ≤ n' → G n c → G n' c.
Hypothesis G_str : ∀ n c, G n c → ∃ x, c = PyStr x.
Hypothesis R_now : ∀ (n i : nat) c, G n c → n ≤ i → R c (Some (PyStr (isoformat (clock i)))).

Local Abbreviation meta_inv := (meta_inv G R).
Local Abbreviation doc_inv := (doc_inv G).
Local Abbreviation fs_inv := (fs_inv G).
Local Abbreviation inv := (inv G R).
Local Abbreviation step_ok := (step_ok G R).
Local Abbreviation sys_inv := (sys_inv G R).

Lemma meta_inv_mono (n n' : nat) md : n ≤ n' → meta_inv n md → meta_inv n' md.
Proof. intros Hn (d & c & ? & ? & ? & ?). exists d, c. eauto 10. Qed.

Lemma fs_inv_mono (n n' : nat) f : n ≤ n' → fs_inv n f → fs_inv n' f.
Proof.
  intros Hn Hf p j Hp top Htop. destruct (Hf p j Hp top Htop) as (d & c & ? & ? & ?).
  exists d, c. eauto.
Qed.

Lemma fs_inv_garbled n f p complaint : fs_inv n f → fs_inv n (<[p := Garbled complaint]> f).
Proof.
  intros Hf q j. rewrite lookup_insert. case_decide; [done|]. apply Hf.
Qed.

Lemma fs_inv_document n f p j : doc_inv n j → fs_inv n f → fs_inv n (<[p := Document j]> f).
Proof.
  intros Hj Hf q j'. rewrite lookup_insert. case_decide; [|apply Hf].
  by intros [= <-].
Qed.

(** The document written for a store with acceptable metadata is fine. *)
Lemma doc_inv_snapshot n sm j :
  meta_inv n (metadata sm) → json_dump (snapshot sm) = Ok j → doc_inv n j.
Proof.
  intros (d & c & HM & Hc & HG & _) Hdump top Htop.
  unfold snapshot in Hdump. rewrite HM, json_dump_dict in Hdump. simpl in Hdump.
  rewrite json_dump_dict in Hdump.
  destruct (dump_members d) as [ms|] eqn:Hms; [|done].
  destruct (json_dump (state sm)) as [js|]; [|done].
  injection Hdump as <-. simpl in Htop. injection Htop as <-. simpl.
  eexists _, c. split; [reflexivity|]. split; [|done].
  destruct (G_str _ _ HG) as [x ->]. by eapply dump_members_get_str.
Qed.

(** Writing the snapshot of a store, under any path. *)
Lemma write_snapshot_inv sm w path :
  inv (sm, w) → inv (write_json path (snapshot sm) (sm, w)).2.
Proof.
  intros [Hm Hf]. unfold write_json.
  destruct (json_dump (snapshot sm)) as [j|e] eqn:Hdump; unfold_monad; simpl.
  - split; [done|]. apply fs_inv_document; [|done]. by eapply doc_inv_snapshot.
  - split; [done|]. by apply fs_inv_garbled.
Qed.

Lemma write_snapshot_store sm w path : (write_json path (snapshot sm) (sm, w)).2.1 = sm.
Proof. unfold write_json. by destruct (json_dump _); unfold_monad. Qed.

Lemma write_snapshot_ticks sm w path :
  ticks (write_json path (snapshot sm) (sm, w)).2.2 = ticks w.
Proof. unfold write_json. by destruct (json_dump _); unfold_monad. Qed.

Lemma tick_inv sm w : inv (sm, w) → inv (sm, tick w).
Proof.
  intros [Hm Hf]. simpl in *. split; simpl.
  - eapply meta_inv_mono; [|done]. lia.
  - eapply fs_inv_mono; [|done]. lia.
Qed.

Lemma step_ok_refl s : inv s → step_ok s s.
Proof. by split. Qed.

Lemma step_ok_trans s1 s2 s3 : step_ok s1 s2 → step_ok s2 s3 → step_ok s1 s3.
Proof. intros [? ?] [? ?]. split; [done|lia]. Qed.

Lemma write_snapshot_step sm w path :
  inv (sm, w) → step_ok (sm, w) (write_json path (snapshot sm) (sm, w)).2.
Proof.
  intros Hi. split; [by apply write_snapshot_inv|].
  by rewrite write_snapshot_ticks.
Qed.

Lemma tick_step sm w : inv (sm, w) → step_ok (sm, w) (sm, tick w).
Proof. intros Hi. split; [by apply tick_inv|simpl; lia]. Qed.

Lemma save_step filename sm w :
  inv (sm, w) → step_ok (sm, w) (StateManager.save filename (sm, w)).2.
Proof.
  intros Hi. destruct filename as [name|].
  - pose proof (write_snapshot_step sm w (StateManager.save_path sm name) Hi) as Hw.
    unfold StateManager.save. unfold_monad. simpl. fold (snapshot sm).
    by destruct (write_json _ _ _) as [[[]|] ?].
  - pose proof (tick_step sm w Hi) as Ht.
    eapply step_ok_trans; [exact Ht|]. destruct Ht as [Hi' _].
    pose proof (write_snapshot_step sm (tick w)
      (StateManager.save_path sm ("state_" +:+ strftime_Ymd_HMS (clock (ticks w)))) Hi') as Hw.
    unfold StateManager.save. unfold_monad. simpl. fold (snapshot sm).
    by destruct (write_json _ _ _) as [[[]|] ?].
Qed.

Lemma backup_step backup_dir sm w :
  inv (sm, w) → step_ok (sm, w) (StateManager.backup backup_dir (sm, w)).2.
Proof.
  intros Hi. pose proof (tick_step sm w Hi) as Ht.
  eapply step_ok_trans; [exact Ht|]. destruct Ht as [Hi' _].
  unfold StateManager.backup. unfold_monad. simpl. fold (snapshot sm).
  match goal with |- context [write_json ?p _ _] =>
    pose proof (write_snapshot_step sm (tick w) p Hi') as Hw;
    destruct (write_json p (snapshot sm) (sm, tick w)) as [[[]|] ?] end; done.
Qed.

(** [touch] on acceptable metadata. *)
Lemma touch_step sm w :
  inv (sm, w) →
  ∃ sm', StateManager.touch (sm, w) = (Ok tt, (sm', tick w)) ∧ inv (sm', tick w).
Proof.
  intros [(d & c & HM & Hc & HG & HR) Hf]. simpl in *.
  rewrite (touch_dict _ _ _ HM). eexists. split; [reflexivity|].
  split; simpl.
  - eexists _, c. split; [reflexivity|]. rewrite dict_get_set_ne by done.
    split; [done|]. split; [eapply G_mono; [|done]; lia|].
    rewrite dict_get_set_eq. eapply R_now; [done|lia].
  - eapply fs_inv_mono; [|done]. lia.
Qed.

(** The common end of [set] and [clear]: the stamp, then the optional
    autosave. *)
Lemma finish_step sm w :
  inv (sm, w) →
  step_ok (sm, w)
    ((StateManager.touch;;
      let* sm := self in
      if autosave sm then (StateManager.save None;; ret tt) else ret tt) (sm, w)).2.
Proof.
  intros Hi. destruct (touch_step sm w Hi) as (sm' & Htouch & Hi').
  unfold bind at 1. rewrite Htouch. unfold bind at 1. unfold self at 1. simpl.
  assert (step_ok (sm, w) (sm', tick w)) as Hstep by (split; [done|simpl; lia]).
  destruct (autosave sm'); [|done].
  pose proof (save_step None sm' (tick w) Hi') as Hs.
  unfold bind at 1. destruct (StateManager.save None _) as [[?|?] ?]; simpl in *;
    by eapply step_ok_trans.
Qed.

(** The end of [delete], which goes on to return [True]. *)
Lemma finish_true_step sm w :
  inv (sm, w) →
  step_ok (sm, w)
    ((StateManager.touch;;
      let* sm := self in
      (if autosave sm then (StateManager.save None;; ret tt) else ret tt);;
      ret true) (sm, w)).2.
Proof.
  intros Hi. destruct (touch_step sm w Hi) as (sm' & Htouch & Hi').
  unfold bind at 1. rewrite Htouch. unfold bind at 1. unfold self at 1. simpl.
  assert (step_ok (sm, w) (sm', tick w)) as Hstep by (split; [done|simpl; lia]).
  unfold bind at 1.
  destruct (autosave sm'); [|done].
  pose proof (save_step None sm' (tick w) Hi') as Hs.
  unfold bind at 1. destruct (StateManager.save None _) as [[?|?] ?]; simpl in *;
    by eapply step_ok_trans.
Qed.

(** The invariant does not look at the entries. *)
Lemma with_state_step st sm w s' :
  inv (sm, w) → step_ok (with_state st sm, w) s' → step_ok (sm, w) s'.
Proof. by intros _ [? ?]. Qed.

Lemma with_state_inv st sm w : inv (sm, w) → inv (with_state st sm, w).
Proof. by intros [? ?]. Qed.

Lemma set_step key value sm w :
  inv (sm, w) → step_ok (sm, w) (StateManager.set key value (sm, w)).2.
Proof.
  intros Hi. unfold StateManager.set.
  unfold bind at 1. unfold self at 1. unfold bind at 1. unfold lift at 1. simpl.
  destruct (py_setitem (state sm) key value) as [st|e]; [|by apply step_ok_refl].
  unfold bind at 1. unfold update at 1. simpl.
  eapply with_state_step; [done|]. apply finish_step. by apply with_state_inv.
Qed.

Lemma clear_step sm w :
  inv (sm, w) → step_ok (sm, w) (StateManager.clear (sm, w)).2.
Proof.
  intros Hi. unfold StateManager.clear.
  unfold bind at 1. unfold self at 1. unfold bind at 1. unfold lift at 1. simpl.
  destruct (py_clear (state sm)) as [st|e]; [|by apply step_ok_refl].
  unfold bind at 1. unfold update at 1. simpl.
  eapply with_state_step; [done|]. apply finish_step. by apply with_state_inv.
Qed.

Lemma delete_step key sm w :
  inv (sm, w) → step_ok (sm, w) (StateManager.delete key (sm, w)).2.
Proof.
  intros Hi. unfold StateManager.delete.
  unfold bind at 1. unfold self at 1. unfold bind at 1. unfold lift at 1. simpl.
  destruct (py_contains key (state sm)) as [[|]|e]; try by apply step_ok_refl.
  unfold bind at 1. unfold lift at 1. simpl.
  destruct (py_delitem (state sm) key) as [st|e]; [|by apply step_ok_refl].
  unfold bind at 1. unfold update at 1. simpl.
  eapply with_state_step; [done|]. apply finish_true_step. by apply with_state_inv.
Qed.

Lemma load_step filename sm w :
  inv (sm, w) → step_ok (sm, w) (StateManager.load filename (sm, w)).2.
Proof.
  intros Hi. pose proof Hi as [Hm Hf]. simpl in Hm, Hf.
  unfold StateManager.load.
  unfold bind at 1. unfold self at 1. unfold bind at 1. unfold the_world at 1. simpl.
  destruct (fs w !! StateManager.load_path sm filename) as [[j|complaint]|] eqn:Hfile;
    try by apply step_ok_refl.
  destruct (json_load j) as [| | | | | |top|] eqn:Htop; try by apply step_ok_refl.
  destruct (Hf _ _ Hfile top Htop) as (d & c & Hd & Hc & HG).
  unfold bind at 1. unfold lift at 1. simpl.
  unfold bind at 1. unfold update at 1. simpl.
  unfold bind at 1. unfold lift at 1. simpl. rewrite Hd.
  unfold bind at 1. unfold update at 1. simpl.
  split; [|simpl; lia]. split; simpl.
  - eexists _, c. split; [reflexivity|]. rewrite dict_get_set_ne by done.
    split; [done|]. split; [eapply G_mono; [|done]; lia|].
    rewrite dict_get_set_eq. eapply R_now; [done|lia].
  - eapply fs_inv_mono; [|done]. lia.
Qed.

(** The reading methods leave everything in place. *)
Lemma get_same key default s : (StateManager.get key default s).2 = s.
Proof.
  destruct s as [sm w]. unfold StateManager.get. unfold_monad. simpl.
  by destruct (py_get (state sm) key default).
Qed.

Lemma list_states_same s : (StateManager.list_states s).2 = s.
Proof. by destruct s. Qed.

Lemma get_metadata_same s : (StateManager.get_metadata s).2 = s.
Proof.
  destruct s as [sm w]. unfold StateManager.get_metadata. unfold_monad. simpl.
  by destruct (py_copy (metadata sm)).
Qed.

Lemma validate_state_same schema s : (StateManager.validate_state schema s).2 = s.
Proof.
  destruct s as [sm w]. induction schema as [|[k t] schema IH]; [done|].
  simpl. unfold_monad. simpl.
  destruct (py_contains k (state sm)) as [[|]|]; simpl; [|done|done].
  destruct (py_getitem (state sm) k) as [v|]; simpl; [|done].
  by destruct (isinstance v t).
Qed.

Lemma call_step o s : inv s → step_ok s (call o s).
Proof.
  destruct s as [sm w]. intros Hi. destruct o; unfold call.
  - by apply set_step.
  - rewrite get_same. by apply step_ok_refl.
  - by apply delete_step.
  - by apply clear_step.
  - by apply save_step.
  - by apply load_step.
  - rewrite list_states_same. by apply step_ok_refl.
  - by apply backup_step.
  - rewrite validate_state_same. by apply step_ok_refl.
  - rewrite get_metadata_same. by apply step_ok_refl.
Qed.

Lemma calls_step os s : inv s → step_ok s (calls os s).
Proof.
  revert s. induction os as [|o os IH]; intros s Hi; [by apply step_ok_refl|].
  simpl. pose proof (call_step o s Hi) as Ho.
  eapply step_ok_trans; [exact Ho|]. apply IH. by destruct Ho.
Qed.

(** Several stores over one file system. *)
Hypothesis G_init : ∀ n, G n (PyStr (isoformat (clock n))).

Lemma init_meta_inv d b w :
  let (sm, w') := StateManager.__init__ d b w in
  meta_inv (ticks w') (metadata sm) ∧ ticks w ≤ ticks w'.
Proof.
  simpl. split; [|lia].
  eexists _, _. split; [reflexivity|]. simpl. split; [reflexivity|].
  split; [eapply G_mono; [|apply G_init]; lia|].
  eapply R_now; [apply G_init|lia].
Qed.

Lemma act_inv x sys : sys_inv sys → sys_inv (act x sys).
Proof.
  destruct sys as [stores w]. intros [Hstores Hf]. simpl in *.
  destruct x as [d b|i o]; simpl.
  - split; simpl.
    + apply Forall_app. split.
      * eapply Forall_impl; [done|]. intros sm. apply meta_inv_mono. lia.
      * apply Forall_singleton. apply (init_meta_inv d b w).
    + eapply fs_inv_mono; [|done]. lia.
  - destruct (stores !! i) as [sm|] eqn:Hi; [|by split].
    assert (inv (sm, w)) as Hinv.
    { split; [|done]. eapply (Forall_lookup_1 _ _ _ _ Hstores Hi). }
    destruct (call_step o (sm, w) Hinv) as [[Hm' Hf'] Hticks].
    destruct (call o (sm, w)) as [sm' w']. simpl in *. split; [|done]. simpl.
    apply Forall_insert; [|done].
    eapply Forall_impl; [done|]. intros sm0. by apply meta_inv_mono.
Qed.

Lemma acts_inv xs sys : sys_inv sys → sys_inv (acts xs sys).
Proof.
  revert sys. induction xs as [|x xs IH]; intros sys Hi; [done|].
  simpl. apply IH. by apply act_inv.
Qed.
End Invariant.

(** ** The creation stamp (C3) *)

Section CreatedAt.
Context `{Host}.
Implicit Types (sm : StateManager) (w : world).

Lemma getitem_touched md t md' :
  py_setitem md "updated_at" t = Ok md' →
  py_getitem md' "created_at" = py_getitem md "created_at".
Proof.
  destruct md; try done. intros [= <-]. simpl. by rewrite dict_get_set_ne.
Qed.

Lemma call_created_at o s : is_load o = false → created_at (call o s).1 = created_at s.1.
Proof.
  destruct s as [sm w]. intros Hload. unfold created_at.
  destruct o; try done; unfold call.
  - crush_call; by eapply getitem_touched.
  - crush_call; by eapply getitem_touched.
  - crush_call; by eapply getitem_touched.
  - crush_call.
  - crush_call.
  - by rewrite validate_state_same.
Qed.

Lemma calls_created_at os s :
  (∀ o, o ∈ os → is_load o = false) →
  created_at (calls os s).1 = created_at s.1.
Proof.
  revert s. induction os as [|o os IH]; intros s Hall; [done|].
  simpl. rewrite IH by (intros o' Ho'; apply Hall; by right).
  apply call_created_at, Hall. by left.
Qed.

(** C3, amended: [created_at] is the first clock reading of the
    construction.  No call other than [load] changes it, whatever the file
    system holds; [load] replaces the metadata by the document's, so over
    any sequence of calls, loads included, [created_at] keeps the
    construction value as long as every document records that value, as the
    documents this store saves do. *)
Theorem created_at_kept dir b w os :
  let s0 := StateManager.__init__ dir b w in
  let c := isoformat (clock (ticks w)) in
  created_at s0.1 = Ok (PyStr c) ∧
  ((∀ o, o ∈ os → is_load o = false) → created_at (calls os s0).1 = Ok (PyStr c)) ∧
  (documents_record c (fs w) → created_at (calls os s0).1 = Ok (PyStr c)).
Proof.
  intros s0 c. split; [done|]. split.
  - intros Hno. by rewrite calls_created_at.
  - intros Hdocs.
    pose (G := λ (_ : nat) (v : pyval), v = PyStr c).
    pose (R := λ (_ : pyval) (_ : option pyval), True).
    assert (inv G R s0) as Hinv.
    { split; simpl.
      - eexists _, _. split; [reflexivity|]. by simpl.
      - intros p j Hp top Htop. destruct (Hdocs p j top Hp Htop) as (d & Hd & Hc).
        by exists d, (PyStr c). }
    assert (∀ (n n' : nat) v, n ≤ n' → G n v → G n' v) as G_mono by done.
    assert (∀ (n : nat) v, G n v → ∃ x, v = PyStr x) as G_str by (intros ? v Hv; by exists c).
    assert (∀ (n i : nat) v, G n v → n ≤ i → R v (Some (PyStr (isoformat (clock i))))) as R_now
      by done.
    destruct (calls_step G R G_mono G_str R_now os s0 Hinv) as [[Hm _] _].
    destruct Hm as (d & v & HM & Hc & -> & _).
    unfold created_at. rewrite HM. simpl. by rewrite Hc.
Qed.
End CreatedAt.

(** ** The two stamps (C6) *)

Section Stamps.
Context `{Host}.
Implicit Types (sm : StateManager) (w : world).

(** C6, amended: with a clock that does not run backwards, in a system of
    any number of stores over one file system, started with documents whose
    creation stamp is not in the future (none at all, for instance), after
    every sequence of constructions and calls (mutations, saves, loads,
    whether they return or raise) every store has
    [updated_at >= created_at]. *)
Theorem updated_at_not_before_created_at w xs sm :
  (∀ i j, i ≤ j → clock i ≤ clock j) →
  documents_stamped w →
  sm ∈ (acts xs ([], w)).1 →
  stamps_ordered sm.
Proof.
  intros Hclock Hdocs Hin.
  pose (G := λ (n : nat) (v : pyval), ∃ c, v = PyStr (isoformat c) ∧ c ≤ clock n).
  pose (R := λ (v : pyval) (ou : option pyval),
          ∃ c u, v = PyStr (isoformat c) ∧ ou = Some (PyStr (isoformat u)) ∧ c ≤ u).
  assert (sys_inv G R ([], w)) as Hinv.
  { split; simpl; [done|].
    intros p j Hp top Htop. destruct (Hdocs p j top Hp Htop) as (d & c & Hd & Hc & Hle).
    exists d, (PyStr (isoformat c)). split; [done|]. split; [done|]. by exists c. }
  assert (∀ (n n' : nat) v, n ≤ n' → G n v → G n' v) as G_mono.
  { intros n n' v Hn (c & -> & Hc). exists c. split; [done|].
    etrans; [exact Hc|]. by apply Hclock. }
  assert (∀ (n : nat) v, G n v → ∃ x, v = PyStr x) as G_str.
  { intros n v (c & -> & _). by eexists. }
  assert (∀ (n i : nat) v, G n v → n ≤ i → R v (Some (PyStr (isoformat (clock i))))) as R_now.
  { intros n i v (c & -> & Hc) Hn. eexists c, _. split; [done|]. split; [done|].
    etrans; [exact Hc|]. by apply Hclock. }
  assert (∀ n, G n (PyStr (isoformat (clock n)))) as G_init.
  { intros n. by exists (clock n). }
  destruct (acts_inv G R G_mono G_str R_now G_init xs _ Hinv) as [Hall _].
  rewrite Forall_forall in Hall. destruct (Hall sm Hin) as (d & v & HM & Hc & _ & HR).
  destruct HR as (c & u & -> & Hu & Hle).
  exists c, u. rewrite HM. simpl. rewrite Hc, Hu. done.
Qed.
End Stamps.


(** * Further properties of the store

    What follows is read off [state_manager.py] beyond the claims: what each
    method leaves alone, how the methods compose, and what happens at the
    edges. *)

(** ** What the steps of a method leave in place *)

Section Components.
Context `{Host}.
Implicit Types (sm : StateManager) (w : world).

Lemma touch_frame sm w :
  let s' := (StateManager.touch (sm, w)).2 in
  state s'.1 = state sm ∧ state_dir s'.1 = state_dir sm ∧ autosave s'.1 = autosave sm ∧
  fs s'.2 = fs w ∧ log s'.2 = log w.
Proof. step. by destruct (py_setitem _ _ _). Qed.

Lemma save_keeps_store filename s : (StateManager.save filename s).2.1 = s.1.
Proof.
  destruct s as [sm w]. destruct filename as [name|]; [rewrite save_named|rewrite save_auto];
    simpl; by destruct (json_dump _).
Qed.

Lemma autosaved_store {A} (x : A) s : (autosaved x s).2.1 = s.1.
Proof.
  unfold autosaved. destruct (autosave s.1); [|done].
  pose proof (save_keeps_store None s) as Hs.
  by destruct (StateManager.save None s) as [[?|?] ?].
Qed.

Lemma set_entries sm w key value E :
  state sm = PyDict E →
  state (StateManager.set key value (sm, w)).2.1 = PyDict (dict_set key value E).
Proof.
  intros HE. unfold StateManager.set.
  unfold bind at 1. unfold self at 1. unfold bind at 1. unfold lift at 1. simpl. rewrite HE. simpl.
  unfold bind at 1. unfold update at 1. simpl.
  set (sm1 := with_state _ sm).
  pose proof (touch_frame sm1 w) as (Hst & _ & _ & _).
  unfold bind at 1. destruct (StateManager.touch (sm1, w)) as [[[]|e] [sm2 w2]]; simpl in *; [|done].
  unfold bind at 1. unfold self at 1. simpl.
  destruct (autosave sm2); [|done].
  pose proof (save_keeps_store None (sm2, w2)) as Hs.
  unfold bind at 1. destruct (StateManager.save None _) as [[?|?] [sm3 w3]]; simpl in *; by subst.
Qed.

Lemma delete_entries sm w key E :
  state sm = PyDict E →
  state (StateManager.delete key (sm, w)).2.1 =
    PyDict (if dict_mem key E then dict_del key E else E).
Proof.
  intros HE. unfold StateManager.delete.
  unfold bind at 1. unfold self at 1. unfold bind at 1. unfold lift at 1. simpl. rewrite HE. simpl.
  destruct (dict_mem key E); [|done].
  unfold bind at 1. unfold lift at 1. simpl.
  unfold bind at 1. unfold update at 1. simpl.
  set (sm1 := with_state _ sm).
  pose proof (touch_frame sm1 w) as (Hst & _ & _ & _).
  unfold bind at 1. destruct (StateManager.touch (sm1, w)) as [[[]|e] [sm2 w2]]; simpl in *; [|done].
  unfold bind at 1. unfold self at 1. simpl.
  unfold bind at 1.
  destruct (autosave sm2); [|done].
  pose proof (save_keeps_store None (sm2, w2)) as Hs.
  unfold bind at 1. destruct (StateManager.save None _) as [[?|?] [sm3 w3]]; simpl in *; by subst.
Qed.

Lemma clear_entries sm w E :
  state sm = PyDict E → state (StateManager.clear (sm, w)).2.1 = PyDict [].
Proof.
  intros HE. unfold StateManager.clear.
  unfold bind at 1. unfold self at 1. unfold bind at 1. unfold lift at 1. simpl. rewrite HE. simpl.
  unfold bind at 1. unfold update at 1. simpl.
  set (sm1 := with_state _ sm).
  pose proof (touch_frame sm1 w) as (Hst & _ & _ & _).
  unfold bind at 1. destruct (StateManager.touch (sm1, w)) as [[[]|e] [sm2 w2]]; simpl in *; [|done].
  unfold bind at 1. unfold self at 1. simpl.
  destruct (autosave sm2); [|done].
  pose proof (save_keeps_store None (sm2, w2)) as Hs.
  unfold bind at 1. destruct (StateManager.save None _) as [[?|?] [sm3 w3]]; simpl in *; by subst.
Qed.

Lemma get_dict sm w key dflt E :
  state sm = PyDict E →
  StateManager.get key dflt (sm, w) = (Ok (default dflt (dict_get key E)), (sm, w)).
Proof. intros HE. unfold StateManager.get. unfold_monad. simpl. by rewrite HE. Qed.

Lemma call_config o s :
  state_dir (call o s).1 = state_dir s.1 ∧ autosave (call o s).1 = autosave s.1.
Proof.
  destruct s as [sm w].
  destruct o; try (unfold call; rewrite validate_state_same; done); crush_op.
Qed.

Lemma call_files o s : dom (fs s.2) ⊆ dom (fs (call o s).2).
Proof.
  destruct s as [sm w].
  destruct o; try (unfold call; rewrite validate_state_same; done); crush_op;
    try apply dom_insert_subseteq.
Qed.

Lemma call_log o s : log (call o s).2 = log s.2.
Proof.
  destruct s as [sm w].
  destruct o; try (unfold call; rewrite validate_state_same; done); crush_op.
Qed.

Lemma call_metadata_frame o s k :
  is_load o = false → k ≠ "updated_at" →
  py_getitem (metadata (call o s).1) k = py_getitem (metadata s.1) k.
Proof.
  intros Hload Hk. destruct s as [sm w].
  assert (∀ md v md', py_setitem md "updated_at" v = Ok md' →
            py_getitem md' k = py_getitem md k) as Htouched.
  { intros md v md' Hset. destruct md; try done. injection Hset as <-. simpl.
    by rewrite dict_get_set_ne. }
  destruct o; try done; try (unfold call; rewrite validate_state_same; done); crush_op;
    by eapply Htouched.
Qed.
End Components.

(** ** Entries: reading, writing, removing *)

Section Entries.
Context `{Host}.
Implicit Types (sm : StateManager) (w : world).

(** X1: [get], [list_states], [validate_state] and [get_metadata] are pure
    reads.  Whatever the store holds, and whether they return or raise, they
    leave the store and the world exactly as they were: they do not refresh
    [updated_at], read the clock, or trigger an autosave. *)
Theorem reads_change_nothing key dflt schema (s : StateManager * world) :
  (StateManager.get key dflt s).2 = s ∧
  (StateManager.list_states s).2 = s ∧
  (StateManager.validate_state schema s).2 = s ∧
  (StateManager.get_metadata s).2 = s.
Proof.
  split; [apply get_same|]. split; [apply list_states_same|].
  split; [apply validate_state_same|apply get_metadata_same].
Qed.

(** X2: after [set key value], whether the call returned or its autosave
    raised, [get key] returns [value] whatever the default, and [get] of
    every other key returns what it returned before. *)
Theorem get_after_set sm w key value E :
  state sm = PyDict E →
  let s' := (StateManager.set key value (sm, w)).2 in
  ∀ dflt,
    (StateManager.get key dflt s').1 = Ok value ∧
    ∀ key', key' ≠ key →
      (StateManager.get key' dflt s').1 = (StateManager.get key' dflt (sm, w)).1.
Proof.
  intros HE s' dflt.
  pose proof (set_entries sm w key value E HE) as Hset. fold s' in Hset.
  clearbody s'. destruct s' as [sm' w']. simpl in Hset.
  split.
  - rewrite (get_dict _ _ _ _ _ Hset). simpl. by rewrite dict_get_set_eq.
  - intros key' Hne. rewrite (get_dict _ _ _ _ _ Hset), (get_dict _ _ _ _ _ HE). simpl.
    by rewrite dict_get_set_ne.
Qed.

(** X3: [delete] is idempotent.  After [delete key], whatever its outcome, a
    second [delete key] returns [False] and changes nothing, [get key]
    returns the default, and every other key reads as before. *)
Theorem delete_is_idempotent sm w key E :
  state sm = PyDict E →
  let s' := (StateManager.delete key (sm, w)).2 in
  StateManager.delete key s' = (Ok false, s') ∧
  ∀ dflt,
    (StateManager.get key dflt s').1 = Ok dflt ∧
    ∀ key', key' ≠ key →
      (StateManager.get key' dflt s').1 = (StateManager.get key' dflt (sm, w)).1.
Proof.
  intros HE s'.
  pose proof (delete_entries sm w key E HE) as Hdel. fold s' in Hdel.
  clearbody s'. destruct s' as [sm' w']. simpl in Hdel.
  set (E' := if dict_mem key E then dict_del key E else E) in *.
  assert (dict_get key E' = None) as Hgone.
  { unfold E'. destruct (dict_mem key E) eqn:Hin; [apply dict_get_del_eq|].
    by apply dict_mem_false. }
  assert (∀ key', key' ≠ key → dict_get key' E' = dict_get key' E) as Hother.
  { intros key' Hne. unfold E'. destruct (dict_mem key E); [|done].
    by apply dict_get_del_ne. }
  split.
  - apply (delete_dict_absent _ _ _ _ Hdel). by apply dict_mem_false.
  - intros dflt. split.
    + rewrite (get_dict _ _ _ _ _ Hdel). simpl. by rewrite Hgone.
    + intros key' Hne. rewrite (get_dict _ _ _ _ _ Hdel), (get_dict _ _ _ _ _ HE). simpl.
      by rewrite Hother.
Qed.

(** X4: [clear] empties the entries whatever its outcome, so every [get]
    then returns its default.  It returns normally as soon as the metadata
    can be encoded, even when the entries could not: the entries are gone
    before the autosave runs, and the store it leaves can be autosaved
    again. *)
Theorem clear_empties_and_recovers sm w E Mt :
  state sm = PyDict E → metadata sm = PyDict Mt →
  let '(r, (sm', w')) := StateManager.clear (sm, w) in
  state sm' = PyDict [] ∧
  (∀ key dflt, (StateManager.get key dflt (sm', w')).1 = Ok dflt) ∧
  (is_ok (json_dump (metadata sm)) = true → r = Ok tt ∧ healthy sm').
Proof.
  intros HE HM.
  pose proof (clear_entries sm w E HE) as Hst.
  pose proof (clear_dict sm w E Mt HE HM) as Hclear.
  destruct (StateManager.clear (sm, w)) as [r [sm' w']]. simpl in Hst.
  split; [done|]. split.
  { intros key dflt. by rewrite (get_dict _ _ _ _ _ Hst). }
  intros Hmd. rewrite HM in Hmd.
  assert (serialisable (stamped sm w (PyDict []) Mt)) as Hser.
  { apply serialisable_parts. simpl. split; [|done].
    by apply json_dump_dict_set. }
  unfold autosaved in Hclear. simpl in Hclear.
  destruct (autosave sm) eqn:Hauto.
  - rewrite save_auto in Hclear. simpl in Hclear.
    unfold serialisable, snapshot in Hser. simpl in Hser.
    destruct (json_dump (PyDict _)); [|done].
    injection Hclear as -> -> ->. split; [done|].
    eexists _, _. split; [reflexivity|]. split; [reflexivity|]. right.
    apply serialisable_parts. simpl. split; [|done]. by apply json_dump_dict_set.
  - injection Hclear as -> -> ->. split; [done|].
    eexists _, _. split; [reflexivity|]. split; [reflexivity|]. by left.
Qed.

(** X5: every mutation stamps [updated_at] with the clock reading it takes
    right after the in-memory change: [set] always, [delete] of a present
    key, and [clear]; the stamp is there even when the autosave that
    follows raises. *)
Theorem mutations_restamp_updated_at sm w E Mt :
  state sm = PyDict E → metadata sm = PyDict Mt →
  let stamp := Ok (PyStr (isoformat (clock (ticks w)))) in
  (∀ key value,
     py_getitem (metadata (StateManager.set key value (sm, w)).2.1) "updated_at" = stamp) ∧
  (∀ key, is_Some (dict_get key E) →
     py_getitem (metadata (StateManager.delete key (sm, w)).2.1) "updated_at" = stamp) ∧
  py_getitem (metadata (StateManager.clear (sm, w)).2.1) "updated_at" = stamp.
Proof.
  intros HE HM stamp. split; [|split].
  - intros key value. rewrite (set_dict _ _ _ _ _ _ HE HM), autosaved_store. simpl.
    by rewrite dict_get_set_eq.
  - intros key Hin. apply dict_mem_true in Hin.
    rewrite (delete_dict_present _ _ _ _ _ HE HM Hin), autosaved_store. simpl.
    by rewrite dict_get_set_eq.
  - rewrite (clear_dict _ _ _ _ HE HM), autosaved_store. simpl.
    by rewrite dict_get_set_eq.
Qed.
End Entries.

(** ** What no call does *)

Section Frames.
Context `{Host}.
Implicit Types (sm : StateManager) (w : world).

(** X6: over any sequence of calls without a [load], every metadata entry
    other than [updated_at] reads as it did at the start ([version] as well
    as [created_at]), whatever the metadata holds. *)
Theorem only_updated_at_is_restamped os s k :
  (∀ o, o ∈ os → is_load o = false) → k ≠ "updated_at" →
  py_getitem (metadata (calls os s).1) k = py_getitem (metadata s.1) k.
Proof.
  intros Hall Hk. revert s Hall. induction os as [|o os IH]; intros s Hall; [done|].
  simpl. rewrite IH by (intros o' Ho'; apply Hall; by right).
  apply call_metadata_frame; [|done]. apply Hall. by left.
Qed.

(** X7: no sequence of calls changes the directory or the autosave setting
    of a store; in particular [load] takes neither from the document. *)
Theorem configuration_is_never_changed os s :
  state_dir (calls os s).1 = state_dir s.1 ∧ autosave (calls os s).1 = autosave s.1.
Proof.
  revert s. induction os as [|o os IH]; intros s; [done|]. simpl.
  destruct (IH (call o s)) as [-> ->]. apply call_config.
Qed.

(** X8: only [save], [backup] and, with autosave on, the three mutations
    write to the file system.  Every other call, [load] included, and every
    mutation of a store with autosave off, leaves every file as it was. *)
Theorem only_saving_writes o sm w :
  may_write o sm = false → fs (call o (sm, w)).2 = fs w.
Proof.
  intros Hquiet.
  destruct o; try done; try (unfold call; rewrite validate_state_same; done);
    simpl in Hquiet; crush_op; congruence.
Qed.

(** X9: no store ever removes a file.  In a system of stores over one file
    system, every path present before a sequence of constructions and calls
    is present after it. *)
Theorem files_are_never_removed xs sys :
  dom (fs sys.2) ⊆ dom (fs (acts xs sys).2).
Proof.
  revert sys. induction xs as [|x xs IH]; intros sys; [done|]. simpl.
  etrans; [|apply IH].
  destruct sys as [stores w]. destruct x as [d b|i o]; simpl; [done|].
  destruct (stores !! i) as [sm|]; [|done].
  pose proof (call_files o (sm, w)) as Hcall.
  by destruct (call o (sm, w)).
Qed.
End Frames.

(** ** Saving *)

Section Saving.
Context `{Host}.
Implicit Types (sm : StateManager) (w : world).

(** X10: [save], given a plain name or none, leaves the store as it is
    ([updated_at] included) and the log alone, and changes the file system
    at one path only, the one it computes from the name:
    [state_dir/name.json], with the name [state_<stamp>] when none is
    given.  With a name it does not read the clock.  When the snapshot can
    be encoded it returns that path and the file holds the snapshot;
    otherwise it raises the encoder's error and leaves a file that is not
    JSON.  (A name with a directory part is left out: [open] creates no
    directory, and for an absolute name the path is not under
    [state_dir].) *)
Theorem save_touches_only_its_target filename sm w :
  (∀ n, filename = Some n → plain n) →
  let name := match filename with
              | Some n => n
              | None => "state_" +:+ strftime_Ymd_HMS (clock (ticks w))
              end in
  let path := StateManager.save_path sm name in
  let '(r, (sm', w')) := StateManager.save filename (sm, w) in
  sm' = sm ∧ log w' = log w ∧
  (∀ p, p ≠ path → fs w' !! p = fs w !! p) ∧
  (is_Some filename → ticks w' = ticks w) ∧
  match json_dump (snapshot sm) with
  | Ok j => r = Ok path ∧ fs w' !! path = Some (Document j)
  | Raise e => r = Raise e ∧ ∃ c, fs w' !! path = Some (Garbled c)
  end.
Proof.
  intros _ name path. unfold snapshot.
  destruct filename as [n|]; [rewrite save_named|rewrite save_auto]; simpl; fold path;
    destruct (json_dump _) as [j|e]; simpl;
    (split; [done|]); (split; [done|]);
    (split; [by intros p Hp; rewrite lookup_insert_ne|]);
    (split; [done || by intros [? [=]]|]);
    rewrite lookup_insert_eq; eauto.
Qed.

(** X11: a [save] that fails destroys its target.  When the snapshot cannot
    be encoded, [save name] raises the encoder's error and leaves the store
    alone, but the file is truncated all the same: a [load] of the same
    name, by any store over the directory, then raises [JSONDecodeError]
    and leaves that store unchanged, whatever the file held before.  (For a
    plain name that does not end in [.json].) *)
Theorem failed_save_corrupts_snapshot sm sm2 w name e :
  plain name → endswith name ".json" = false →
  state_dir sm2 = state_dir sm →
  json_dump (snapshot sm) = Raise e →
  let '(r, (sm', w')) := StateManager.save (Some name) (sm, w) in
  r = Raise e ∧ sm' = sm ∧
  ∃ e', StateManager.load name (sm2, w') = (Raise e', (sm2, w')) ∧
        exn_type e' = "JSONDecodeError".
Proof.
  intros _ Hname Hdir Hdump. rewrite save_named. fold (snapshot sm). rewrite Hdump.
  split; [done|]. split; [done|].
  unfold StateManager.load. unfold_monad. simpl.
  assert (StateManager.load_path sm2 name = StateManager.save_path sm name) as ->.
  { unfold StateManager.load_path, StateManager.save_path. by rewrite Hname, Hdir. }
  rewrite lookup_insert_eq. by eexists.
Qed.

(** X12: default names are by the second and by nothing else.  Two saves
    without a name, by stores over the same directory (the same store or two
    different ones), whose clock readings render the same under
    [%Y%m%d_%H%M%S], return the same path; the second overwrites the first,
    so afterwards the file system holds one new file, with the second
    snapshot. *)
Theorem default_named_saves_collide sm1 sm2 w j1 j2 :
  state_dir sm2 = state_dir sm1 →
  strftime_Ymd_HMS (clock (S (ticks w))) = strftime_Ymd_HMS (clock (ticks w)) →
  json_dump (snapshot sm1) = Ok j1 → json_dump (snapshot sm2) = Ok j2 →
  let '(r1, (_, w1)) := StateManager.save None (sm1, w) in
  let '(r2, (_, w2)) := StateManager.save None (sm2, w1) in
  ∃ path,
    r1 = Ok path ∧ r2 = Ok path ∧
    fs w1 !! path = Some (Document j1) ∧
    fs w2 = <[path := Document j2]> (fs w).
Proof.
  intros Hdir Hsec Hj1 Hj2. rewrite save_auto. simpl.
  fold (snapshot sm1). rewrite Hj1. rewrite save_auto. simpl.
  fold (snapshot sm2). rewrite Hj2.
  unfold StateManager.save_path. rewrite Hdir, Hsec.
  eexists. split; [reflexivity|]. split; [reflexivity|]. simpl.
  split; [apply lookup_insert_eq|apply insert_insert_eq].
Qed.

Lemma set_autosaved sm w key value E Mt j :
  autosave sm = true → state sm = PyDict E → metadata sm = PyDict Mt →
  let sm' := stamped sm w (PyDict (dict_set key value E)) Mt in
  json_dump (snapshot sm') = Ok j →
  StateManager.set key value (sm, w) =
    (Ok tt, (sm', with_fs (<[StateManager.save_path sm
                               ("state_" +:+ strftime_Ymd_HMS (clock (S (ticks w)))) := Document j]>
                             (fs w)) (tick (tick w)))).
Proof.
  intros Hauto HE HM sm' Hj. rewrite (set_dict _ _ _ _ _ _ HE HM). unfold autosaved. simpl.
  rewrite Hauto, save_auto. simpl. unfold snapshot in Hj. simpl in Hj. by rewrite Hj.
Qed.

(** X13: the autosave keeps no history within a second.  On a store with
    autosave on, two [set] calls that both succeed and whose autosaves fall
    into the same second leave one new file, not two: it holds the snapshot
    after the second call, and the snapshot taken after the first is
    gone. *)
Theorem mutations_in_one_second_share_a_snapshot sm w k1 v1 k2 v2 E Mt :
  autosave sm = true → state sm = PyDict E → metadata sm = PyDict Mt →
  serialisable sm →
  is_ok (json_dump v1) = true → is_ok (json_dump v2) = true →
  strftime_Ymd_HMS (clock (S (ticks w))) = strftime_Ymd_HMS (clock (S (S (S (ticks w))))) →
  let '(sm', w') := calls [OpSet k1 v1; OpSet k2 v2] (sm, w) in
  ∃ j,
    fs w' = <[StateManager.save_path sm ("state_" +:+ strftime_Ymd_HMS (clock (S (ticks w))))
                := Document j]> (fs w) ∧
    json_dump (snapshot sm') = Ok j ∧
    state sm' = PyDict (dict_set k2 v2 (dict_set k1 v1 E)).
Proof.
  intros Hauto HE HM Hser Hv1 Hv2 Hsec. unfold calls, call. simpl.
  pose proof (serialisable_stamped sm w E Mt k1 v1 HE HM Hser Hv1) as Hser1.
  set (sm1 := stamped sm w (PyDict (dict_set k1 v1 E)) Mt) in *.
  destruct (json_dump (snapshot sm1)) as [j1|] eqn:Hj1;
    [|by unfold serialisable in Hser1; rewrite Hj1 in Hser1].
  rewrite (set_autosaved sm w k1 v1 E Mt j1 Hauto HE HM Hj1). fold sm1. simpl.
  set (w1 := with_fs _ (tick (tick w))).
  pose proof (serialisable_stamped sm1 w1 _ _ k2 v2 eq_refl eq_refl Hser1 Hv2) as Hser2.
  set (sm2 := stamped sm1 w1 _ _) in *.
  destruct (json_dump (snapshot sm2)) as [j2|] eqn:Hj2;
    [|by unfold serialisable in Hser2; rewrite Hj2 in Hser2].
  rewrite (set_autosaved sm1 w1 k2 v2 _ _ j2 Hauto eq_refl eq_refl Hj2). fold sm2. simpl.
  exists j2. unfold StateManager.save_path. simpl. rewrite <- Hsec.
  by rewrite insert_insert_eq.
Qed.

Lemma save_auto_returned sm w p s' :
  StateManager.save None (sm, w) = (Ok p, s') →
  s'.1 = sm ∧
  on_disk sm s'.2 (StateManager.save_path sm ("state_" +:+ strftime_Ymd_HMS (clock (ticks w)))).
Proof.
  rewrite save_auto. simpl. destruct (json_dump _) as [j|] eqn:Hj; [|done].
  intros [= <- <-]. split; [done|]. exists j. simpl. by rewrite lookup_insert_eq.
Qed.

(** The common end of the three mutations, written as [delete] has it. *)
Lemma finish_in_sync {A} (a : A) sm w s' :
  autosave sm = true →
  (StateManager.touch;;
   let* sm := self in
   (if autosave sm then (StateManager.save None;; ret tt) else ret tt);;
   ret a) (sm, w) = (Ok a, s') →
  on_disk s'.1 s'.2
    (StateManager.save_path sm ("state_" +:+ strftime_Ymd_HMS (clock (S (ticks w))))).
Proof.
  intros Hauto.
  pose proof (touch_frame sm w) as (_ & Hdir & Hauto' & _).
  unfold bind at 1.
  assert (ticks (StateManager.touch (sm, w)).2.2 = S (ticks w) ∨
          is_ok (StateManager.touch (sm, w)).1 = false) as Hticks.
  { step. destruct (py_setitem _ _ _); simpl; [by left|by right]. }
  destruct (StateManager.touch (sm, w)) as [[[]|e] [sm2 w2]]; simpl in *; [|done].
  destruct Hticks as [Hticks|?]; [|done].
  unfold bind at 1. unfold self at 1. simpl. rewrite Hauto', Hauto.
  unfold bind at 1. unfold bind at 1.
  destruct (StateManager.save None (sm2, w2)) as [[p|e] s3] eqn:Hsave; [|done].
  apply save_auto_returned in Hsave as [Hs3 Hdisk].
  unfold ret. intros [= <-]. rewrite Hs3.
  unfold StateManager.save_path in *. by rewrite <- Hdir, <- Hticks.
Qed.

Lemma finish_unit (s : StateManager * world) :
  (StateManager.touch;;
   let* sm := self in
   (if autosave sm then (StateManager.save None;; ret tt) else ret tt);;
   ret tt) s =
  (StateManager.touch;;
   let* sm := self in
   if autosave sm then (StateManager.save None;; ret tt) else ret tt) s.
Proof.
  unfold bind, self, ret. destruct (StateManager.touch s) as [[[]|] [sm w]]; [|done].
  simpl. destruct (autosave sm); [|done].
  by destruct (StateManager.save None _) as [[?|?] ?].
Qed.

(** X14: with autosave on, memory and disk agree after every mutation that
    returns.  Whatever the store held, when [set], [delete] (returning
    [True]) or [clear] returns normally, the file [state_<stamp>.json] of
    the call holds exactly the snapshot of the store as the call left
    it. *)
Theorem autosave_keeps_disk_in_sync sm w :
  autosave sm = true →
  let path := StateManager.save_path sm ("state_" +:+ strftime_Ymd_HMS (clock (S (ticks w)))) in
  (∀ key value s', StateManager.set key value (sm, w) = (Ok tt, s') → on_disk s'.1 s'.2 path) ∧
  (∀ key s', StateManager.delete key (sm, w) = (Ok true, s') → on_disk s'.1 s'.2 path) ∧
  (∀ s', StateManager.clear (sm, w) = (Ok tt, s') → on_disk s'.1 s'.2 path).
Proof.
  intros Hauto path. split; [|split].
  - intros key value s'. unfold StateManager.set.
    unfold bind at 1. unfold self at 1. unfold bind at 1. unfold lift at 1. simpl.
    destruct (py_setitem (state sm) key value) as [st|]; [|done].
    unfold bind at 1. unfold update at 1. simpl. intros Hrun.
    apply (finish_in_sync tt (with_state st sm) w s' Hauto). by rewrite finish_unit.
  - intros key s'. unfold StateManager.delete.
    unfold bind at 1. unfold self at 1. unfold bind at 1. unfold lift at 1. simpl.
    destruct (py_contains key (state sm)) as [[|]|]; [|done..].
    unfold bind at 1. unfold lift at 1. simpl.
    destruct (py_delitem (state sm) key) as [st|]; [|done].
    unfold bind at 1. unfold update at 1. simpl. intros Hrun.
    by apply (finish_in_sync true (with_state st sm) w s' Hauto).
  - intros s'. unfold StateManager.clear.
    unfold bind at 1. unfold self at 1. unfold bind at 1. unfold lift at 1. simpl.
    destruct (py_clear (state sm)) as [st|]; [|done].
    unfold bind at 1. unfold update at 1. simpl. intros Hrun.
    apply (finish_in_sync tt (with_state st sm) w s' Hauto). by rewrite finish_unit.
Qed.
End Saving.

(** ** Loading *)



Section Loading.
Context `{Host}.
Implicit Types (sm : StateManager) (w : world).

(** X15: a [load] that returns replaces and does not merge.  The entries
    and the metadata it leaves depend on the document alone: any other store
    over the same directory, whatever it held, ends with the same entries
    and metadata (and the same world), keeping only its own autosave
    setting. *)
Theorem load_forgets_previous_content sm1 sm2 w name s1' :
  state_dir sm2 = state_dir sm1 →
  StateManager.load name (sm1, w) = (Ok tt, s1') →
  ∃ sm2',
    StateManager.load name (sm2, w) = (Ok tt, (sm2', s1'.2)) ∧
    state sm2' = state s1'.1 ∧ metadata sm2' = metadata s1'.1 ∧
    autosave sm2' = autosave sm2.
Proof.
  intros Hdir. unfold StateManager.load, StateManager.load_path.
  unfold_monad. simpl. rewrite Hdir.
  destruct (fs w !! _) as [[j|c]|]; [|done..].
  destruct (py_get (json_load j) "state" (PyDict [])) as [st|]; [|done]. simpl.
  destruct (py_get (json_load j) "metadata" (PyDict [])) as [md|]; [|done]. simpl.
  unfold StateManager.touch. unfold_monad. simpl.
  destruct (py_setitem md "updated_at" _) as [md'|]; [|done]. simpl.
  intros [= <-]. by eexists.
Qed.

(** X16: [load] checks nothing about the members of the document.  A JSON
    object without a [metadata] member is loaded without complaint: the
    entries are its [state] member, or empty without one, and the metadata
    is left with [updated_at] alone, so that [created_at] and [version] are
    gone and reading [created_at] raises [KeyError]. *)
Theorem load_fills_missing_members sm w name j top :
  fs w !! StateManager.load_path sm name = Some (Document j) →
  json_load j = PyDict top →
  dict_get "metadata" top = None →
  ∃ sm',
    StateManager.load name (sm, w) = (Ok tt, (sm', tick w)) ∧
    state sm' = default (PyDict []) (dict_get "state" top) ∧
    metadata sm' = PyDict [("updated_at", PyStr (isoformat (clock (ticks w))))] ∧
    created_at sm' = Raise (KeyError "created_at").
Proof.
  intros Hfile Htop Hmd. rewrite (load_document sm w name j top Hfile Htop). rewrite Hmd.
  erewrite touch_dict by reflexivity. by eexists.
Qed.

End Loading.

(** ** Listing and backups *)

Lemma append_nil (s : string) : "" +:+ s = s.
Proof. reflexivity. Qed.

Lemma append_cons a (p s : string) : String a p +:+ s = String a (p +:+ s).
Proof. reflexivity. Qed.

Lemma append_assoc (a b c : string) : (a +:+ b) +:+ c = a +:+ (b +:+ c).
Proof. induction a as [|x a IH]; [done|]. rewrite !append_cons. by f_equal. Qed.

Lemma prefix_append (p s : string) : String.prefix p (p +:+ s) = true.
Proof.
  induction p as [|a p IH]; [by destruct s|]. rewrite append_cons. simpl.
  destruct (Ascii.ascii_dec a a); [done|congruence].
Qed.

Lemma substring_all (s : string) : String.substring 0 (String.length s) s = s.
Proof. induction s as [|a s IH]; simpl; [done|]. by rewrite IH. Qed.

Lemma substring_append (p s : string) :
  String.substring (String.length p) (String.length (p +:+ s) - String.length p) (p +:+ s) = s.
Proof.
  rewrite append_length.
  replace (String.length p + String.length s - String.length p) with (String.length s) by lia.
  induction p as [|a p IH]; [apply substring_all|]. by rewrite append_cons.
Qed.

Lemma prefix_split (p s : string) :
  String.prefix p s = true →
  s = p +:+ String.substring (String.length p) (String.length s - String.length p) s.
Proof.
  revert s. induction p as [|a p IH]; intros s Hp.
  - rewrite append_nil. simpl. rewrite Nat.sub_0_r. by rewrite substring_all.
  - destruct s as [|b s]; [done|]. simpl in Hp.
    destruct (Ascii.ascii_dec a b) as [->|]; [|done].
    rewrite append_cons. simpl. by rewrite <- IH.
Qed.

Lemma prefix_slash c (x y : string) :
  String.prefix "/" (String c x) = String.prefix "/" (String c y).
Proof.
  cbn [String.prefix]. destruct (Ascii.ascii_dec _ c); [|done]. by destruct x, y.
Qed.

Lemma slash_in_append (a b : string) :
  str_contains "/" (a +:+ b) = str_contains "/" a || str_contains "/" b.
Proof.
  induction a as [|c a IH]; [done|]. rewrite append_cons.
  cbn [str_contains]. rewrite IH, (prefix_slash c (a +:+ b) a). by rewrite orb_assoc.
Qed.

Lemma endswith_state_suffix (s : string) : endswith (s +:+ "_state") ".json" = false.
Proof.
  induction s as [|c s IH]; [done|]. rewrite append_cons.
  cbn [endswith]. rewrite IH, orb_false_r. apply String.eqb_neq.
  intros Heq. apply (f_equal String.length) in Heq. simpl in Heq.
  rewrite append_length in Heq. simpl in Heq. lia.
Qed.

Section Listing.
Context `{Host}.
Implicit Types (sm : StateManager) (w : world).

Lemma list_states_unfold sm w :
  StateManager.list_states (sm, w) =
    (Ok (omap (listed_name (state_dir sm)) (map fst (map_to_list (fs w)))), (sm, w)).
Proof. reflexivity. Qed.

Lemma listed_iff sm w n :
  n ∈ omap (listed_name (state_dir sm)) (map fst (map_to_list (fs w))) ↔
  ∃ p, is_Some (fs w !! p) ∧ listed_name (state_dir sm) p = Some n.
Proof.
  rewrite list_elem_of_omap. split.
  - intros (p & Hp & Hn). exists p. split; [|done].
    apply (list_elem_of_fmap fst) in Hp as ([p' c] & -> & Hin).
    apply elem_of_map_to_list in Hin. simpl. eauto.
  - intros (p & [c Hp] & Hn). exists p. split; [|done].
    apply (list_elem_of_fmap fst). exists (p, c). split; [done|].
    by apply elem_of_map_to_list.
Qed.

Lemma listed_name_plain dir name :
  plain name → listed_name dir (path_join dir (name +:+ ".json")) = Some (name +:+ ".json").
Proof.
  intros Hplain. unfold listed_name, path_join.
  rewrite <- append_assoc, prefix_append, substring_append.
  rewrite slash_in_append, Hplain, endswith_app. done.
Qed.

Lemma listed_name_inv dir p n :
  listed_name dir p = Some n →
  p = path_join dir n ∧ endswith n ".json" = true ∧ plain n.
Proof.
  unfold listed_name, path_join, plain.
  destruct (String.prefix _ p) eqn:Hp; [|done].
  apply prefix_split in Hp.
  destruct (str_contains "/" _) eqn:Hs; [done|]. simpl.
  destruct (endswith _ ".json") eqn:He; [|done].
  intros [= <-]. split; [|done]. rewrite <- append_assoc. exact Hp.
Qed.

(** X18: what [save] writes, [list_states] lists.  After [save name] with a
    plain name, [name.json] is among the names [list_states] returns, also
    when the save raised: the listing looks at names, not at contents. *)
Theorem saved_name_is_listed sm w name :
  plain name →
  let s' := (StateManager.save (Some name) (sm, w)).2 in
  ∃ names,
    StateManager.list_states s' = (Ok names, s') ∧ name +:+ ".json" ∈ names.
Proof.
  intros Hplain s'.
  assert (s'.1 = sm ∧ is_Some (fs s'.2 !! StateManager.save_path sm name)) as [Hsm Hfile].
  { unfold s'. rewrite save_named. simpl.
    destruct (json_dump _); simpl; (split; [done|]); by rewrite lookup_insert_eq. }
  clearbody s'. destruct s' as [sm' w']. simpl in *. subst sm'.
  eexists. split; [apply list_states_unfold|].
  apply listed_iff. exists (StateManager.save_path sm name). split; [done|].
  by apply listed_name_plain.
Qed.

(** X19: what [list_states] lists, [load] finds.  Every name it returns
    ends in [.json], has no directory part, and names a file of the
    directory, so that [load] of the name as it stands never raises
    [FileNotFoundError] (it can still fail on the contents). *)
Theorem listed_names_exist sm w names n :
  StateManager.list_states (sm, w) = (Ok names, (sm, w)) → n ∈ names →
  endswith n ".json" = true ∧ plain n ∧
  is_Some (fs w !! StateManager.load_path sm n) ∧
  ∀ e, (StateManager.load n (sm, w)).1 = Raise e → exn_type e ≠ "FileNotFoundError".
Proof.
  rewrite list_states_unfold. intros [= <-] Hn.
  apply listed_iff in Hn as (p & Hp & Hn).
  apply listed_name_inv in Hn as (-> & Hjson & Hplain).
  assert (StateManager.load_path sm n = path_join (state_dir sm) n) as Hpath.
  { unfold StateManager.load_path. by rewrite Hjson. }
  split; [done|]. split; [done|]. rewrite Hpath. split; [done|].
  intros e. unfold StateManager.load. unfold_monad. simpl. rewrite Hpath.
  destruct Hp as [[j|c] ->]; simpl.
  - destruct (py_get (json_load j) "state" (PyDict [])) as [st|e1] eqn:Hst; simpl.
    + destruct (py_get (json_load j) "metadata" (PyDict [])) as [md|e2] eqn:Hmd; simpl.
      * unfold StateManager.touch. unfold_monad. simpl.
        destruct (py_setitem md "updated_at" _) as [md'|e3] eqn:Hset; simpl; [done|].
        intros [= <-]. destruct md; simpl in Hset; by simplify_eq.
      * intros [= <-]. destruct (json_load j); simpl in Hmd; by simplify_eq.
    + intros [= <-]. destruct (json_load j); simpl in Hst; by simplify_eq.
  - by intros [= <-].
Qed.

(** X20: a backup into the default directory is not a saved state.
    [backup()] writes into [state_dir/backups], which the pattern [*.json]
    of [list_states] does not reach: the names listed after the backup are
    those listed before it. *)
Theorem default_backup_is_not_listed sm w :
  let s' := (StateManager.backup None (sm, w)).2 in
  ∃ before after,
    StateManager.list_states (sm, w) = (Ok before, (sm, w)) ∧
    StateManager.list_states s' = (Ok after, s') ∧
    ∀ n, n ∈ after ↔ n ∈ before.
Proof.
  intros s'.
  set (file := "backup_" +:+ strftime_Ymd_HMS (clock (ticks w)) +:+ ".json").
  set (path := path_join (path_join (state_dir sm) "backups") file).
  assert (s'.1 = sm ∧ ∃ c, fs s'.2 = <[path := c]> (fs w)) as [Hsm [c Hfs]].
  { unfold s', StateManager.backup, write_json. unfold_monad. simpl.
    destruct (json_dump _); simpl; (split; [done|]); by eexists. }
  assert (listed_name (state_dir sm) path = None) as Hhidden.
  { unfold listed_name, path, path_join.
    rewrite !append_assoc, <- (append_assoc (state_dir sm) "/"), prefix_append, substring_append.
    by rewrite !slash_in_append, str_contains_refl, orb_true_l, orb_true_r. }
  clearbody s'. destruct s' as [sm' w']. simpl in *. subst sm'.
  eexists _, _. split; [apply list_states_unfold|]. split; [apply list_states_unfold|].
  intros n. rewrite !listed_iff, Hfs. split; intros (p & Hp & Hn); exists p; (split; [|done]).
  - rewrite lookup_insert_ne in Hp; [done|]. intros <-. congruence.
  - rewrite lookup_insert_ne; [done|]. intros <-. congruence.
Qed.

(** X21: a backup can be restored by a store over the backup directory.
    For a store holding JSON values, [backup] returns the path
    [dir/backup_<stamp>.json] (with [dir] the given directory, or
    [state_dir/backups] when none or an empty one is given) and leaves the
    store alone; a store constructed over [dir] then loads the file under
    its name and ends with the same entries, and with the same metadata
    apart from [updated_at]. *)
Theorem backup_then_load_restores sm w backup_dir autosave2 E Mt :
  state sm = PyDict E → metadata sm = PyDict Mt →
  is_json (state sm) = true → is_json (metadata sm) = true →
  let dir := match backup_dir with
             | Some d => if String.eqb d "" then path_join (state_dir sm) "backups" else d
             | None => path_join (state_dir sm) "backups"
             end in
  let file := "backup_" +:+ strftime_Ymd_HMS (clock (ticks w)) +:+ ".json" in
  let '(r, (sm', w1)) := StateManager.backup backup_dir (sm, w) in
  r = Ok (path_join dir file) ∧ sm' = sm ∧
  let '(s2, w2) := StateManager.__init__ dir autosave2 w1 in
  ∃ s2' w3,
    StateManager.load file (s2, w2) = (Ok tt, (s2', w3)) ∧
    state s2' = state sm ∧
    ∀ k, k ≠ "updated_at" → py_getitem (metadata s2') k = py_getitem (metadata sm) k.
Proof.
  intros HE HM Hst Hmd dir file.
  destruct (json_roundtrip (snapshot sm)) as (j & Hdump & Hload).
  { unfold snapshot. simpl. by rewrite Hmd, Hst. }
  assert (StateManager.backup backup_dir (sm, w) =
            (Ok (path_join dir file),
             (sm, with_fs (<[path_join dir file := Document j]> (fs w)) (tick w)))) as ->.
  { unfold StateManager.backup, write_json. unfold_monad. simpl. fold (snapshot sm).
    rewrite Hdump. simpl. unfold dir, file. by destruct backup_dir as [d|]. }
  split; [done|]. split; [done|].
  unfold StateManager.__init__.
  set (s2 := {| state_dir := dir |}).
  set (w2 := tick (tick _)).
  assert (fs w2 !! StateManager.load_path s2 file = Some (Document j)) as Hfile.
  { assert (endswith file ".json" = true) as Hjson.
    { unfold file. rewrite <- append_assoc. apply endswith_app. }
    unfold StateManager.load_path. rewrite Hjson. simpl. apply lookup_insert_eq. }
  rewrite (load_document s2 w2 file j _ Hfile Hload). simpl.
  erewrite touch_dict by (simpl; exact HM). simpl.
  eexists _, _. split; [reflexivity|]. simpl. split; [done|].
  intros k Hk. rewrite HM. simpl. by rewrite dict_get_set_ne.
Qed.
End Listing.

(** ** Entries and metadata stay mappings *)

Section Typing.
Context `{Host}.
Implicit Types (sm : StateManager) (w : world).

Lemma json_load_dumped_dict kvs j :
  json_dump (PyDict kvs) = Ok j → ∃ kvs', json_load j = PyDict kvs'.
Proof.
  rewrite json_dump_dict. destruct (dump_members kvs); [|done]. intros [= <-]. by eexists.
Qed.

Lemma shaped_snapshot sm j top :
  well_typed sm → json_dump (snapshot sm) = Ok j → json_load j = PyDict top →
  (∀ v, dict_get "state" top = Some v → ∃ E, v = PyDict E) ∧
  (∀ v, dict_get "metadata" top = Some v → ∃ Mt, v = PyDict Mt).
Proof.
  intros (E & Mt & HE & HM) Hdump Htop.
  unfold snapshot in Hdump. rewrite json_dump_dict in Hdump. simpl in Hdump.
  destruct (json_dump (metadata sm)) as [jm|] eqn:Hjm; [|done].
  destruct (json_dump (state sm)) as [js|] eqn:Hjs; [|done].
  injection Hdump as <-. simpl in Htop. injection Htop as <-.
  rewrite HE in Hjs. rewrite HM in Hjm.
  apply json_load_dumped_dict in Hjs as [E' HE'], Hjm as [Mt' HMt'].
  simpl. split; intros v [= <-]; eauto.
Qed.

Lemma shaped_insert_garbled f p c :
  documents_shaped f → documents_shaped (<[p := Garbled c]> f).
Proof. intros Hf q j top. rewrite lookup_insert. case_decide; [done|]. apply Hf. Qed.

Lemma typed_write sm w path :
  typed (sm, w) → typed (write_json path (snapshot sm) (sm, w)).2.
Proof.
  intros [Hsm Hf]. unfold write_json.
  destruct (json_dump (snapshot sm)) as [j|e] eqn:Hdump; unfold_monad; simpl.
  - split; [done|]. simpl. intros q j' top. rewrite lookup_insert. case_decide; [|apply Hf].
    intros [= <-]. by apply (shaped_snapshot sm).
  - split; [done|]. by apply shaped_insert_garbled.
Qed.

Lemma typed_tick sm w : typed (sm, w) → typed (sm, tick w).
Proof. by intros [? ?]. Qed.

Lemma typed_save filename sm w : typed (sm, w) → typed (StateManager.save filename (sm, w)).2.
Proof.
  intros Ht. destruct filename as [name|].
  - pose proof (typed_write sm w (StateManager.save_path sm name) Ht) as Hw.
    unfold StateManager.save. unfold_monad. simpl. fold (snapshot sm).
    by destruct (write_json _ _ _) as [[[]|] ?].
  - pose proof (typed_write sm (tick w)
      (StateManager.save_path sm ("state_" +:+ strftime_Ymd_HMS (clock (ticks w))))
      (typed_tick _ _ Ht)) as Hw.
    unfold StateManager.save. unfold_monad. simpl. fold (snapshot sm).
    by destruct (write_json _ _ _) as [[[]|] ?].
Qed.

Lemma typed_autosaved {A} (a : A) s : typed s → typed (autosaved a s).2.
Proof.
  intros Ht. unfold autosaved. destruct (autosave s.1); [|done].
  destruct s as [sm w]. pose proof (typed_save None sm w Ht) as Hs.
  by destruct (StateManager.save None _) as [[?|?] ?].
Qed.

Lemma typed_stamped sm w st Mt w' :
  (∃ E, st = PyDict E) → documents_shaped (fs w') → typed (stamped sm w st Mt, w').
Proof. intros [E ->] Hf. split; [|done]. by eexists _, _. Qed.

Lemma typed_call o s : typed s → typed (call o s).
Proof.
  destruct s as [sm w]. intros Ht. pose proof Ht as [(E & Mt & HE & HM) Hf]. simpl in Hf.
  destruct o; unfold call.
  - rewrite (set_dict _ _ _ _ _ _ HE HM). apply typed_autosaved, typed_stamped; eauto.
  - by rewrite get_same.
  - destruct (dict_mem key E) eqn:Hin.
    + rewrite (delete_dict_present _ _ _ _ _ HE HM Hin).
      apply typed_autosaved, typed_stamped; eauto.
    + by rewrite (delete_dict_absent _ _ _ _ HE Hin).
  - rewrite (clear_dict _ _ _ _ HE HM). apply typed_autosaved, typed_stamped; eauto.
  - by apply typed_save.
  - destruct (fs w !! StateManager.load_path sm filename) as [[j|c]|] eqn:Hfile;
      [|unfold StateManager.load; unfold_monad; simpl; by rewrite Hfile..].
    destruct (json_load j) as [| | | | | |top|] eqn:Htop;
      try (unfold StateManager.load; unfold_monad; simpl; by rewrite Hfile, Htop).
    rewrite (load_document sm w filename j top Hfile Htop).
    destruct (Hf _ _ _ Hfile Htop) as [Hstate Hmeta].
    assert (∃ E', default (PyDict []) (dict_get "state" top) = PyDict E') as [E' ->].
    { destruct (dict_get "state" top) as [v|]; [by apply Hstate|by eexists]. }
    assert (∃ Mt', default (PyDict []) (dict_get "metadata" top) = PyDict Mt') as [Mt' ->].
    { destruct (dict_get "metadata" top) as [v|]; [by apply Hmeta|by eexists]. }
    erewrite touch_dict by reflexivity. split; [|done]. by eexists _, _.
  - by rewrite list_states_same.
  - pose proof (typed_write sm (tick w)) as Hw.
    unfold StateManager.backup. unfold_monad. simpl. fold (snapshot sm).
    match goal with |- context [write_json ?p _ _] =>
      specialize (Hw p (typed_tick _ _ Ht));
      destruct (write_json p (snapshot sm) (sm, tick w)) as [[[]|] ?] end; done.
  - by rewrite validate_state_same.
  - by rewrite get_metadata_same.
Qed.

(** X22: the annotations [Dict[str, Any]] of the two attributes are an
    invariant of a closed system.  In a system of stores over one file
    system whose documents, where they are JSON objects, hold objects under
    [state] and [metadata] (an empty directory, for instance), after every
    sequence of constructions and calls, returning or raising, the entries
    and the metadata of every store are mappings: what the stores write is
    of that shape, and what they load is what was written. *)
Theorem stores_hold_mappings w xs sm :
  documents_shaped (fs w) → sm ∈ (acts xs ([], w)).1 → well_typed sm.
Proof.
  intros Hf.
  assert (∀ sys, Forall well_typed sys.1 ∧ documents_shaped (fs sys.2) →
            Forall well_typed (acts xs sys).1 ∧ documents_shaped (fs (acts xs sys).2)) as Hacts.
  { induction xs as [|x xs IH]; intros sys Hsys; [done|]. simpl. apply IH.
    destruct sys as [stores w0]. destruct Hsys as [Hstores Hfs]. simpl in *.
    destruct x as [d b|i o]; simpl.
    - split; [|done]. apply Forall_app. split; [done|].
      apply Forall_singleton. by eexists _, _.
    - destruct (stores !! i) as [sm0|] eqn:Hi; [|done].
      assert (typed (sm0, w0)) as Ht.
      { split; [|done]. eapply (Forall_lookup_1 _ _ _ _ Hstores Hi). }
      apply (typed_call o) in Ht as [Hsm' Hf'].
      destruct (call o (sm0, w0)) as [sm' w']. simpl in *. split; [|done].
      by apply Forall_insert. }
  intros Hin. destruct (Hacts ([], w)) as [Hall _]; [by split|].
  rewrite Forall_forall in Hall. by apply Hall.
Qed.
End Typing.

(** ** The update stamp over time *)

Section Monotone.
Context `{Host}.
Implicit Types (sm : StateManager) (w : world).
Hypothesis clock_mono : ∀ i j, i ≤ j → clock i ≤ clock j.

Lemma updated_since_later u sm w w' :
  ticks w ≤ ticks w' → updated_since u (sm, w) → updated_since u (sm, w').
Proof.
  intros Ht (u' & Hu & Hle & Hnow). exists u'. split; [done|]. split; [done|].
  etrans; [exact Hnow|]. by apply clock_mono.
Qed.

Lemma save_ticks filename sm w : ticks w ≤ ticks (StateManager.save filename (sm, w)).2.2.
Proof.
  destruct filename as [name|]; [rewrite save_named|rewrite save_auto]; simpl;
    destruct (json_dump _); simpl; lia.
Qed.

Lemma updated_since_autosaved {A} (a : A) u sm w :
  updated_since u (sm, w) → updated_since u (autosaved a (sm, w)).2.
Proof.
  intros Hu. pose proof (autosaved_store a (sm, w)) as Hstore.
  assert (ticks w ≤ ticks (autosaved a (sm, w)).2.2) as Hticks.
  { unfold autosaved. simpl. destruct (autosave sm); [|done].
    pose proof (save_ticks None sm w) as Hs.
    by destruct (StateManager.save None _) as [[?|?] ?]. }
  destruct (autosaved a (sm, w)) as [r [sm' w']]. simpl in *. subst sm'.
  by eapply updated_since_later.
Qed.

Lemma updated_since_stamped u sm w st Mt :
  updated_since u (sm, w) → updated_since u (stamped sm w st Mt, tick w).
Proof.
  intros (u' & _ & Hle & Hnow). exists (clock (ticks w)). simpl in *.
  rewrite dict_get_set_eq. split; [done|]. split; [lia|]. apply clock_mono. lia.
Qed.

Lemma call_updated_since u o s :
  typed s → updated_since u s → updated_since u (call o s).
Proof.
  destruct s as [sm w]. intros [(E & Mt & HE & HM) Hf] Hu. simpl in Hf.
  destruct o; unfold call.
  - rewrite (set_dict _ _ _ _ _ _ HE HM). by apply updated_since_autosaved, updated_since_stamped.
  - by rewrite get_same.
  - destruct (dict_mem key E) eqn:Hin.
    + rewrite (delete_dict_present _ _ _ _ _ HE HM Hin).
      by apply updated_since_autosaved, updated_since_stamped.
    + by rewrite (delete_dict_absent _ _ _ _ HE Hin).
  - rewrite (clear_dict _ _ _ _ HE HM). by apply updated_since_autosaved, updated_since_stamped.
  - pose proof (save_keeps_store filename (sm, w)) as Hstore.
    pose proof (save_ticks filename sm w) as Hticks.
    destruct (StateManager.save filename (sm, w)) as [r [sm' w']]. simpl in *. subst sm'.
    by eapply updated_since_later.
  - destruct (fs w !! StateManager.load_path sm filename) as [[j|c]|] eqn:Hfile;
      [|unfold StateManager.load; unfold_monad; simpl; by rewrite Hfile..].
    destruct (json_load j) as [| | | | | |top|] eqn:Htop;
      try (unfold StateManager.load; unfold_monad; simpl; by rewrite Hfile, Htop).
    rewrite (load_document sm w filename j top Hfile Htop).
    destruct (Hf _ _ _ Hfile Htop) as [_ Hmeta].
    assert (∃ Mt', default (PyDict []) (dict_get "metadata" top) = PyDict Mt') as [Mt' ->].
    { destruct (dict_get "metadata" top) as [v|]; [by apply Hmeta|by eexists]. }
    erewrite touch_dict by reflexivity. destruct Hu as (u' & _ & Hle & Hnow).
    exists (clock (ticks w)). simpl in *. rewrite dict_get_set_eq.
    split; [done|]. split; [lia|]. apply clock_mono. lia.
  - by rewrite list_states_same.
  - assert ((StateManager.backup backup_dir (sm, w)).2.1 = sm ∧
            ticks w ≤ ticks (StateManager.backup backup_dir (sm, w)).2.2) as [Hstore Hticks].
    { unfold StateManager.backup, write_json. unfold_monad. simpl.
      destruct (json_dump _); simpl; split; (done || lia). }
    destruct (StateManager.backup backup_dir (sm, w)) as [r [sm' w']]. simpl in *. subst sm'.
    by eapply updated_since_later.
  - by rewrite validate_state_same.
  - by rewrite get_metadata_same.
Qed.

(** X23: [updated_at] never goes back.  With a clock that does not run
    backwards, for a store whose entries and metadata are mappings, over a
    file system of well-shaped documents: when [updated_at] renders an
    instant [u] that is not in the future, then after every sequence of
    calls, loads included and whether the calls return or raise,
    [updated_at] renders an instant that is not before [u] (and still not
    in the future).  Unlike [created_at], which a [load] may replace by an
    earlier or a later one, the update stamp is always the store's own. *)
Theorem updated_at_never_goes_back u os s :
  typed s → updated_since u s → updated_since u (calls os s).
Proof.
  revert s. induction os as [|o os IH]; intros s Ht Hu; [done|]. simpl.
  apply IH; [by apply typed_call|by apply call_updated_since].
Qed.
End Monotone.

(** * Further properties of the agent

    Read off [base_agent.py]: the run that succeeds, the run whose start
    hook fails, what [run] leaves alone, and saving and loading through the
    agent. *)

Section AgentFrames.
Context `{Host}.
Implicit Types (a : BaseAgent) (w : world) (sm : StateManager).

Lemma set_other_entries key value k s :
  k ≠ key →
  py_getitem (state (StateManager.set key value s).2.1) k = py_getitem (state s.1) k.
Proof.
  intros Hk. destruct s as [sm w].
  destruct (state sm) as [| | | | | |E|] eqn:HE;
    try (unfold StateManager.set; unfold_monad; simpl; rewrite HE; simpl; by rewrite HE).
  rewrite (set_entries sm w key value E HE). simpl. rewrite HE. simpl.
  by rewrite dict_get_set_ne.
Qed.

(** A hook changes one entry of the store and nothing else of the agent;
    it does not log. *)
Lemma hook_frame key value s :
  agent_id (hook key value s).2.1 = agent_id s.1 ∧
  is_running (hook key value s).2.1 = is_running s.1 ∧
  log (hook key value s).2.2 = log s.2 ∧
  ∀ k, k ≠ key → entry k (hook key value s).2 = entry k s.
Proof.
  destruct s as [a w]. rewrite hook_unfold. unfold entry.
  pose proof (call_log (OpSet key (value (clock (ticks w)))) (state_manager a, tick w)) as Hlog.
  pose proof (λ k, set_other_entries key (value (clock (ticks w))) k (state_manager a, tick w))
    as Hother.
  unfold call in Hlog.
  destruct (StateManager.set _ _ _) as [r [sm w']]. simpl in *. done.
Qed.
End AgentFrames.

Section AgentEntries.
Context `{Host}.
Implicit Types (a : BaseAgent) (w : world).

(** X24: [set_state] and [get_state] are the store's [set] and a copy of
    its entries.  After [set_state key value], whatever its outcome,
    [get_state] returns the entries with [value] under [key] and changes
    nothing; the call leaves the agent's id and running flag alone and
    writes nothing to the log. *)
Theorem get_state_after_set_state a w key value E :
  state (state_manager a) = PyDict E →
  let s' := (BaseAgent.set_state key value (a, w)).2 in
  BaseAgent.get_state s' = (Ok (PyDict (dict_set key value E)), s') ∧
  entry key s' = Ok value ∧
  agent_id s'.1 = agent_id a ∧ is_running s'.1 = is_running a ∧ log s'.2 = log w.
Proof.
  intros HE s'.
  pose proof (set_entries (state_manager a) w key value E HE) as Hset.
  pose proof (call_log (OpSet key value) (state_manager a, w)) as Hlog.
  unfold call in Hlog.
  unfold s', BaseAgent.set_state, BaseAgent.on_state_manager, entry,
    BaseAgent.get_state. unfold_monad. simpl.
  destruct (StateManager.set key value (state_manager a, w)) as [r [sm' w']]. simpl in *.
  rewrite Hset. simpl. by rewrite dict_get_set_eq.
Qed.
End AgentEntries.

Section AgentRuns.
Context `{Host}.
Implicit Types (a : BaseAgent) (w : world) (sm : StateManager).

(** X25: the run that succeeds.  When the start hook has completed, the
    process step runs with the running flag set and with [last_start]
    holding the reading taken before it.  When that step returns [r] and
    leaves a store that can be autosaved, [run] returns [r]; afterwards
    [last_success] holds the first reading taken after the step,
    [last_stop] is set, [last_error] is as the step left it (a record of an
    earlier failure is not cleared), the agent is not running, and the log
    has gained the record [Agent execution completed] and nothing else
    since the step. *)
Theorem run_returns_and_records (process : pyval → BaseAgent.method pyval) a w x r s1 s2 :
  BaseAgent.on_start (started a w) = (Ok tt, s1) →
  process x s1 = (Ok r, s2) →
  healthy (state_manager s2.1) →
  ∃ a' w' snap stop,
    BaseAgent.run process x (a, w) = (Ok r, (a', w')) ∧
    is_running s1.1 = true ∧
    entry "last_start" s1 = Ok (PyStr (isoformat (clock (ticks w)))) ∧
    BaseAgent.get_state (a', w') = (Ok snap, (a', w')) ∧
    py_getitem snap "last_success" = Ok (PyStr (isoformat (clock (ticks s2.2)))) ∧
    py_getitem snap "last_stop" = Ok (PyStr stop) ∧
    py_getitem snap "last_error" = entry "last_error" s2 ∧
    is_running a' = false ∧
    log w' = (log s2.2 ++ [LogRecord (agent_id s2.1) "INFO" "Agent execution completed"])%list.
Proof.
  intros Hstart Hproc Hh2. destruct s2 as [a2 w2]. unfold entry. simpl in Hh2.
  pose proof Hh2 as (E2 & Mt2 & HE2 & _).
  destruct (hook_healthy "last_success" (λ t, PyStr (isoformat t)) a2 w2 E2 HE2 Hh2 eq_refl)
    as (sm3 & w3 & Hsucc & Hh3 & HE3).
  pose proof (hook_frame "last_success" (λ t, PyStr (isoformat t)) (a2, w2)) as (_ & _ & Hlog3 & _).
  rewrite Hsucc in Hlog3. simpl in Hlog3.
  set (a3 := with_state_manager sm3 a2) in *.
  destruct (hook_healthy "last_stop" (λ t, PyStr (isoformat t)) a3 w3 _ HE3 Hh3 eq_refl)
    as (sm4 & w4 & Hstop & Hh4 & HE4).
  pose proof (hook_frame "last_stop" (λ t, PyStr (isoformat t)) (a3, w3)) as (_ & _ & Hlog4 & _).
  rewrite Hstop in Hlog4. simpl in Hlog4.
  assert (attempt process x (started a w) = (Ok r, (a3, w3))) as Hatt.
  { unfold attempt, try_except. unfold bind at 1. rewrite Hstart.
    unfold bind at 1. rewrite Hproc.
    unfold bind at 1. rewrite on_success_hook, Hsucc. done. }
  assert (is_running s1.1 = true ∧
          py_getitem (state (state_manager s1.1)) "last_start" =
            Ok (PyStr (isoformat (clock (ticks w))))) as [Hrun1 Hlast].
  { pose proof Hstart as Hs. unfold started in Hs.
    rewrite on_start_hook, hook_unfold in Hs. simpl in Hs.
    destruct (StateManager.set _ _ _) as [[[]|] [sm1 w1]] eqn:Hset; [|done].
    injection Hs as <-. simpl. split; [done|].
    apply set_returned in Hset as (E & Mt & HE & HM & Hsm1 & _). simpl in Hsm1. subst sm1.
    simpl. by rewrite dict_get_set_eq. }
  eexists _, _, _, _.
  split. { rewrite run_unfold, Hatt, on_stop_hook, Hstop. reflexivity. }
  split; [done|]. split; [done|].
  unfold BaseAgent.get_state. unfold_monad. simpl. rewrite HE4. simpl.
  split; [reflexivity|]. rewrite HE2. unfold py_getitem.
  rewrite (dict_get_set_ne "last_stop" "last_success") by done. rewrite !dict_get_set_eq.
  split; [reflexivity|]. split; [reflexivity|].
  rewrite !dict_get_set_ne by done.
  split; [done|]. split; [done|]. by rewrite Hlog4, Hlog3.
Qed.

(** X26: when the start hook raises, the process step is not invoked: the
    outcome of [run], result and final agent and world alike, is the same
    for every process step, and it is a failure. *)
Theorem process_is_skipped_when_start_fails
    (process process' : pyval → BaseAgent.method pyval) a w x e s1 :
  BaseAgent.on_start (started a w) = (Raise e, s1) →
  BaseAgent.run process x (a, w) = BaseAgent.run process' x (a, w) ∧
  is_ok (BaseAgent.run process x (a, w)).1 = false.
Proof.
  intros Hstart.
  set (handled := if is_Exception e then recover e s1 else (Raise e, s1)).
  assert (∀ p, attempt p x (started a w) = handled) as Hatt.
  { intros p. unfold attempt, try_except. unfold bind at 1. by rewrite Hstart. }
  rewrite !run_unfold, !Hatt. split; [done|].
  assert (is_ok handled.1 = false) as Hrec.
  { unfold handled. destruct (is_Exception e); [|done].
    unfold recover. unfold bind at 1. unfold BaseAgent.logger at 1. unfold_monad. simpl.
    by destruct (BaseAgent.on_error e _) as [[[]|] ?]. }
  destruct handled as [[r|e0] s]; [done|].
  by destruct (BaseAgent.on_stop s) as [[[]|] ?].
Qed.

(** X27: [run] writes the four entries of its hooks and no other.  For
    every key other than [last_start], [last_success], [last_error] and
    [last_stop] that the process step leaves alone, reading the entry after
    [run] gives what it gave before, whatever the outcome of the run and
    whatever the store holds. *)
Theorem run_keeps_other_entries (process : pyval → BaseAgent.method pyval) a w x k :
  k ∉ ["last_start"; "last_success"; "last_error"; "last_stop"] →
  (∀ s, entry k (process x s).2 = entry k s) →
  entry k (BaseAgent.run process x (a, w)).2 = entry k (a, w).
Proof.
  intros Hk Hprocess.
  assert (∀ key value s, key ∈ ["last_start"; "last_success"; "last_error"; "last_stop"] →
            entry k (hook key value s).2 = entry k s) as Hhook.
  { intros key value s Hkey. apply (hook_frame key value s). by intros ->. }
  assert (∀ e s, entry k (if is_Exception e then recover e s else (Raise e, s)).2 = entry k s)
    as Hrecover.
  { intros e [a0 w0]. destruct (is_Exception e); [|done].
    unfold recover. unfold bind at 1. unfold BaseAgent.logger at 1.
    unfold_monad. simpl. rewrite on_error_hook.
    match goal with |- context [hook ?key ?v ?s0] =>
      pose proof (Hhook key v s0) as Hh; destruct (hook key v s0) as [[[]|] s1] end;
      simpl in *; apply Hh; set_solver. }
  assert (entry k (attempt process x (started a w)).2 = entry k (a, w)) as Hattempt.
  { unfold attempt, try_except. unfold bind at 1. rewrite on_start_hook.
    pose proof (Hhook "last_start" (λ t, PyStr (isoformat t)) (started a w)) as H1.
    destruct (hook "last_start" _ _) as [[[]|e1] s1]; simpl in H1;
      [|rewrite Hrecover; apply H1; set_solver].
    unfold bind at 1. specialize (Hprocess s1).
    destruct (process x s1) as [[r|e2] s2]; simpl in Hprocess;
      [|rewrite Hrecover, Hprocess; apply H1; set_solver].
    unfold bind at 1. rewrite on_success_hook.
    pose proof (Hhook "last_success" (λ t, PyStr (isoformat t)) s2) as H2.
    destruct (hook "last_success" _ s2) as [[[]|e3] s3]; simpl in H2.
    - unfold ret. simpl. rewrite H2, Hprocess by set_solver. apply H1. set_solver.
    - rewrite Hrecover, H2, Hprocess by set_solver. apply H1. set_solver. }
  rewrite run_unfold. destruct (attempt process x (started a w)) as [r0 s]. simpl in Hattempt.
  pose proof (Hhook "last_stop" (λ t, PyStr (isoformat t)) s) as Hstop.
  rewrite <- on_stop_hook in Hstop.
  destruct (BaseAgent.on_stop s) as [[[]|e] s']; simpl in Hstop;
    rewrite <- Hattempt, <- Hstop by set_solver; done.
Qed.

(** X28: saving and loading through the agent.  [save_state()] without a
    name writes [state_dir/<agent_id>_state.json], returns that path,
    changes nothing of the agent and does not read the clock.  Whatever the
    agent's id, [load_state("<agent_id>_state")] then finds that file: for
    a store holding JSON values, any agent over the same directory ends
    with the saved entries, keeps its id and its running flag, and logs
    [State loaded from <agent_id>_state]. *)
Theorem save_state_then_load_state a a2 w E Mt :
  plain (agent_id a) →
  state (state_manager a) = PyDict E → metadata (state_manager a) = PyDict Mt →
  is_json (state (state_manager a)) = true → is_json (metadata (state_manager a)) = true →
  state_dir (state_manager a2) = state_dir (state_manager a) →
  let name := agent_id a +:+ "_state" in
  let '(r, (a1, w1)) := BaseAgent.save_state None (a, w) in
  r = Ok (path_join (state_dir (state_manager a)) (name +:+ ".json")) ∧ a1 = a ∧
  ticks w1 = ticks w ∧
  ∃ a2' w2,
    BaseAgent.load_state name (a2, w1) = (Ok tt, (a2', w2)) ∧
    state (state_manager a2') = state (state_manager a) ∧
    agent_id a2' = agent_id a2 ∧ is_running a2' = is_running a2 ∧
    log w2 = (log w1 ++ [LogRecord (agent_id a2) "INFO" ("State loaded from " +:+ name)])%list.
Proof.
  intros _ HE HM Hst Hmd Hdir name.
  destruct (json_roundtrip (snapshot (state_manager a))) as (j & Hdump & Hload).
  { unfold snapshot. simpl. by rewrite Hmd, Hst. }
  unfold BaseAgent.save_state, BaseAgent.on_state_manager. unfold_monad. simpl.
  rewrite save_named. fold (snapshot (state_manager a)). rewrite Hdump. fold name.
  split; [done|]. split; [by destruct a|]. split; [done|].
  set (w1 := with_fs _ w).
  assert (fs w1 !! StateManager.load_path (state_manager a2) name = Some (Document j)) as Hfile.
  { unfold StateManager.load_path, name. rewrite endswith_state_suffix, Hdir. simpl.
    apply lookup_insert_eq. }
  unfold BaseAgent.load_state, BaseAgent.on_state_manager, BaseAgent.logger.
  unfold_monad. simpl.
  rewrite (load_document _ w1 name j _ Hfile Hload). simpl.
  erewrite touch_dict by (simpl; exact HM). simpl.
  eexists _, _. split; [reflexivity|]. done.
Qed.

(** X29: a [load_state] that fails is not logged.  When the store's [load]
    raises, [load_state] raises the same exception, leaves the agent with
    whatever [load] left in the store, and adds no record to the log. *)
Theorem failed_load_state_is_not_logged a w name e sm' w' :
  StateManager.load name (state_manager a, w) = (Raise e, (sm', w')) →
  BaseAgent.load_state name (a, w) = (Raise e, (with_state_manager sm' a, w')) ∧
  log w' = log w.
Proof.
  intros Hload. split.
  - unfold BaseAgent.load_state, BaseAgent.on_state_manager. unfold bind at 1. simpl.
    by rewrite Hload.
  - pose proof (call_log (OpLoad name) (state_manager a, w)) as Hlog.
    unfold call in Hlog. by rewrite Hload in Hlog.
Qed.
End AgentRuns.

(** * The model at work

    The scenarios below run on the simulated host [Sim.host], from the empty
    world [Sim.boot]. *)

Section Scenarios.
Local Existing Instance Sim.host.

Example test_initialization :
  state fixture.1 = PyDict [] ∧ autosave fixture.1 = false ∧
  created_at fixture.1 = Ok (PyStr "T100") ∧
  py_getitem (metadata fixture.1) "version" = Ok (PyStr "1.0").
Proof. done. Qed.

Example test_set_and_get :
  let s := calls [OpSet "key1" (PyStr "value1"); OpSet "key2" (PyInt 42)] fixture in
  (StateManager.get "key1" PyNone s).1 = Ok (PyStr "value1") ∧
  (StateManager.get "key2" PyNone s).1 = Ok (PyInt 42) ∧
  (StateManager.get "nonexistent" (PyStr "default") s).1 = Ok (PyStr "default").
Proof. done. Qed.

Example test_delete :
  let s := call (OpSet "key1" (PyStr "value1")) fixture in
  let '(r, s') := StateManager.delete "key1" s in
  r = Ok true ∧ (StateManager.get "key1" PyNone s').1 = Ok PyNone ∧
  (StateManager.delete "nonexistent" s').1 = Ok false.
Proof. done. Qed.

Example test_clear :
  let s := calls [OpSet "key1" (PyStr "value1"); OpSet "key2" (PyStr "value2"); OpClear] fixture in
  state s.1 = PyDict [].
Proof. done. Qed.

Example test_save_and_load :
  let s := calls [OpSet "key1" (PyStr "value1"); OpSet "key2" (PyInt 42)] fixture in
  let '(path, s) := StateManager.save (Some "test_state") s in
  let new_sm := StateManager.__init__ "tmp" false s.2 in
  let '(r, new_sm) := StateManager.load "test_state.json" new_sm in
  path = Ok "tmp/test_state.json" ∧ r = Ok tt ∧
  (StateManager.get "key1" PyNone new_sm).1 = Ok (PyStr "value1") ∧
  (StateManager.get "key2" PyNone new_sm).1 = Ok (PyInt 42).
Proof. vm_compute. done. Qed.

Example test_validate_state :
  let s := calls [OpSet "name" (PyStr "test"); OpSet "count" (PyInt 42)] fixture in
  (StateManager.validate_state [("name", TStr); ("count", TInt)] s).1 = Ok true ∧
  (StateManager.validate_state [("name", TInt)] s).1 = Ok false.
Proof. done. Qed.

Example test_autosave :
  let s := call (OpSet "key1" (PyStr "value1")) (StateManager.__init__ "tmp" true Sim.boot) in
  (StateManager.list_states s).1 = Ok ["state_10.json"].
Proof. vm_compute. done. Qed.

Example test_run :
  let agent := BaseAgent.__init__ "test_agent" "tmp" "logs" false Sim.boot in
  let '(r, s) := BaseAgent.run TestAgent_process (PyStr "test data") agent in
  r = Ok (PyStr "Processed: test data") ∧ is_running s.1 = false ∧
  state (state_manager s.1) =
    PyDict [("last_start", PyStr "T102"); ("last_success", PyStr "T104");
            ("last_stop", PyStr "T106")].
Proof. vm_compute. done. Qed.

Example test_on_error :
  let agent := BaseAgent.__init__ "error_agent" "tmp" "logs" false Sim.boot in
  let '(r, s) := BaseAgent.run ErrorAgent_process (PyStr "data") agent in
  r = Raise (Exn "ValueError" "Test error") ∧ is_running s.1 = false ∧
  py_getitem (state (state_manager s.1)) "last_error" =
    Ok (PyDict [("timestamp", PyStr "T104"); ("error", PyStr "Test error");
                ("type", PyStr "ValueError")]).
Proof. vm_compute. done. Qed.

(** [KeyboardInterrupt] is not an [Exception]: [run] lets it through, logs
    no error and records none. *)
Example run_lets_keyboard_interrupt_through :
  let agent := BaseAgent.__init__ "test_agent" "tmp" "logs" false Sim.boot in
  let '(r, s) := BaseAgent.run InterruptedAgent_process (PyStr "data") agent in
  r = Raise (MkExn "KeyboardInterrupt" "" false) ∧ is_running s.1 = false ∧
  state (state_manager s.1) =
    PyDict [("last_start", PyStr "T102"); ("last_stop", PyStr "T104")] ∧
  map log_level (log s.2) = ["INFO"; "INFO"; "INFO"].
Proof. vm_compute. done. Qed.
End Scenarios.

(** * Counterexamples and instances of the claims *)

Section Instances.
Local Existing Instance Sim.host.

(** C1, as stated, fails: saved under the name [snap.json], the snapshot is
    written to [snap.json.json], and the fresh store's [load] of the same
    name raises [FileNotFoundError]. *)
Lemma roundtrip_fails_for_suffixed_name :
  ¬ roundtrip_holds counting.1 "snap.json" false counting.2.
Proof.
  intros Hrt.
  specialize (Hrt [("count", PyInt 42)]
                  [("created_at", PyStr "T100"); ("updated_at", PyStr "T102");
                   ("version", PyStr "1.0")]
                  (PyStr "1.0") eq_refl eq_refl eq_refl).
  vm_compute in Hrt. destruct Hrt as (s2' & w3 & Mt' & Hload & _). discriminate Hload.
Qed.

(** An instance of the amended C1: the same store, the name [snap1]. *)
Lemma save_then_load_roundtrip_witness :
  plain "snap1" ∧
  endswith "snap1" ".json" = false ∧
  is_json (state counting.1) = true ∧
  is_json (metadata counting.1) = true ∧
  roundtrip_holds counting.1 "snap1" true counting.2.
Proof.
  split; [reflexivity|]. split; [reflexivity|]. split; [reflexivity|]. split; [reflexivity|].
  apply (save_then_load_roundtrip counting.1 "snap1" true counting.2); reflexivity.
Defined.

(** C2, as stated, fails: the process step of this agent raises
    [ValueError("boom")] after keeping a socket in the state.  With autosave
    on, the error hook records the failure in memory and then raises the
    encoder's [TypeError], which is what [run] raises; the stop hook raises
    too and the agent is left running. *)
Lemma run_replaces_failure_when_hooks_raise :
  let agent := BaseAgent.__init__ "leaky" "tmp" "logs" true Sim.boot in
  let s1 := (BaseAgent.on_start (started agent.1 agent.2)).2 in
  let '(r, (a, w)) := BaseAgent.run LeakyAgent_process (PyStr "data") agent in
  (LeakyAgent_process (PyStr "data") s1).1 = Raise (Exn "ValueError" "boom") ∧
  r = Raise (not_serializable "socket") ∧
  r ≠ Raise (Exn "ValueError" "boom") ∧
  py_getitem (state (state_manager a)) "last_error" =
    Ok (PyDict [("timestamp", PyStr "T105"); ("error", PyStr "boom");
                ("type", PyStr "ValueError")]) ∧
  is_running a = true.
Proof. vm_compute. repeat split. discriminate. Qed.

(** An instance of the amended C2: the error agent of the tests. *)
Lemma run_reraises_and_records_witness :
  let agent := BaseAgent.__init__ "error_agent" "tmp" "logs" false Sim.boot in
  let e := Exn "ValueError" "Test error" in
  let s1 := (BaseAgent.on_start (started agent.1 agent.2)).2 in
  BaseAgent.on_start (started agent.1 agent.2) = (Ok tt, s1) ∧
  ErrorAgent_process (PyStr "data") s1 = (Raise e, s1) ∧
  is_Exception e = true ∧
  healthy (state_manager s1.1) ∧
  ∃ a' w' snap record msg stop,
    BaseAgent.run ErrorAgent_process (PyStr "data") (agent.1, agent.2) = (Raise e, (a', w')) ∧
    BaseAgent.get_state (a', w') = (Ok snap, (a', w')) ∧
    py_getitem snap "last_error" = Ok record ∧
    py_getitem record "error" = Ok (PyStr msg) ∧
    msg = exn_str e ∧
    str_contains (exn_str e) msg = true ∧
    py_getitem record "type" = Ok (PyStr (exn_type e)) ∧
    py_getitem snap "last_stop" = Ok (PyStr stop) ∧
    is_running a' = false.
Proof.
  assert (healthy (state_manager
            (BaseAgent.on_start
               (started (BaseAgent.__init__ "error_agent" "tmp" "logs" false Sim.boot).1
                        (BaseAgent.__init__ "error_agent" "tmp" "logs" false Sim.boot).2)).2.1))
    as Hhealthy.
  { eexists _, _. split; [reflexivity|]. split; [reflexivity|]. left. reflexivity. }
  split; [reflexivity|]. split; [reflexivity|]. split; [reflexivity|]. split; [exact Hhealthy|].
  apply (run_reraises_and_records ErrorAgent_process
           (BaseAgent.__init__ "error_agent" "tmp" "logs" false Sim.boot).1
           (BaseAgent.__init__ "error_agent" "tmp" "logs" false Sim.boot).2
           (PyStr "data") (Exn "ValueError" "Test error") _ _ eq_refl eq_refl eq_refl Hhealthy).
Defined.

(** C3, as stated, fails: a second store over the same directory, built at
    a later time, loads the snapshot the first one saved, and its
    [created_at] becomes the first store's. *)
Lemma load_replaces_created_at :
  let '(first, w1) := fixture in
  let w2 := (StateManager.save (Some "shared") (first, w1)).2.2 in
  let '(second, w3) := StateManager.__init__ "tmp" false w2 in
  let second' := (call (OpLoad "shared") (second, w3)).1 in
  created_at second = Ok (PyStr "T102") ∧
  created_at second' = Ok (PyStr "T100") ∧
  created_at second' ≠ created_at second.
Proof. vm_compute. repeat split. discriminate. Qed.

(** The failing run of C4: an agent with autosave on whose store holds a
    value JSON cannot represent ([set_state] raised on it, and the entry
    stayed).  Every hook's autosave now raises; the stop hook is invoked and
    stores [last_stop], but it raises before [run] resets the flag, and the
    agent is left running. *)
Lemma run_leaves_agent_running :
  let agent := BaseAgent.__init__ "agent" "tmp" "logs" true Sim.boot in
  let '(r0, s0) := BaseAgent.set_state "handle" (PyObject "Socket") agent in
  let '(r, (a, w)) := BaseAgent.run TestAgent_process (PyStr "hello") s0 in
  r0 = Raise (not_serializable "Socket") ∧
  r = Raise (not_serializable "Socket") ∧
  py_getitem (state (state_manager a)) "last_stop" = Ok (PyStr "T110") ∧
  is_running a = true.
Proof. vm_compute. done. Qed.

(** An instance of C5: a value JSON cannot represent, with autosave on. *)
Lemma set_places_entry_witness :
  let sm := (StateManager.__init__ "tmp" true Sim.boot).1 in
  let w := (StateManager.__init__ "tmp" true Sim.boot).2 in
  state sm = PyDict [] ∧
  let '(r, (sm', w')) := StateManager.set "handle" (PyObject "Socket") (sm, w) in
  state sm' = PyDict (dict_set "handle" (PyObject "Socket") []) ∧
  dict_get "handle" (dict_set "handle" (PyObject "Socket") []) = Some (PyObject "Socket") ∧
  (∀ Mt, metadata sm = PyDict Mt → autosave sm = false → r = Ok tt) ∧
  (∀ e Mt, json_dump (PyObject "Socket") = Raise e → metadata sm = PyDict Mt →
     (autosave sm = true → ∃ e', r = Raise e') ∧
     (∀ name w'', ∃ e', (StateManager.save name (sm', w'')).1 = Raise e')).
Proof.
  split; [reflexivity|].
  apply (set_places_entry (StateManager.__init__ "tmp" true Sim.boot).1
           (StateManager.__init__ "tmp" true Sim.boot).2 "handle" (PyObject "Socket") []).
  reflexivity.
Defined.

(** C6, as stated, fails: a snapshot written where the clock was ahead
    carries a creation stamp later than the time of the load; [load] takes
    it over and stamps [updated_at] with the earlier, current time. *)
Lemma load_takes_over_later_created_at :
  let ahead :=
    Document (JObject [("metadata", JObject [("created_at", JString "T999");
                                             ("updated_at", JString "T999");
                                             ("version", JString "1.0")]);
                       ("state", JObject [])]) in
  let w := with_fs {[ "tmp/ahead.json" := ahead ]} fixture.2 in
  let sm := (call (OpLoad "ahead") (fixture.1, w)).1 in
  metadata sm = PyDict [("created_at", PyStr "T999"); ("updated_at", PyStr "T102");
                        ("version", PyStr "1.0")] ∧
  ¬ stamps_ordered sm.
Proof.
  split; [by vm_compute|].
  intros (c & u & Hc & Hu & Hle).
  change (py_getitem _ "created_at") with (Ok (PyStr ("T" +:+ pretty 999))) in Hc.
  change (py_getitem _ "updated_at") with (Ok (PyStr ("T" +:+ pretty 102))) in Hu.
  change (isoformat c) with ("T" +:+ pretty c) in Hc.
  change (isoformat u) with ("T" +:+ pretty u) in Hu.
  injection Hc as Hc. injection Hu as Hu.
  apply (inj (String.append "")), (inj pretty) in Hc.
  apply (inj (String.append "")), (inj pretty) in Hu. lia.
Qed.

(** An instance of the amended C6: the two stores of [busy_day], from the
    empty world. *)
Lemma updated_at_not_before_created_at_witness :
  (∀ i j, i ≤ j → clock i ≤ clock j) ∧
  documents_stamped Sim.boot ∧
  Forall stamps_ordered (acts busy_day ([], Sim.boot)).1.
Proof.
  assert (∀ i j, i ≤ j → clock i ≤ clock j) as Hclock by (intros i j Hij; simpl; lia).
  assert (documents_stamped Sim.boot) as Hdocs by (intros p j top Hp; done).
  split; [exact Hclock|]. split; [exact Hdocs|].
  apply Forall_forall. intros sm Hin.
  exact (updated_at_not_before_created_at Sim.boot busy_day sm Hclock Hdocs Hin).
Defined.



(** An instance of C9: the schemas of the tests, and an absent key. *)
Lemma validate_state_checks_present_keys_witness :
  state counting.1 = PyDict [("count", PyInt 42)] ∧
  ∃ b, StateManager.validate_state [("count", TInt); ("missing", TStr)] (counting.1, counting.2)
         = (Ok b, (counting.1, counting.2)) ∧
       (b = true ↔
          ∀ k t v, (k, t) ∈ [("count", TInt); ("missing", TStr)] →
                   dict_get k [("count", PyInt 42)] = Some v → isinstance v t = true) ∧
       ((∀ k t, (k, t) ∈ [("count", TInt); ("missing", TStr)] →
                dict_get k [("count", PyInt 42)] = None) → b = true).
Proof.
  split; [reflexivity|].
  apply (validate_state_checks_present_keys counting.1 counting.2
           [("count", TInt); ("missing", TStr)] [("count", PyInt 42)]).
  reflexivity.
Defined.

(** C10, as stated, fails: a document whose [metadata] member is an array
    makes [load] raise [TypeError] at the stamp, after it has replaced the
    entries and the metadata of the store by the document's. *)
Lemma load_raises_after_assigning :
  let doc := Document (JObject [("state", JObject [("k", JNumber 1)]); ("metadata", JArray [])]) in
  let w := with_fs {[ "tmp/odd.json" := doc ]} fixture.2 in
  let '(r, (sm', w')) := StateManager.load "odd" (fixture.1, w) in
  state fixture.1 = PyDict [] ∧
  r = Raise (TypeError "list indices must be integers or slices, not str") ∧
  state sm' = PyDict [("k", PyInt 1)] ∧
  metadata sm' = PyList [] ∧
  state sm' ≠ state fixture.1 ∧ metadata sm' ≠ metadata fixture.1.
Proof. vm_compute. repeat split; discriminate. Qed.

(** An instance of the amended C10: the missing document of the spec's
    scenario D. *)
Lemma load_failure_leaves_store_witness :
  (fs fixture.2 !! StateManager.load_path fixture.1 "missing" = None ∨
   ∃ complaint, fs fixture.2 !! StateManager.load_path fixture.1 "missing" = Some (Garbled complaint)) ∧
  ∃ e, StateManager.load "missing" (fixture.1, fixture.2) = (Raise e, (fixture.1, fixture.2)) ∧
       (fs fixture.2 !! StateManager.load_path fixture.1 "missing" = None →
        exn_type e = "FileNotFoundError") ∧
       (is_Some (fs fixture.2 !! StateManager.load_path fixture.1 "missing") →
        exn_type e = "JSONDecodeError").
Proof.
  assert (fs fixture.2 !! StateManager.load_path fixture.1 "missing" = None) as Hnone
    by reflexivity.
  split; [by left|].
  apply (proj1 (load_failure_leaves_store fixture.1 fixture.2 "missing")). by left.
Defined.
End Instances.

(** * Instances of the further properties *)

Section FurtherInstances.
Local Existing Instance Sim.host.

(** An instance of X2: the empty store of the tests and the key [k]. *)
Lemma get_after_set_witness :
  state fixture.1 = PyDict [] ∧
  ∀ dflt,
    (StateManager.get "k" dflt (StateManager.set "k" (PyInt 1) (fixture.1, fixture.2)).2).1
      = Ok (PyInt 1) ∧
    ∀ key', key' ≠ "k" →
      (StateManager.get key' dflt (StateManager.set "k" (PyInt 1) (fixture.1, fixture.2)).2).1
        = (StateManager.get key' dflt (fixture.1, fixture.2)).1.
Proof.
  split; [reflexivity|].
  exact (get_after_set fixture.1 fixture.2 "k" (PyInt 1) [] eq_refl).
Defined.

(** An instance of X3: deleting [count] from the store that holds it. *)
Lemma delete_is_idempotent_witness :
  state counting.1 = PyDict [("count", PyInt 42)] ∧
  let s' := (StateManager.delete "count" (counting.1, counting.2)).2 in
  StateManager.delete "count" s' = (Ok false, s') ∧
  ∀ dflt,
    (StateManager.get "count" dflt s').1 = Ok dflt ∧
    ∀ key', key' ≠ "count" →
      (StateManager.get key' dflt s').1 = (StateManager.get key' dflt (counting.1, counting.2)).1.
Proof.
  split; [reflexivity|].
  exact (delete_is_idempotent counting.1 counting.2 "count" [("count", PyInt 42)] eq_refl).
Defined.

(** An instance of X4: the store with autosave on that holds a socket, and
    so cannot be saved; its metadata can. *)
Lemma clear_empties_and_recovers_witness :
  state poisoned.1 = PyDict [("handle", PyObject "Socket")] ∧
  metadata poisoned.1 = PyDict [("created_at", PyStr "T100"); ("updated_at", PyStr "T102");
                                ("version", PyStr "1.0")] ∧
  is_ok (json_dump (snapshot poisoned.1)) = false ∧
  let '(r, (sm', w')) := StateManager.clear (poisoned.1, poisoned.2) in
  state sm' = PyDict [] ∧
  (∀ key dflt, (StateManager.get key dflt (sm', w')).1 = Ok dflt) ∧
  (is_ok (json_dump (metadata poisoned.1)) = true → r = Ok tt ∧ healthy sm').
Proof.
  split; [reflexivity|]. split; [reflexivity|]. split; [reflexivity|].
  exact (clear_empties_and_recovers poisoned.1 poisoned.2 _ _ eq_refl eq_refl).
Defined.

(** An instance of X10: the store that holds [count] saves under [snap]. *)
Lemma save_touches_only_its_target_witness :
  (∀ n, Some "snap" = Some n → plain n) ∧
  let path := StateManager.save_path counting.1 "snap" in
  let '(r, (sm', w')) := StateManager.save (Some "snap") (counting.1, counting.2) in
  sm' = counting.1 ∧ log w' = log counting.2 ∧
  (∀ p, p ≠ path → fs w' !! p = fs counting.2 !! p) ∧
  (is_Some (Some "snap") → ticks w' = ticks counting.2) ∧
  match json_dump (snapshot counting.1) with
  | Ok j => r = Ok path ∧ fs w' !! path = Some (Document j)
  | Raise e => r = Raise e ∧ ∃ c, fs w' !! path = Some (Garbled c)
  end.
Proof.
  assert (∀ n, Some "snap" = Some n → plain n) as Hplain by (by intros n [= <-]).
  split; [exact Hplain|].
  exact (save_touches_only_its_target (Some "snap") counting.1 counting.2 Hplain).
Defined.

(** An instance of X11: the store that holds a socket saves under [snap], and
    the store of the tests loads [snap]. *)
Lemma failed_save_corrupts_snapshot_witness :
  plain "snap" ∧ endswith "snap" ".json" = false ∧
  state_dir fixture.1 = state_dir poisoned.1 ∧
  json_dump (snapshot poisoned.1) = Raise (not_serializable "Socket") ∧
  let '(r, (sm', w')) := StateManager.save (Some "snap") (poisoned.1, poisoned.2) in
  r = Raise (not_serializable "Socket") ∧ sm' = poisoned.1 ∧
  ∃ e', StateManager.load "snap" (fixture.1, w') = (Raise e', (fixture.1, w')) ∧
        exn_type e' = "JSONDecodeError".
Proof.
  split; [reflexivity|]. split; [reflexivity|]. split; [reflexivity|]. split; [reflexivity|].
  exact (failed_save_corrupts_snapshot poisoned.1 fixture.1 poisoned.2 "snap" _
           eq_refl eq_refl eq_refl eq_refl).
Defined.

(** An instance of X13: two [set] calls on the autosaving store; on the
    simulated host ten readings of the clock make a second. *)
Lemma mutations_in_one_second_share_a_snapshot_witness :
  autosave autosaving.1 = true ∧
  serialisable autosaving.1 ∧
  strftime_Ymd_HMS (clock (S (ticks autosaving.2))) =
    strftime_Ymd_HMS (clock (S (S (S (ticks autosaving.2))))) ∧
  let '(sm', w') := calls [OpSet "a" (PyInt 1); OpSet "b" (PyInt 2)]
                          (autosaving.1, autosaving.2) in
  ∃ j,
    fs w' = <[StateManager.save_path autosaving.1
                ("state_" +:+ strftime_Ymd_HMS (clock (S (ticks autosaving.2))))
                := Document j]> (fs autosaving.2) ∧
    json_dump (snapshot sm') = Ok j ∧
    state sm' = PyDict (dict_set "b" (PyInt 2) (dict_set "a" (PyInt 1) [])).
Proof.
  split; [reflexivity|]. split; [reflexivity|]. split; [reflexivity|].
  exact (mutations_in_one_second_share_a_snapshot autosaving.1 autosaving.2
           "a" (PyInt 1) "b" (PyInt 2) _ _ eq_refl eq_refl eq_refl eq_refl eq_refl eq_refl eq_refl).
Defined.

(** An instance of X14: the autosaving store. *)
Lemma autosave_keeps_disk_in_sync_witness :
  autosave autosaving.1 = true ∧
  let path := StateManager.save_path autosaving.1
                ("state_" +:+ strftime_Ymd_HMS (clock (S (ticks autosaving.2)))) in
  (∀ key value s',
     StateManager.set key value (autosaving.1, autosaving.2) = (Ok tt, s') →
     on_disk s'.1 s'.2 path) ∧
  (∀ key s',
     StateManager.delete key (autosaving.1, autosaving.2) = (Ok true, s') →
     on_disk s'.1 s'.2 path) ∧
  (∀ s', StateManager.clear (autosaving.1, autosaving.2) = (Ok tt, s') → on_disk s'.1 s'.2 path).
Proof.
  split; [reflexivity|].
  exact (autosave_keeps_disk_in_sync autosaving.1 autosaving.2 eq_refl).
Defined.

(** An instance of X8: a [set] on the store of the tests, which has autosave
    off. *)
Lemma only_saving_writes_witness :
  may_write (OpSet "k" (PyInt 1)) fixture.1 = false ∧
  fs (call (OpSet "k" (PyInt 1)) (fixture.1, fixture.2)).2 = fs fixture.2.
Proof.
  split; [reflexivity|].
  exact (only_saving_writes (OpSet "k" (PyInt 1)) fixture.1 fixture.2 eq_refl).
Defined.

(** An instance of X6: [version] over a [set], a [clear] and a [save]. *)
Lemma only_updated_at_is_restamped_witness :
  let os := [OpSet "k" (PyInt 1); OpClear; OpSave (Some "s")] in
  (∀ o, o ∈ os → is_load o = false) ∧ "version" ≠ "updated_at" ∧
  py_getitem (metadata (calls os fixture).1) "version" = py_getitem (metadata fixture.1) "version".
Proof.
  assert (∀ o, o ∈ [OpSet "k" (PyInt 1); OpClear; OpSave (Some "s")] → is_load o = false)
    as Hos.
  { intros o Ho. repeat (apply elem_of_cons in Ho as [->|Ho]; [reflexivity|]).
    by apply elem_of_nil in Ho. }
  assert ("version" ≠ "updated_at") as Hk by discriminate.
  split; [exact Hos|]. split; [exact Hk|].
  exact (only_updated_at_is_restamped _ fixture "version" Hos Hk).
Defined.

(** An instance of X15: the snapshot [shared], loaded by the empty store and
    by the store that holds [count]. *)
Lemma load_forgets_previous_content_witness :
  let s1' := (StateManager.load "shared" (fixture.1, shared)).2 in
  state_dir counting.1 = state_dir fixture.1 ∧
  StateManager.load "shared" (fixture.1, shared) = (Ok tt, s1') ∧
  ∃ sm2',
    StateManager.load "shared" (counting.1, shared) = (Ok tt, (sm2', s1'.2)) ∧
    state sm2' = state s1'.1 ∧ metadata sm2' = metadata s1'.1 ∧
    autosave sm2' = autosave counting.1.
Proof.
  split; [reflexivity|]. split; [reflexivity|].
  exact (load_forgets_previous_content fixture.1 counting.1 shared "shared" _ eq_refl eq_refl).
Defined.

(** An instance of X16: the document that is an empty JSON object. *)
Lemma load_fills_missing_members_witness :
  fs empty_document !! StateManager.load_path fixture.1 "empty" = Some (Document (JObject [])) ∧
  ∃ sm',
    StateManager.load "empty" (fixture.1, empty_document) = (Ok tt, (sm', tick empty_document)) ∧
    state sm' = PyDict [] ∧
    metadata sm' = PyDict [("updated_at", PyStr (isoformat (clock (ticks empty_document))))] ∧
    created_at sm' = Raise (KeyError "created_at").
Proof.
  split; [reflexivity|].
  exact (load_fills_missing_members fixture.1 empty_document "empty" (JObject []) []
           eq_refl eq_refl eq_refl).
Defined.


(** An instance of X18: the name [snap]. *)
Lemma saved_name_is_listed_witness :
  plain "snap" ∧
  let s' := (StateManager.save (Some "snap") (counting.1, counting.2)).2 in
  ∃ names, StateManager.list_states s' = (Ok names, s') ∧ "snap" +:+ ".json" ∈ names.
Proof.
  split; [reflexivity|].
  exact (saved_name_is_listed counting.1 counting.2 "snap" eq_refl).
Defined.

(** An instance of X19: the one snapshot of the autosaving store. *)
Lemma listed_names_exist_witness :
  StateManager.list_states (snapshotted.1, snapshotted.2) =
    (Ok ["state_10.json"], (snapshotted.1, snapshotted.2)) ∧
  endswith "state_10.json" ".json" = true ∧ plain "state_10.json" ∧
  is_Some (fs snapshotted.2 !! StateManager.load_path snapshotted.1 "state_10.json") ∧
  ∀ e, (StateManager.load "state_10.json" (snapshotted.1, snapshotted.2)).1 = Raise e →
       exn_type e ≠ "FileNotFoundError".
Proof.
  assert (StateManager.list_states (snapshotted.1, snapshotted.2) =
            (Ok ["state_10.json"], (snapshotted.1, snapshotted.2))) as Hlist
    by (vm_compute; reflexivity).
  split; [exact Hlist|].
  exact (listed_names_exist snapshotted.1 snapshotted.2 _ "state_10.json" Hlist
           (list_elem_of_here _ _)).
Defined.

(** An instance of X21: a backup of the store that holds [count], into the
    default directory. *)
Lemma backup_then_load_restores_witness :
  is_json (state counting.1) = true ∧ is_json (metadata counting.1) = true ∧
  let dir := path_join (state_dir counting.1) "backups" in
  let file := "backup_" +:+ strftime_Ymd_HMS (clock (ticks counting.2)) +:+ ".json" in
  let '(r, (sm', w1)) := StateManager.backup None (counting.1, counting.2) in
  r = Ok (path_join dir file) ∧ sm' = counting.1 ∧
  let '(s2, w2) := StateManager.__init__ dir false w1 in
  ∃ s2' w3,
    StateManager.load file (s2, w2) = (Ok tt, (s2', w3)) ∧
    state s2' = state counting.1 ∧
    ∀ k, k ≠ "updated_at" →
      py_getitem (metadata s2') k = py_getitem (metadata counting.1) k.
Proof.
  split; [reflexivity|]. split; [reflexivity|].
  exact (backup_then_load_restores counting.1 counting.2 None false _ _
           eq_refl eq_refl eq_refl eq_refl).
Defined.

(** An instance of X22: the two stores of [busy_day], from the empty world. *)
Lemma stores_hold_mappings_witness :
  documents_shaped (fs Sim.boot) ∧ Forall well_typed (acts busy_day ([], Sim.boot)).1.
Proof.
  assert (documents_shaped (fs Sim.boot)) as Hdocs by (intros p j top Hp; done).
  split; [exact Hdocs|].
  apply Forall_forall. intros sm Hin.
  exact (stores_hold_mappings Sim.boot busy_day sm Hdocs Hin).
Defined.

(** An instance of X25: the agent of the tests on the input [test data]. *)
Lemma run_returns_and_records_witness :
  let s1 := (BaseAgent.on_start (started test_agent.1 test_agent.2)).2 in
  BaseAgent.on_start (started test_agent.1 test_agent.2) = (Ok tt, s1) ∧
  TestAgent_process (PyStr "test data") s1 = (Ok (PyStr "Processed: test data"), s1) ∧
  healthy (state_manager s1.1) ∧
  ∃ a' w' snap stop,
    BaseAgent.run TestAgent_process (PyStr "test data") (test_agent.1, test_agent.2)
      = (Ok (PyStr "Processed: test data"), (a', w')) ∧
    is_running s1.1 = true ∧
    entry "last_start" s1 = Ok (PyStr (isoformat (clock (ticks test_agent.2)))) ∧
    BaseAgent.get_state (a', w') = (Ok snap, (a', w')) ∧
    py_getitem snap "last_success" = Ok (PyStr (isoformat (clock (ticks s1.2)))) ∧
    py_getitem snap "last_stop" = Ok (PyStr stop) ∧
    py_getitem snap "last_error" = entry "last_error" s1 ∧
    is_running a' = false ∧
    log w' = (log s1.2 ++ [LogRecord (agent_id s1.1) "INFO" "Agent execution completed"])%list.
Proof.
  assert (healthy (state_manager
            (BaseAgent.on_start (started test_agent.1 test_agent.2)).2.1)) as Hhealthy.
  { eexists _, _. split; [reflexivity|]. split; [reflexivity|]. left. reflexivity. }
  split; [reflexivity|]. split; [reflexivity|]. split; [exact Hhealthy|].
  exact (run_returns_and_records TestAgent_process test_agent.1 test_agent.2
           (PyStr "test data") _ _ _ eq_refl eq_refl Hhealthy).
Defined.

(** An instance of X26: the agent whose store holds a socket, under the two
    process steps of the tests. *)
Lemma process_is_skipped_when_start_fails_witness :
  let s1 := (BaseAgent.on_start (started poisoned_agent.1 poisoned_agent.2)).2 in
  BaseAgent.on_start (started poisoned_agent.1 poisoned_agent.2)
    = (Raise (not_serializable "Socket"), s1) ∧
  BaseAgent.run TestAgent_process (PyStr "hello") (poisoned_agent.1, poisoned_agent.2)
    = BaseAgent.run ErrorAgent_process (PyStr "hello") (poisoned_agent.1, poisoned_agent.2) ∧
  is_ok (BaseAgent.run TestAgent_process (PyStr "hello")
           (poisoned_agent.1, poisoned_agent.2)).1 = false.
Proof.
  split; [reflexivity|].
  exact (process_is_skipped_when_start_fails TestAgent_process ErrorAgent_process
           poisoned_agent.1 poisoned_agent.2 (PyStr "hello") _ _ eq_refl).
Defined.

(** An instance of X27: the entry [count] over a run of the agent of the
    tests. *)
Lemma run_keeps_other_entries_witness :
  ("count" ∉ ["last_start"; "last_success"; "last_error"; "last_stop"]) ∧
  (∀ s, entry "count" (TestAgent_process (PyStr "hello") s).2 = entry "count" s) ∧
  entry "count" (BaseAgent.run TestAgent_process (PyStr "hello")
                   (counting_agent.1, counting_agent.2)).2 = Ok (PyInt 42).
Proof.
  assert ("count" ∉ ["last_start"; "last_success"; "last_error"; "last_stop"]) as Hk.
  { intros Hin. repeat (apply elem_of_cons in Hin as [Heq|Hin]; [discriminate Heq|]).
    by apply elem_of_nil in Hin. }
  assert (∀ s, entry "count" (TestAgent_process (PyStr "hello") s).2 = entry "count" s)
    as Hprocess by reflexivity.
  split; [exact Hk|]. split; [exact Hprocess|].
  exact (run_keeps_other_entries TestAgent_process counting_agent.1 counting_agent.2
           (PyStr "hello") "count" Hk Hprocess).
Defined.

(** An instance of X28: the agent that holds [count] saves, and a fresh agent
    over the same directory loads. *)
Lemma save_state_then_load_state_witness :
  plain (agent_id counting_agent.1) ∧
  is_json (state (state_manager counting_agent.1)) = true ∧
  is_json (metadata (state_manager counting_agent.1)) = true ∧
  state_dir (state_manager test_agent.1) = state_dir (state_manager counting_agent.1) ∧
  let name := agent_id counting_agent.1 +:+ "_state" in
  let '(r, (a1, w1)) := BaseAgent.save_state None (counting_agent.1, counting_agent.2) in
  r = Ok (path_join (state_dir (state_manager counting_agent.1)) (name +:+ ".json")) ∧
  a1 = counting_agent.1 ∧ ticks w1 = ticks counting_agent.2 ∧
  ∃ a2' w2,
    BaseAgent.load_state name (test_agent.1, w1) = (Ok tt, (a2', w2)) ∧
    state (state_manager a2') = state (state_manager counting_agent.1) ∧
    agent_id a2' = agent_id test_agent.1 ∧ is_running a2' = is_running test_agent.1 ∧
    log w2 = (log w1 ++ [LogRecord (agent_id test_agent.1) "INFO"
                           ("State loaded from " +:+ name)])%list.
Proof.
  split; [reflexivity|]. split; [reflexivity|]. split; [reflexivity|]. split; [reflexivity|].
  exact (save_state_then_load_state counting_agent.1 test_agent.1 counting_agent.2 _ _
           eq_refl eq_refl eq_refl eq_refl eq_refl eq_refl).
Defined.

(** An instance of X29: a snapshot that does not exist. *)
Lemma failed_load_state_is_not_logged_witness :
  let e := Exn "FileNotFoundError" "State file not found: tmp/missing.json" in
  StateManager.load "missing" (state_manager test_agent.1, test_agent.2)
    = (Raise e, (state_manager test_agent.1, test_agent.2)) ∧
  BaseAgent.load_state "missing" (test_agent.1, test_agent.2)
    = (Raise e, (with_state_manager (state_manager test_agent.1) test_agent.1, test_agent.2)) ∧
  log test_agent.2 = log test_agent.2.
Proof.
  split; [reflexivity|].
  exact (failed_load_state_is_not_logged test_agent.1 test_agent.2 "missing" _ _ _ eq_refl).
Defined.

(** An instance of X5: the store that holds [count]. *)
Lemma mutations_restamp_updated_at_witness :
  state counting.1 = PyDict [("count", PyInt 42)] ∧
  let stamp := Ok (PyStr (isoformat (clock (ticks counting.2)))) in
  (∀ key value,
     py_getitem (metadata (StateManager.set key value (counting.1, counting.2)).2.1) "updated_at"
       = stamp) ∧
  (∀ key, is_Some (dict_get key [("count", PyInt 42)]) →
     py_getitem (metadata (StateManager.delete key (counting.1, counting.2)).2.1) "updated_at"
       = stamp) ∧
  py_getitem (metadata (StateManager.clear (counting.1, counting.2)).2.1) "updated_at" = stamp.
Proof.
  split; [reflexivity|].
  exact (mutations_restamp_updated_at counting.1 counting.2 _ _ eq_refl eq_refl).
Defined.

(** An instance of X12: the store that holds [count] and the empty store,
    over the same directory, save within one second. *)
Lemma default_named_saves_collide_witness :
  let j1 := JObject [("metadata", JObject [("created_at", JString "T100");
                                           ("updated_at", JString "T102");
                                           ("version", JString "1.0")]);
                     ("state", JObject [("count", JNumber 42)])] in
  let j2 := JObject [("metadata", JObject [("created_at", JString "T100");
                                           ("updated_at", JString "T101");
                                           ("version", JString "1.0")]);
                     ("state", JObject [])] in
  state_dir fixture.1 = state_dir counting.1 ∧
  strftime_Ymd_HMS (clock (S (ticks counting.2))) = strftime_Ymd_HMS (clock (ticks counting.2)) ∧
  json_dump (snapshot counting.1) = Ok j1 ∧ json_dump (snapshot fixture.1) = Ok j2 ∧
  let '(r1, (_, w1)) := StateManager.save None (counting.1, counting.2) in
  let '(r2, (_, w2)) := StateManager.save None (fixture.1, w1) in
  ∃ path,
    r1 = Ok path ∧ r2 = Ok path ∧
    fs w1 !! path = Some (Document j1) ∧
    fs w2 = <[path := Document j2]> (fs counting.2).
Proof.
  split; [reflexivity|]. split; [reflexivity|]. split; [reflexivity|]. split; [reflexivity|].
  exact (default_named_saves_collide counting.1 fixture.1 counting.2 _ _
           eq_refl eq_refl eq_refl eq_refl).
Defined.
(** An instance of X23: a [set], a [save], a [load] of what was saved and a
    [clear], on the store that holds [count], whose stamp is the instant
    102. *)
Lemma updated_at_never_goes_back_witness :
  let os := [OpSet "k" (PyInt 1); OpSave (Some "s"); OpLoad "s"; OpClear] in
  (∀ i j, i ≤ j → clock i ≤ clock j) ∧ typed counting ∧ updated_since 102 counting ∧
  updated_since 102 (calls os counting).
Proof.
  assert (∀ i j, i ≤ j → clock i ≤ clock j) as Hclock by (intros i j Hij; simpl; lia).
  assert (typed counting) as Htyped.
  { split; [by eexists _, _|]. intros p j top Hp. done. }
  assert (updated_since 102 counting) as Hstamp.
  { exists 102. split; [reflexivity|]. split; [lia|]. simpl. lia. }
  split; [exact Hclock|]. split; [exact Htyped|]. split; [exact Hstamp|].
  exact (updated_at_never_goes_back Hclock 102 _ counting Htyped Hstamp).
Defined.

(** An instance of X24: the agent of the tests stores [count]. *)
Lemma get_state_after_set_state_witness :
  state (state_manager test_agent.1) = PyDict [] ∧
  let s' := (BaseAgent.set_state "count" (PyInt 42) (test_agent.1, test_agent.2)).2 in
  BaseAgent.get_state s' = (Ok (PyDict (dict_set "count" (PyInt 42) [])), s') ∧
  entry "count" s' = Ok (PyInt 42) ∧
  agent_id s'.1 = agent_id test_agent.1 ∧ is_running s'.1 = is_running test_agent.1 ∧
  log s'.2 = log test_agent.2.
Proof.
  split; [reflexivity|].
  exact (get_state_after_set_state test_agent.1 test_agent.2 "count" (PyInt 42) [] eq_refl).
Defined.
End FurtherInstances.
